(** * h3: events, handler composition, response serialization, errors, SSE

    A shallow embedding of the request-handling core of the h3 HTTP
    framework (TypeScript) and the properties its specification states
    about it.

    Layout, leaf first:
    - [JS]        strings with [indexOf]/[slice]/[trim]/[split], numbers;
    - [Web]       the platform objects the code receives and builds:
                  [Headers], [Response], byte buffers, blobs, streams;
    - [Dyn]       dynamically typed values, property reads, [ToString];
    - [Sanitize]  utils/sanitize.ts;
    - [Error]     error.ts: [H3Error], [createError], [isError];
    - [Json]      [JSON.stringify] on the values of [Dyn];
    - [Event]     event.ts: [H3WebEvent] and its cached URL accessors;
    - [Whatwg]    the pathname of a parsed URL, after the URL Standard;
    - [Response]  response.ts: [prepareResponse] and friends, and
                  [noContent] of utils/response.ts;
    - [Handler]   handler.ts: [defineEventHandler] and [_callHandler];
    - [SSE]       utils/internal/event-stream.ts: [EventStream];
    - [Spec]      the notions and sample data the properties are stated with;
    - [Util]      [redirect] of utils/response.ts;
    - [Lazy]      handler.ts: [defineLazyEventHandler];
    - [Send]      [EventStream.send] and the event-stream headers;
    - [Cors]      utils/internal/cors.ts and utils/cors.ts;
    - [Cover]     further notions and sample data.

    The properties follow the definitions, component by component. *)

From Stdlib Require Import String Ascii List ZArith Bool Lia DecimalString.
Import ListNotations.

Set Warnings "-register-all".

Local Open Scope string_scope.
Local Open Scope list_scope.
Local Open Scope Z_scope.

(* ===================================================================== *)
(** ** JavaScript data *)
(* ===================================================================== *)

Module JS.

(** *** Strings

    A string is a sequence of code units; the model keeps the code units
    below 256, which covers every marker the code searches for. *)

Definition LF : string := String (ascii_of_nat 10) EmptyString.

Fixpoint drop (n : nat) (s : string) : string :=
  match n, s with
  | O, _ => s
  | S _, EmptyString => EmptyString
  | S n', String _ s' => drop n' s'
  end.

Fixpoint take (n : nat) (s : string) : string :=
  match n, s with
  | O, _ => EmptyString
  | S _, EmptyString => EmptyString
  | S n', String c s' => String c (take n' s')
  end.

(** [search sub s pos]: the first offset, counted from [pos], at which
    [sub] occurs in [s]. *)
Fixpoint search (sub s : string) (pos : nat) : option nat :=
  if prefix sub s then Some pos
  else match s with
       | EmptyString => None
       | String _ s' => search sub s' (S pos)
       end.

(** [String.prototype.indexOf(sub, from)]; [-1] when there is no match. *)
Definition indexOf (s sub : string) (from : Z) : Z :=
  let k := Z.to_nat (Z.min (Z.max from 0) (Z.of_nat (String.length s))) in
  match search sub (drop k s) k with
  | Some i => Z.of_nat i
  | None => -1
  end.

(** A relative index of [slice]: negative counts from the end, and the
    result is clamped to [0 .. len]. *)
Definition relative (len i : Z) : Z :=
  if i <? 0 then Z.max (len + i) 0 else Z.min i len.

(** [String.prototype.slice(start, end)]; [None] is an [undefined] end. *)
Definition slice (s : string) (start : Z) (end_ : option Z) : string :=
  let len := Z.of_nat (String.length s) in
  let from := relative len start in
  let to := match end_ with None => len | Some e => relative len e end in
  take (Z.to_nat (Z.max (to - from) 0)) (drop (Z.to_nat from) s).

(** White space and line terminators of [trim], below code unit 256. *)
Definition isWhiteSpace (c : ascii) : bool :=
  let n := nat_of_ascii c in
  ((9 <=? n) && (n <=? 13))%nat || (n =? 32)%nat || (n =? 160)%nat.

Fixpoint trimStart (s : string) : string :=
  match s with
  | EmptyString => EmptyString
  | String c s' => if isWhiteSpace c then trimStart s' else s
  end.

Fixpoint trimEnd (s : string) : string :=
  match s with
  | EmptyString => EmptyString
  | String c s' =>
      match trimEnd s' with
      | EmptyString => if isWhiteSpace c then EmptyString else String c EmptyString
      | t => String c t
      end
  end.

Definition trim (s : string) : string := trimEnd (trimStart s).

(** [s.split("\n")]: the pieces between line feeds, at least one piece. *)
Fixpoint splitLines (s : string) : list string :=
  match s with
  | EmptyString => [EmptyString]
  | String c s' =>
      if (nat_of_ascii c =? 10)%nat then EmptyString :: splitLines s'
      else match splitLines s' with
           | [] => [String c EmptyString]
           | l :: ls => String c l :: ls
           end
  end.

Definition toLowerChar (c : ascii) : ascii :=
  let n := nat_of_ascii c in
  if ((65 <=? n) && (n <=? 90))%nat then ascii_of_nat (n + 32) else c.

Fixpoint toLowerCase (s : string) : string :=
  match s with
  | EmptyString => EmptyString
  | String c s' => String (toLowerChar c) (toLowerCase s')
  end.

Fixpoint forallb_string (p : ascii -> bool) (s : string) : bool :=
  match s with
  | EmptyString => true
  | String c s' => p c && forallb_string p s'
  end.

Fixpoint filterChars (keep : ascii -> bool) (s : string) : string :=
  match s with
  | EmptyString => EmptyString
  | String c s' =>
      if keep c then String c (filterChars keep s') else filterChars keep s'
  end.

(** *** Numbers

    [Finite z] is the integer-valued double [z], for [z] of magnitude
    up to 2^53; status codes, retry delays and byte lengths are such
    numbers.  [NaN] and the infinities are kept because the code can
    produce and compare them.  A number with a fractional part, such as
    404.5, is not among these values: what is proved of a number below
    is proved of the integer-valued ones. *)

Inductive number : Type :=
| NaN
| Infinity (negative : bool)
| Finite (z : Z).

Definition lt (a b : number) : bool :=
  match a, b with
  | NaN, _ | _, NaN => false
  | Infinity true, Infinity true => false
  | Infinity true, _ => true
  | _, Infinity true => false
  | Infinity false, _ => false
  | _, Infinity false => true
  | Finite x, Finite y => x <? y
  end.

Definition gt (a b : number) : bool := lt b a.

(** [a === b] on numbers: [NaN] differs from itself. *)
Definition number_eq (a b : number) : bool :=
  match a, b with
  | Finite x, Finite y => x =? y
  | Infinity s, Infinity t => Bool.eqb s t
  | _, _ => false
  end.

Definition isInteger (n : number) : bool :=
  match n with Finite _ => true | _ => false end.

Definition decimal (z : Z) : string := NilZero.string_of_int (Z.to_int z).

(** [Number::toString]: the decimal digits of an integer, as JavaScript
    prints an integer-valued double of magnitude up to 2^53.  Past that
    a double no longer holds every integer, and from 1e21 on JavaScript
    prints an exponent. *)
Definition Number_toString (n : number) : string :=
  match n with
  | NaN => "NaN"
  | Infinity false => "Infinity"
  | Infinity true => "-Infinity"
  | Finite z => decimal z
  end.

Definition isDigit (c : ascii) : bool :=
  let n := nat_of_ascii c in ((48 <=? n) && (n <=? 57))%nat.

Fixpoint digits (s : string) (acc : option Z) : option Z :=
  match s with
  | EmptyString => acc
  | String c s' =>
      if isDigit c then
        let d := Z.of_nat (nat_of_ascii c - 48) in
        digits s' (Some (match acc with None => d | Some a => 10 * a + d end))
      else acc
  end.

(** [Number.parseInt(s, 10)]: leading white space, an optional sign, the
    longest run of decimal digits; [NaN] when there is no digit. *)
Definition parseInt10 (s : string) : number :=
  let t := trimStart s in
  let '(neg, body) :=
    match t with
    | String "-" r => (true, r)
    | String "+" r => (false, r)
    | _ => (false, t)
    end in
  match digits body None with
  | None => NaN
  | Some z => Finite (if neg then - z else z)
  end.

End JS.

(* ===================================================================== *)
(** ** Platform objects *)
(* ===================================================================== *)

Module Web.

(** *** Headers

    The header list of the Fetch standard: names are matched without
    regard to case and kept in lower case; a name may repeat.  Names and
    values are taken to be valid (the platform throws on others). *)

Definition Headers : Type := list (string * string).

Definition isHttpWhitespace (c : ascii) : bool :=
  let n := nat_of_ascii c in
  ((n =? 9) || (n =? 10) || (n =? 13) || (n =? 32))%nat.

Fixpoint stripStart (s : string) : string :=
  match s with
  | EmptyString => EmptyString
  | String c s' => if isHttpWhitespace c then stripStart s' else s
  end.

Fixpoint stripEnd (s : string) : string :=
  match s with
  | EmptyString => EmptyString
  | String c s' =>
      match stripEnd s' with
      | EmptyString =>
          if isHttpWhitespace c then EmptyString else String c EmptyString
      | t => String c t
      end
  end.

(** Values are normalized: surrounding HTTP white space is removed. *)
Definition normalize (v : string) : string := stripEnd (stripStart v).

Definition named (name : string) (entry : string * string) : bool :=
  String.eqb (fst entry) (JS.toLowerCase name).

Definition has (h : Headers) (name : string) : bool :=
  existsb (named name) h.

Definition values (h : Headers) (name : string) : list string :=
  map snd (filter (named name) h).

(** [get]: [None] is [null]; repeated entries are joined by [", "]. *)
Definition get (h : Headers) (name : string) : option string :=
  match values h name with
  | [] => None
  | v :: vs => Some (fold_left (fun acc x => acc ++ ", " ++ x)%string vs v)
  end.

Definition append (h : Headers) (name value : string) : Headers :=
  h ++ [(JS.toLowerCase name, normalize value)].

Definition delete (h : Headers) (name : string) : Headers :=
  filter (fun e => negb (named name e)) h.

(** [set]: the first entry of that name takes the value and the others
    go; a new name is appended. *)
Fixpoint set (h : Headers) (name value : string) : Headers :=
  match h with
  | [] => [(JS.toLowerCase name, normalize value)]
  | e :: h' =>
      if named name e
      then (JS.toLowerCase name, normalize value) :: delete h' name
      else e :: set h' name value
  end.

(** A plain object used as a [Record<string, string>]: keys are kept as
    written, in insertion order; assignment replaces or adds a key. *)
Definition HeadersObject : Type := list (string * string).

Fixpoint assign (o : HeadersObject) (key value : string) : HeadersObject :=
  match o with
  | [] => [(key, value)]
  | (k, v) :: o' =>
      if String.eqb k key then (k, value) :: o' else (k, v) :: assign o' key value
  end.

(** [o[key]] *)
Fixpoint read (o : HeadersObject) (key : string) : option string :=
  match o with
  | [] => None
  | (k, v) :: o' => if String.eqb k key then Some v else read o' key
  end.

(** [new Headers(init)] on a record: one [append] per key. *)
Definition Headers_of (init : HeadersObject) : Headers :=
  fold_left (fun h kv => append h (fst kv) (snd kv)) init [].

(** *** Bodies and responses *)

Definition Uint8Array : Type := list Byte.byte.

Definition byteLength (b : Uint8Array) : nat := List.length b.

(** A readable stream, by the chunks it yields. *)
Definition ReadableStream : Type := list Uint8Array.

Record Blob : Type := {
  blob_type : string;
  blob_bytes : Uint8Array;
}.

Definition blob_size (b : Blob) : nat := List.length (blob_bytes b).
Definition blob_stream (b : Blob) : ReadableStream := [blob_bytes b].

(** A platform [Response]: its body is a stream or [null]. *)
Record Response : Type := {
  res_status : JS.number;
  res_statusText : string;
  res_headers : Headers;
  res_body : option ReadableStream;
}.

(** [new Response(null)]. *)
Definition emptyResponse : Response :=
  {| res_status := JS.Finite 200; res_statusText := "";
     res_headers := []; res_body := None |}.

End Web.

(* ===================================================================== *)
(** ** Dynamically typed values *)
(* ===================================================================== *)

Module Dyn.

Import JS.

(** What a call throws.  [IllTyped] is no exception of the program: it
    is the outcome of a definition below when a field declared to hold a
    number or a string is handed a value of another type, which the
    program stores as it is; the definitions do not follow the program
    past that point. *)
Inductive exn : Type :=
| TypeError (msg : string)
| IllTyped (field : string).

Inductive result (A : Type) : Type :=
| Ok (a : A)
| Throw (e : exn).

Arguments Ok {A} a.
Arguments Throw {A} e.

Definition bind {A B : Type} (r : result A) (k : A -> result B) : result B :=
  match r with
  | Ok a => k a
  | Throw e => Throw e
  end.

Notation "'let*' x ':=' r 'in' k" := (bind r (fun x => k))
  (at level 10, x name, r at level 100, k at level 200).

Notation "'let*' ' p ':=' r 'in' k" :=
  (bind r (fun x => match x with p => k end))
  (at level 10, p pattern, r at level 100, k at level 200).

Inductive symbol : Type :=
| SymbolFor (key : string)
| SymbolLocal (id : nat).

Definition symbol_eqb (a b : symbol) : bool :=
  match a, b with
  | SymbolFor x, SymbolFor y => String.eqb x y
  | SymbolLocal x, SymbolLocal y => Nat.eqb x y
  | _, _ => false
  end.

(** The fields of class [H3Error] (error.ts); [V] is the type of the
    fields that hold arbitrary values. *)
Record H3ErrorOf (V : Type) : Type := mkH3Error {
  message : string;
  statusCode : number;
  fatal : V;
  unhandled : V;
  statusMessage : option string;
  data : V;
  cause : V;
  stack : V;
}.

Arguments mkH3Error {V}.
Arguments message {V}.
Arguments statusCode {V}.
Arguments fatal {V}.
Arguments unhandled {V}.
Arguments statusMessage {V}.
Arguments data {V}.
Arguments cause {V}.
Arguments stack {V}.

(** The values a handler can return and an error can carry.  Objects are
    inert data: [props] lists the enumerable own properties in insertion
    order.  An [Error] instance keeps [name], [message], [stack] and
    [cause] apart, as they are not enumerable. *)
Inductive value : Type :=
| VUndefined
| VNull
| VBoolean (b : bool)
| VNumber (n : number)
| VString (s : string)
| VBigInt (z : Z)
| VSymbol (s : symbol)
| VFunction (source : string)
| VObject (props : list (string * value))
| VArray (items : list value)
| VError (name msg : string) (trace : option string) (because : value)
         (props : list (string * value))
| VH3Error (e : H3ErrorOf value)
| VUint8Array (b : Web.Uint8Array)
| VResponse (r : Web.Response)
| VBlob (b : Web.Blob)
| VStream (s : Web.ReadableStream).

Definition H3Error : Type := H3ErrorOf value.

Definition typeof (v : value) : string :=
  match v with
  | VUndefined => "undefined"
  | VBoolean _ => "boolean"
  | VNumber _ => "number"
  | VString _ => "string"
  | VBigInt _ => "bigint"
  | VSymbol _ => "symbol"
  | VFunction _ => "function"
  | _ => "object"
  end.

(** [!!v] *)
Definition truthy (v : value) : bool :=
  match v with
  | VUndefined | VNull => false
  | VBoolean b => b
  | VNumber (Finite z) => negb (z =? 0)
  | VNumber NaN => false
  | VNumber (Infinity _) => true
  | VString s => negb (String.eqb s "")
  | VBigInt z => negb (z =? 0)
  | _ => true
  end.

Definition nullish (v : value) : bool :=
  match v with VUndefined | VNull => true | _ => false end.

(** [a ?? b] *)
Definition coalesce (a b : value) : value := if nullish a then b else a.

Infix "??" := coalesce (at level 45, right associativity).

Fixpoint lookup (k : string) (props : list (string * value)) : option value :=
  match props with
  | [] => None
  | (k', v) :: rest => if String.eqb k' k then Some v else lookup k rest
  end.

Definition of_option (o : option value) : value :=
  match o with Some v => v | None => VUndefined end.

Definition of_string (o : option string) : value :=
  match o with Some s => VString s | None => VUndefined end.

(** [v.k] on a receiver that is neither [null] nor [undefined]; on those
    two, [v?.k].  A property that is absent reads as [undefined]. *)
Definition get (v : value) (k : string) : value :=
  match v with
  | VObject props => of_option (lookup k props)
  | VError name msg trace because props =>
      if String.eqb k "name" then VString name
      else if String.eqb k "message" then VString msg
      else if String.eqb k "stack" then of_string trace
      else if String.eqb k "cause" then because
      else of_option (lookup k props)
  | VH3Error e =>
      if String.eqb k "name" then VString "Error"
      else if String.eqb k "message" then VString (message e)
      else if String.eqb k "statusCode" then VNumber (statusCode e)
      else if String.eqb k "fatal" then fatal e
      else if String.eqb k "unhandled" then unhandled e
      else if String.eqb k "statusMessage" then of_string (statusMessage e)
      else if String.eqb k "data" then data e
      else if String.eqb k "cause" then cause e
      else if String.eqb k "stack" then stack e
      else VUndefined
  | VArray items =>
      if String.eqb k "length" then VNumber (Finite (Z.of_nat (List.length items)))
      else VUndefined
  | VString s =>
      if String.eqb k "length" then VNumber (Finite (Z.of_nat (String.length s)))
      else VUndefined
  | VResponse r =>
      if String.eqb k "status" then VNumber (Web.res_status r)
      else if String.eqb k "statusText" then VString (Web.res_statusText r)
      else VUndefined
  | _ => VUndefined
  end.

(** [k in v], with the [try]/[catch] of [hasProp]: [false] on a
    receiver that is not an object. *)
Definition has_property (v : value) (k : string) : bool :=
  match v with
  | VObject props => match lookup k props with Some _ => true | None => false end
  | VError _ _ trace _ props =>
      String.eqb k "name" || String.eqb k "message" ||
      (String.eqb k "stack" && match trace with Some _ => true | None => false end) ||
      String.eqb k "cause" ||
      match lookup k props with Some _ => true | None => false end
  | VH3Error _ =>
      existsb (String.eqb k)
        ["name"; "message"; "statusCode"; "fatal"; "unhandled"; "stack"]
  | _ => false
  end.

Definition join (sep : string) (l : list string) : string :=
  match l with
  | [] => ""
  | x :: xs => fold_left (fun acc y => acc ++ sep ++ y)%string xs x
  end.

Definition errorText (name msg : string) : string :=
  if String.eqb name "" then msg
  else if String.eqb msg "" then name
  else (name ++ ": " ++ msg)%string.

(** [String(v)].  A symbol cannot be converted. *)
Fixpoint ToString (v : value) : result string :=
  match v with
  | VUndefined => Ok "undefined"
  | VNull => Ok "null"
  | VBoolean b => Ok (if b then "true" else "false")
  | VNumber n => Ok (Number_toString n)
  | VString s => Ok s
  | VBigInt z => Ok (decimal z)
  | VSymbol _ => Throw (TypeError "Cannot convert a Symbol value to a string")
  | VFunction source => Ok source
  | VObject _ => Ok "[object Object]"
  | VArray items =>
      let fix each (l : list value) : result (list string) :=
        match l with
        | [] => Ok []
        | x :: xs =>
            let* s := (if nullish x then Ok "" else ToString x) in
            let* ss := each xs in
            Ok (s :: ss)
        end in
      let* parts := each items in
      Ok (join "," parts)
  | VError name msg _ _ _ => Ok (errorText name msg)
  | VH3Error e => Ok (errorText "Error" (message e))
  | VUint8Array b =>
      Ok (join "," (map (fun x => decimal (Z.of_N (Byte.to_N x))) b))
  | VResponse _ => Ok "[object Response]"
  | VBlob _ => Ok "[object Blob]"
  | VStream _ => Ok "[object ReadableStream]"
  end.

End Dyn.

(* ===================================================================== *)
(** ** utils/sanitize.ts *)
(* ===================================================================== *)

Module Sanitize.

Import JS.

(** [DISALLOWED_STATUS_CHARS = /[^\u0009\u0020-\u007E]/g], complemented. *)
Definition allowedStatusChar (c : ascii) : bool :=
  let n := nat_of_ascii c in
  ((n =? 9) || ((32 <=? n) && (n <=? 126)))%nat.

Definition sanitizeStatusMessage (statusMessage : option string) : string :=
  let statusMessage := match statusMessage with Some s => s | None => "" end in
  filterChars allowedStatusChar statusMessage.

(** The argument type [string | number] of [sanitizeStatusCode]. *)
Inductive StringOrNumber : Type :=
| OfString (s : string)
| OfNumber (n : number).

Definition falsy (c : StringOrNumber) : bool :=
  match c with
  | OfString s => String.eqb s ""
  | OfNumber (Finite z) => z =? 0
  | OfNumber NaN => true
  | OfNumber (Infinity _) => false
  end.

(** [sanitizeStatusCode(statusCode?, defaultStatusCode = 200)].  An
    argument that is [None] is [undefined]. *)
Definition sanitizeStatusCode
    (statusCode : option StringOrNumber) (defaultStatusCode : option number)
  : number :=
  let defaultStatusCode :=
    match defaultStatusCode with Some d => d | None => Finite 200 end in
  match statusCode with
  | None => defaultStatusCode
  | Some c =>
      if falsy c then defaultStatusCode
      else
        let statusCode :=
          match c with
          | OfString s => parseInt10 s
          | OfNumber n => n
          end in
        if lt statusCode (Finite 100) || gt statusCode (Finite 999)
        then defaultStatusCode
        else statusCode
  end.

End Sanitize.

(* ===================================================================== *)
(** ** error.ts *)
(* ===================================================================== *)

Module Error.

Import JS Dyn Sanitize.

(** [new H3Error(message, { cause })].  [stackTrace] is the trace the
    engine records when the object is constructed. *)
Definition new_H3Error (stackTrace : string) (message : string) (cause : value)
  : H3Error :=
  {| message := message;
     statusCode := Finite 500;
     fatal := VBoolean false;
     unhandled := VBoolean false;
     statusMessage := None;
     data := VUndefined;
     cause := cause;
     stack := VString stackTrace |}.

(** [H3Error.prototype.toJSON] *)
Definition toJSON (e : H3Error) : value :=
  VObject
    ([("message", VString (message e));
      ("statusCode",
       VNumber (sanitizeStatusCode (Some (OfNumber (statusCode e)))
                                   (Some (Finite 500))))]
     ++ (match statusMessage e with
         | Some s =>
             if String.eqb s "" then []
             else [("statusMessage", VString (sanitizeStatusMessage (Some s)))]
         | None => []
         end)
     ++ (match data e with
         | VUndefined => []
         | d => [("data", d)]
         end)).

(** [isError]: [input?.constructor?.__h3_error__ === true].  An instance
    of the class has the marker through its class; an object, or an
    error of another class, has it when its own [constructor] property
    is a value whose [__h3_error__] is [true].  Functions carry no
    properties here, so a marked class other than [H3Error] is not among
    the values. *)
Definition isError (input : value) : bool :=
  match input with
  | VH3Error _ => true
  | VObject props | VError _ _ _ _ props =>
      match lookup "constructor" props with
      | Some c =>
          if nullish c then false
          else match get c "__h3_error__" with
               | VBoolean true => true
               | _ => false
               end
      | None => false
      end
  | _ => false
  end.

(** Modelled from the spec: [hasProp] of utils/internal/object.ts, which
    the error model uses to find out whether a stack trace is obtainable
    from the input; a failing test counts as absent. *)
Definition hasProp (obj : value) (prop : string) : bool :=
  has_property obj prop.

(** [v?.k] *)
Definition get_opt (v : value) (k : string) : value :=
  if nullish v then VUndefined else get v k.

Definition with_stack (e : H3Error) (s : value) : H3Error :=
  mkH3Error (message e) (statusCode e) (fatal e) (unhandled e)
            (statusMessage e) (data e) (cause e) s.

Definition with_data (e : H3Error) (d : value) : H3Error :=
  mkH3Error (message e) (statusCode e) (fatal e) (unhandled e)
            (statusMessage e) d (cause e) (stack e).

Definition with_statusCode (e : H3Error) (c : number) : H3Error :=
  mkH3Error (message e) c (fatal e) (unhandled e)
            (statusMessage e) (data e) (cause e) (stack e).

Definition with_statusMessage (e : H3Error) (m : string) : H3Error :=
  mkH3Error (message e) (statusCode e) (fatal e) (unhandled e)
            (Some m) (data e) (cause e) (stack e).

Definition with_fatal (e : H3Error) (f : value) : H3Error :=
  mkH3Error (message e) (statusCode e) f (unhandled e)
            (statusMessage e) (data e) (cause e) (stack e).

Definition with_unhandled (e : H3Error) (u : value) : H3Error :=
  mkH3Error (message e) (statusCode e) (fatal e) u
            (statusMessage e) (data e) (cause e) (stack e).

(** [createError(input)].  An input that [isError] accepts is returned
    as it is, whatever its fields hold.  Reading a property of [null] or
    [undefined], converting a symbol to a message and calling [replace]
    on a status message that is not a string throw. *)
Definition createError (stackTrace : string) (input : value) : result value :=
  match input with
  | VString s => Ok (VH3Error (new_H3Error stackTrace s VUndefined))
  | _ =>
      if isError input then Ok input
      else if nullish input
      then Throw (TypeError "Cannot read properties of undefined")
      else
        let cause := get input "cause" in
        let* message :=
          ToString (get input "message" ?? get input "statusMessage" ?? VString "") in
        let err :=
          new_H3Error stackTrace message (if truthy cause then cause else input) in
        let err :=
          if hasProp input "stack" then with_stack err (get input "stack") else err in
        let err :=
          if truthy (get input "data") then with_data err (get input "data") else err in
        let statusCode :=
          get input "statusCode" ?? get input "status" ??
          get_opt cause "statusCode" ?? get_opt cause "status" in
        let err :=
          match statusCode with
          | VNumber n =>
              with_statusCode err (sanitizeStatusCode (Some (OfNumber n)) None)
          | _ => err
          end in
        let statusMessage :=
          get input "statusMessage" ?? get input "statusText" ??
          get_opt cause "statusMessage" ?? get_opt cause "statusText" in
        let* err :=
          (if truthy statusMessage then
             match statusMessage with
             | VString s =>
                 Ok (with_statusMessage err (sanitizeStatusMessage (Some s)))
             | _ => Throw (TypeError "statusMessage.replace is not a function")
             end
           else Ok err) in
        let fatal := get input "fatal" ?? get_opt cause "fatal" in
        let err :=
          match fatal with VUndefined => err | f => with_fatal err f end in
        let unhandled := get input "unhandled" ?? get_opt cause "unhandled" in
        let err :=
          match unhandled with VUndefined => err | u => with_unhandled err u end in
        Ok (VH3Error err)
  end.

End Error.

(* ===================================================================== *)
(** ** JSON.stringify *)
(* ===================================================================== *)

Module Json.

Import JS Dyn.

(** The document a JSON text denotes. *)
Inductive json : Type :=
| JNull
| JBool (b : bool)
| JNumber (z : Z)
| JString (s : string)
| JArray (items : list json)
| JObject (members : list (string * json)).

(** The value [JSON.stringify] serializes: [None] is [undefined], which
    drops a member of an object and becomes [null] in an array.  An
    [H3Error] goes through its [toJSON] method; a [BigInt] throws. *)
Fixpoint tree_of (v : value) : result (option json) :=
  let fix members (l : list (string * value)) : result (list (string * json)) :=
    match l with
    | [] => Ok []
    | (k, x) :: rest =>
        let* j := tree_of x in
        let* js := members rest in
        Ok (match j with Some t => (k, t) :: js | None => js end)
    end in
  match v with
  | VUndefined | VFunction _ | VSymbol _ => Ok None
  | VNull => Ok (Some JNull)
  | VBoolean b => Ok (Some (JBool b))
  | VNumber (Finite z) => Ok (Some (JNumber z))
  | VNumber _ => Ok (Some JNull)
  | VString s => Ok (Some (JString s))
  | VBigInt _ => Throw (TypeError "Do not know how to serialize a BigInt")
  | VObject props =>
      let* ms := members props in Ok (Some (JObject ms))
  | VArray items =>
      let fix each (l : list value) : result (list json) :=
        match l with
        | [] => Ok []
        | x :: xs =>
            let* j := tree_of x in
            let* js := each xs in
            Ok (match j with Some t => t | None => JNull end :: js)
        end in
      let* js := each items in Ok (Some (JArray js))
  | VError _ _ _ _ props =>
      let* ms := members props in Ok (Some (JObject ms))
  | VH3Error e =>
      let code :=
        Sanitize.sanitizeStatusCode
          (Some (Sanitize.OfNumber (statusCode e))) (Some (Finite 500)) in
      let text :=
        match statusMessage e with
        | Some s =>
            if String.eqb s "" then []
            else [("statusMessage",
                   JString (Sanitize.sanitizeStatusMessage (Some s)))]
        | None => []
        end in
      let* d := tree_of (data e) in
      Ok (Some (JObject
        ([("message", JString (message e));
          ("statusCode", match code with Finite z => JNumber z | _ => JNull end)]
         ++ text
         ++ match d with Some t => [("data", t)] | None => [] end)))
  | VUint8Array b =>
      Ok (Some (JObject
        (combine (map (fun i => decimal (Z.of_nat i)) (seq 0 (List.length b)))
                 (map (fun x => JNumber (Z.of_N (Byte.to_N x))) b))))
  | VResponse _ | VBlob _ | VStream _ => Ok (Some (JObject []))
  end.

(** The members [tree_of] keeps of an object's properties. *)
Fixpoint members_of (l : list (string * value)) : result (list (string * json)) :=
  match l with
  | [] => Ok []
  | (k, x) :: rest =>
      let* j := tree_of x in
      let* js := members_of rest in
      Ok (match j with Some t => (k, t) :: js | None => js end)
  end.

Definition dquote : ascii := ascii_of_nat 34.

Definition hexDigit (n : nat) : ascii :=
  ascii_of_nat (if (n <? 10)%nat then 48 + n else 87 + n).

(** [QuoteJSONString], one code unit. *)
Definition escape (c : ascii) : string :=
  let n := nat_of_ascii c in
  if (n =? 34)%nat then String "\" (String dquote "")
  else if (n =? 92)%nat then "\\"
  else if (n =? 8)%nat then "\b"
  else if (n =? 9)%nat then "\t"
  else if (n =? 10)%nat then "\n"
  else if (n =? 12)%nat then "\f"
  else if (n =? 13)%nat then "\r"
  else if (n <? 32)%nat then
    "\u00" ++ String (hexDigit (n / 16)) (String (hexDigit (n mod 16)) "")
  else String c "".

Fixpoint escapeAll (s : string) : string :=
  match s with
  | EmptyString => ""
  | String c s' => escape c ++ escapeAll s'
  end.

Definition quote (s : string) : string :=
  String dquote (escapeAll s) ++ String dquote "".

(** The text of a document; [gap] is the indentation unit ([""] for the
    compact form) and [indent] the current indentation. *)
Fixpoint render (gap indent : string) (j : json) : string :=
  let inner := (indent ++ gap)%string in
  let sep := if String.eqb gap "" then "," else ("," ++ LF ++ inner)%string in
  let wrap (l r : string) (parts : list string) : string :=
    match parts with
    | [] => (l ++ r)%string
    | _ =>
        if String.eqb gap "" then (l ++ join sep parts ++ r)%string
        else (l ++ LF ++ inner ++ join sep parts ++ LF ++ indent ++ r)%string
    end in
  match j with
  | JNull => "null"
  | JBool b => if b then "true" else "false"
  | JNumber z => decimal z
  | JString s => quote s
  | JArray items => wrap "[" "]" (map (render gap inner) items)
  | JObject members =>
      wrap "{" "}"
        (map (fun kv =>
                (quote (fst kv) ++ (if String.eqb gap "" then ":" else ": ")
                 ++ render gap inner (snd kv))%string) members)
  end.

(** [JSON.stringify(v, undefined, space)] with [space] either [2] or
    [undefined]; [None] is the [undefined] result. *)
Definition stringify (v : value) (pretty : bool) : result (option string) :=
  let* t := tree_of v in
  Ok (option_map (render (if pretty then "  " else "") "") t).

End Json.

(* ===================================================================== *)
(** ** event.ts *)
(* ===================================================================== *)

Module Event.

Import JS Dyn.

(** *** WebEventResponse *)

Record WebEventResponse : Type := {
  status : option number;
  statusText : option string;
  _headersInit : option Web.HeadersObject;
  _headers : option Web.Headers;
}.

(** [new WebEventResponse()] *)
Definition new_WebEventResponse : WebEventResponse :=
  {| status := None; statusText := None; _headersInit := None; _headers := None |}.

Definition set_status (r : WebEventResponse) (s : option number) : WebEventResponse :=
  {| status := s; statusText := statusText r;
     _headersInit := _headersInit r; _headers := _headers r |}.

Definition set_statusText (r : WebEventResponse) (t : option string) : WebEventResponse :=
  {| status := status r; statusText := t;
     _headersInit := _headersInit r; _headers := _headers r |}.

(** The getter [headers]: the [Headers] object is created from
    [_headersInit] on first use and kept. *)
Definition headers (r : WebEventResponse) : Web.Headers * WebEventResponse :=
  match _headers r with
  | Some h => (h, r)
  | None =>
      let h := Web.Headers_of
                 (match _headersInit r with Some o => o | None => [] end) in
      (h, {| status := status r; statusText := statusText r;
             _headersInit := _headersInit r; _headers := Some h |})
  end.

(** A method call on the object the getter [headers] returns. *)
Definition update_headers (f : Web.Headers -> Web.Headers) (r : WebEventResponse)
  : WebEventResponse :=
  let '(h, r') := headers r in
  {| status := status r'; statusText := statusText r';
     _headersInit := _headersInit r'; _headers := Some (f h) |}.

Definition setHeader (r : WebEventResponse) (name value : string) : WebEventResponse :=
  match _headers r with
  | Some h =>
      {| status := status r; statusText := statusText r;
         _headersInit := _headersInit r;
         _headers := Some (Web.set h name value) |}
  | None =>
      let init := match _headersInit r with Some o => o | None => [] end in
      {| status := status r; statusText := statusText r;
         _headersInit := Some (Web.assign init name value);
         _headers := None |}
  end.

(** *** H3WebEvent *)

(** The parts of a parsed [URL] the event reads. *)
Record URL : Type := {
  url_pathname : string;
  url_search : string;
}.

Record H3WebEvent : Type := {
  request_method : string;
  request_url : string;
  response : WebEventResponse;
  _url : option URL;
  _pathname : option string;
  _urlqindex : option Z;
  _queryString : option string;
}.

(** [new H3WebEvent(request)] *)
Definition new_H3WebEvent (method url : string) : H3WebEvent :=
  {| request_method := method; request_url := url;
     response := new_WebEventResponse;
     _url := None; _pathname := None; _urlqindex := None; _queryString := None |}.

Definition method (ev : H3WebEvent) : string := request_method ev.

(** The string slicing of the getter [pathname]: the path and the index
    of ['?'], or [None] where the getter falls back to [this.url]. *)
Definition slicePathname (url : string) : option (string * Z) :=
  let protoIndex := indexOf url "://" 0 in
  if protoIndex =? -1 then None
  else
    let pIndex := indexOf url "/" (protoIndex + 4) in
    if pIndex =? -1 then None
    else
      let qIndex := indexOf url "?" pIndex in
      Some (slice url pIndex (if qIndex =? -1 then None else Some qIndex), qIndex).

Section Accessors.

(** [new URL(s)] is the platform's parser; it throws on a string that is
    not an absolute URL. *)
Variable URL_parse : string -> result URL.

Definition url (ev : H3WebEvent) : result (URL * H3WebEvent) :=
  match _url ev with
  | Some u => Ok (u, ev)
  | None =>
      let* u := URL_parse (request_url ev) in
      Ok (u, {| request_method := request_method ev;
                request_url := request_url ev;
                response := response ev;
                _url := Some u;
                _pathname := _pathname ev;
                _urlqindex := _urlqindex ev;
                _queryString := _queryString ev |})
  end.

Definition cached (o : option string) : option string :=
  match o with
  | Some s => if String.eqb s "" then None else Some s
  | None => None
  end.

Definition pathname (ev : H3WebEvent) : result (string * H3WebEvent) :=
  match _url ev with
  | Some u => Ok (url_pathname u, ev)
  | None =>
      match cached (_pathname ev) with
      | Some p => Ok (p, ev)
      | None =>
          match slicePathname (request_url ev) with
          | None =>
              let* '(u, ev') := url ev in Ok (url_pathname u, ev')
          | Some (p, qIndex) =>
              Ok (p, {| request_method := request_method ev;
                        request_url := request_url ev;
                        response := response ev;
                        _url := None;
                        _pathname := Some p;
                        _urlqindex := Some qIndex;
                        _queryString := _queryString ev |})
          end
      end
  end.

Definition queryString (ev : H3WebEvent) : result (string * H3WebEvent) :=
  match _url ev with
  | Some u => Ok (url_search u, ev)
  | None =>
      match cached (_queryString ev) with
      | Some q => Ok (q, ev)
      | None =>
          let store (q : string) (e : H3WebEvent) : H3WebEvent :=
            {| request_method := request_method e;
               request_url := request_url e;
               response := response e;
               _url := _url e;
               _pathname := _pathname e;
               _urlqindex := _urlqindex e;
               _queryString := Some q |} in
          match _urlqindex ev with
          | Some qIndex =>
              if qIndex =? -1 then Ok ("", store "" ev)
              else
                let q := slice (request_url ev) qIndex None in
                Ok (q, store q ev)
          | None =>
              let* '(u, ev') := url ev in
              Ok (url_search u, store (url_search u) ev')
          end
      end
  end.

Definition path (ev : H3WebEvent) : result (string * H3WebEvent) :=
  let* '(p, ev1) := pathname ev in
  let* '(q, ev2) := queryString ev1 in
  Ok ((p ++ q)%string, ev2).

(** [toString] *)
Definition toString (ev : H3WebEvent) : string :=
  ("[" ++ request_method ev ++ "] " ++ request_url ev)%string.

End Accessors.

End Event.

(* ===================================================================== *)
(** ** The pathname of a parsed URL *)
(* ===================================================================== *)

Module Whatwg.

Import JS.

(** The component [pathname] of [new URL(s)], after the path state of
    the URL Standard's parser, for the URLs a server builds from a
    request line: scheme [http] or [https], a host of lower-case labels
    with an optional port, then path, query and fragment in visible
    ASCII.  [None] is every other string, among them the strings on which
    the parser throws. *)

Fixpoint splitOn (sep : ascii) (s : string) : list string :=
  match s with
  | EmptyString => [EmptyString]
  | String c s' =>
      if Ascii.eqb c sep then EmptyString :: splitOn sep s'
      else match splitOn sep s' with
           | [] => [String c EmptyString]
           | l :: ls => String c l :: ls
           end
  end.

(** The prefix of [s] before the first character satisfying [stop], and
    the rest from that character on. *)
Fixpoint span (stop : ascii -> bool) (s : string) : string * string :=
  match s with
  | EmptyString => (EmptyString, EmptyString)
  | String c s' =>
      if stop c then (EmptyString, s)
      else let '(a, b) := span stop s' in (String c a, b)
  end.

Definition isLower (c : ascii) : bool :=
  let n := nat_of_ascii c in ((97 <=? n) && (n <=? 122))%nat.

Definition visible (c : ascii) : bool :=
  let n := nat_of_ascii c in
  ((33 <=? n) && (n <=? 126) && negb (n =? 92) && negb (n =? 94))%nat.

Definition label (l : string) : bool :=
  match l with
  | EmptyString => false
  | String c _ =>
      isLower c &&
      forallb_string (fun x => isLower x || isDigit x || Ascii.eqb x "-") l
  end.

Definition host (h : string) : bool := forallb label (splitOn "." h).

Definition port (p : string) : bool :=
  forallb_string isDigit p &&
  match digits p None with
  | Some z => z <=? 65535
  | None => false
  end.

Definition authority (a : string) : bool :=
  match splitOn ":" a with
  | [h] => host h
  | [h; p] => host h && port p
  | _ => false
  end.

Definition singleDot (seg : string) : bool :=
  let s := toLowerCase seg in String.eqb s "." || String.eqb s "%2e".

Definition doubleDot (seg : string) : bool :=
  let s := toLowerCase seg in
  String.eqb s ".." || String.eqb s ".%2e" ||
  String.eqb s "%2e." || String.eqb s "%2e%2e".

(** The path percent-encode set, within visible ASCII. *)
Definition encodeChar (c : ascii) : string :=
  let n := nat_of_ascii c in
  if (n =? 34)%nat then "%22"
  else if (n =? 60)%nat then "%3C"
  else if (n =? 62)%nat then "%3E"
  else if (n =? 96)%nat then "%60"
  else if (n =? 123)%nat then "%7B"
  else if (n =? 125)%nat then "%7D"
  else String c "".

Fixpoint encode (s : string) : string :=
  match s with
  | EmptyString => ""
  | String c s' => encodeChar c ++ encode s'
  end.

(** The path state: a double-dot segment shortens the path, a single-dot
    segment is dropped, and either leaves an empty segment when it is the
    last one. *)
Fixpoint walk (segments path : list string) : list string :=
  match segments with
  | [] => path
  | seg :: rest =>
      let last := match rest with [] => true | _ => false end in
      if doubleDot seg then
        walk rest (if last then removelast path ++ [""] else removelast path)
      else if singleDot seg then
        walk rest (if last then path ++ [""] else path)
      else walk rest (path ++ [encode seg])
  end.

Definition serialize (path : list string) : string :=
  fold_right (fun seg acc => ("/" ++ seg ++ acc)%string) "" path.

Definition pathname (s : string) : option string :=
  let protoIndex := indexOf s "://" 0 in
  if protoIndex =? -1 then None
  else
    let scheme := toLowerCase (slice s 0 (Some protoIndex)) in
    let rest := slice s (protoIndex + 3) None in
    let stopAuthority c :=
      Ascii.eqb c "/" || Ascii.eqb c "?" || Ascii.eqb c "#" in
    let stopPath c := Ascii.eqb c "?" || Ascii.eqb c "#" in
    let '(auth, tail) := span stopAuthority rest in
    let '(p, _) := span stopPath tail in
    if (String.eqb scheme "http" || String.eqb scheme "https")
       && forallb_string visible s && authority auth
    then
      let segments :=
        match p with
        | EmptyString => [""]
        | String _ p' => splitOn "/" p'
        end in
      Some (serialize (walk segments []))
    else None.

End Whatwg.

(* ===================================================================== *)
(** ** response.ts, and [noContent] of utils/response.ts *)
(* ===================================================================== *)

Module Response.

Import JS Dyn Sanitize.

(** [Symbol.for("h3.notFound")] and [Symbol.for("h3.handled")] *)
Definition kNotFound : value := VSymbol (SymbolFor "h3.notFound").
Definition kHandled : value := VSymbol (SymbolFor "h3.handled").

Definition is_symbol (v s : value) : bool :=
  match v, s with
  | VSymbol a, VSymbol b => symbol_eqb a b
  | _, _ => false
  end.

Record H3Config : Type := {
  debug : bool;
}.

(** The interface [H3Event] as serialization reads it: [method] is
    [request.method], [path] what the getter [path] returns. *)
Record H3Event : Type := {
  method : string;
  path : string;
  response : Event.WebEventResponse;
}.

Definition with_response (ev : H3Event) (r : Event.WebEventResponse) : H3Event :=
  {| method := method ev; path := path ev; response := r |}.

Definition setHeader (ev : H3Event) (name value : string) : H3Event :=
  with_response ev (Event.setHeader (response ev) name value).

(** The headers argument of a response constructor. *)
Inductive HeadersInit : Type :=
| OfHeaders (h : Web.Headers)
| OfObject (o : Web.HeadersObject).

Record ResponseInit : Type := {
  init_status : option number;
  init_statusText : option string;
  init_headers : option HeadersInit;
}.

(** What [prepareResponse] returns: a platform response handed through
    or made by [new Response(null)], or the arguments of
    [new SrvxResponse(body, init)]. *)
Inductive FinalResponse : Type :=
| Native (r : Web.Response)
| Prepared (body : value) (init : ResponseInit).

Definition stream_or_null (o : option Web.ReadableStream) : value :=
  match o with Some s => VStream s | None => VNull end.

Definition body_of (f : FinalResponse) : value :=
  match f with
  | Native r => stream_or_null (Web.res_body r)
  | Prepared body _ => body
  end.

(** The header list the final response carries. *)
Definition headers_of (f : FinalResponse) : Web.Headers :=
  match f with
  | Native r => Web.res_headers r
  | Prepared _ init =>
      match init_headers init with
      | Some (OfHeaders h) => h
      | Some (OfObject o) => Web.Headers_of o
      | None => []
      end
  end.

(** [_headers || _headersInit] *)
Definition headers_or_init (r : Event.WebEventResponse) : option HeadersInit :=
  match Event._headers r with
  | Some h => Some (OfHeaders h)
  | None => option_map OfObject (Event._headersInit r)
  end.

Definition truthy_number (s : option number) : bool :=
  match s with Some n => truthy (VNumber n) | None => false end.

Definition truthy_string (s : option string) : bool :=
  match s with Some t => negb (String.eqb t "") | None => false end.

Definition isNullStatus (status : option number) : bool :=
  match status with
  | Some s =>
      truthy (VNumber s) &&
      (number_eq s (Finite 100) || number_eq s (Finite 101) ||
       number_eq s (Finite 102) || number_eq s (Finite 204) ||
       number_eq s (Finite 205) || number_eq s (Finite 304))
  | None => false
  end.

(** Modelled from the spec: [isJSONSerializable] of
    utils/internal/object.ts, "JSON-serializable plain value
    (object/array/number/boolean, but not bigint)". *)
Definition isJSONSerializable (v : value) : bool :=
  match v with
  | VObject _ | VArray _ | VNumber _ | VBoolean _ => true
  | _ => false
  end.

Section Serialization.

(** The stack trace the engine records for an error object constructed
    while a value is serialized. *)
Variable stackTrace : string.

Definition stackLines (debug : bool) (stack : value) : result value :=
  if debug && truthy stack then
    match stack with
    | VString s => Ok (VArray (map (fun l => VString (trim l)) (splitLines s)))
    | _ => Throw (TypeError "error.stack.split is not a function")
    end
  else Ok VUndefined.

(** The response's [status] is declared [number | undefined] and its
    [statusText] [string | undefined].  An [H3Error] instance hands over
    fields of these types; a marked value of another class can hold
    anything there. *)
Definition declaredNumber (field : string) (v : value) : result (option number) :=
  match v with
  | VNumber n => Ok (Some n)
  | VUndefined => Ok None
  | _ => Throw (IllTyped field)
  end.

Definition declaredString (field : string) (v : value) : result (option string) :=
  match v with
  | VString s => Ok (Some s)
  | VUndefined => Ok None
  | _ => Throw (IllTyped field)
  end.

(** [error] is what [createError] returns: a new [H3Error], or [val]
    itself when [isError] accepts it; its fields are read as they are. *)
Definition prepareErrorResponseBody (val : value) (event : H3Event) (config : H3Config)
  : result (value * H3Event) :=
  let* error := Error.createError stackTrace val in
  let* code := declaredNumber "status" (get error "statusCode") in
  let* reason := declaredString "statusText" (get error "statusMessage") in
  let r := Event.set_status (response event) code in
  let r := Event.set_statusText r reason in
  let event := with_response event r in
  let event := setHeader event "content-type" "application/json; charset=utf-8" in
  let* lines := stackLines (debug config) (get error "stack") in
  let* text :=
    Json.stringify
      (VObject [("statusCode", get error "statusCode");
                ("statusMessage", get error "statusMessage");
                ("data", get error "data");
                ("stack", lines)])
      false in
  Ok (of_string text, event).

Definition prepareResponseBody (val : value) (event : H3Event) (config : H3Config)
  : result (value * H3Event) :=
  if nullish val then Ok (VString "", event)
  else if is_symbol val kNotFound then
    prepareErrorResponseBody
      (VObject
         [("statusCode", VNumber (Finite 404));
          ("statusMessage",
           VString ("Cannot find any route matching [" ++ method event ++ "] "
                    ++ path event))])
      event config
  else
    match val with
    | VString _ => Ok (val, event)
    | VUint8Array b =>
        Ok (val, setHeader event "content-length"
                   (decimal (Z.of_nat (Web.byteLength b))))
    | VError _ _ _ _ _ | VH3Error _ => prepareErrorResponseBody val event config
    | _ =>
        if isJSONSerializable val then
          let event :=
            setHeader event "content-type" "application/json; charset=utf-8" in
          let* text := Json.stringify val (debug config) in
          Ok (of_string text, event)
        else
          match val with
          | VBigInt z =>
              Ok (VString (decimal z),
                  setHeader event "content-type" "application/json; charset=utf-8")
          | VResponse r =>
              let res := Event.set_status (response event) (Some (Web.res_status r)) in
              let res := Event.set_statusText res (Some (Web.res_statusText r)) in
              let res :=
                fold_left (fun acc h => Event.setHeader acc (fst h) (snd h))
                          (Web.res_headers r) res in
              Ok (stream_or_null (Web.res_body r), with_response event res)
          | VBlob b =>
              let event := setHeader event "content-type" (Web.blob_type b) in
              let event :=
                setHeader event "content-length"
                          (decimal (Z.of_nat (Web.blob_size b))) in
              Ok (VStream (Web.blob_stream b), event)
          | VSymbol _ | VFunction _ =>
              prepareErrorResponseBody
                (VObject
                   [("statusCode", VNumber (Finite 500));
                    ("statusMessage",
                     VString ("[h3] Cannot send " ++ typeof val ++ " as response."))])
                event config
          | _ => Ok (val, event)
          end
    end.

Definition prepareResponse (val : value) (event : H3Event) (config : H3Config)
  : result (FinalResponse * H3Event) :=
  let isHead := String.eqb (method event) "HEAD" in
  if is_symbol val kHandled then Ok (Native Web.emptyResponse, event)
  else
    match val with
    | VResponse r =>
        let status := Event.status (response event) in
        let statusText := Event.statusText (response event) in
        let headers := headers_or_init (response event) in
        if negb (truthy_number status) && negb (truthy_string statusText)
           && match headers with None => true | Some _ => false end
        then Ok (Native r, event)
        else
          Ok (Prepared
                (if isHead || isNullStatus status then VNull
                 else stream_or_null (Web.res_body r))
                {| init_status :=
                     if truthy_number status then status
                     else Some (Web.res_status r);
                   init_statusText :=
                     if truthy_string statusText then statusText
                     else Some (Web.res_statusText r);
                   init_headers :=
                     match headers with
                     | Some h => Some h
                     | None => Some (OfHeaders (Web.res_headers r))
                     end |},
              event)
    | _ =>
        let* '(body, event) := prepareResponseBody val event config in
        let status := Event.status (response event) in
        Ok (Prepared
              (if isHead || isNullStatus status then VNull else body)
              {| init_status := status;
                 init_statusText := Event.statusText (response event);
                 init_headers := headers_or_init (response event) |},
            event)
    end.

End Serialization.

(** [noContent(event, code?)] of utils/response.ts; the [""] it returns
    is the first component. *)
Definition noContent (event : H3Event) (code : option number) : value * H3Event :=
  let currentStatus := Event.status (response event) in
  let code :=
    if negb (truthy_number code) && truthy_number currentStatus
       && negb (match currentStatus with
                | Some s => number_eq s (Finite 200)
                | None => false
                end)
    then Event.status (response event)
    else code in
  let r :=
    Event.set_status (response event)
      (Some (sanitizeStatusCode (option_map OfNumber code) (Some (Finite 204)))) in
  let r :=
    match Event.status r with
    | Some s =>
        if number_eq s (Finite 204)
        then Event.update_headers (fun h => Web.delete h "content-length") r
        else r
    | None => r
    end in
  (VString "", with_response event r).

End Response.

(* ===================================================================== *)
(** ** handler.ts *)
(* ===================================================================== *)

Module Handler.

Section Composition.

(** [World] is everything a hook or a handler can read and change: the
    event with its response state and context, and the rest of the
    program's store.  [Body] is what a handler returns, [Name] tells the
    callables apart in the record of calls. *)
Variables World Body Name : Type.

(** How an awaited call settles: fulfilled with a value, or rejected. *)
Inductive outcome (A : Type) : Type :=
| Fulfilled (a : A) (w : World)
| Rejected (reason : Dyn.value) (w : World).

Arguments Fulfilled {A} a w.
Arguments Rejected {A} reason w.

(** The object [{ body }] the response hooks share. *)
Record Container : Type := { body : Body }.

(** [RequestMiddleware], [EventHandler] and [ResponseMiddleware]: the
    event they receive is part of the world; a response hook also takes
    the state of the container and leaves it as it has set it. *)
Definition RequestMiddleware : Type := World -> outcome unit.
Definition EventHandler : Type := World -> outcome Body.
Definition ResponseMiddleware : Type := Container -> World -> outcome Container.

Record Named (T : Type) : Type := { name : Name; run : T }.

Arguments name {T}.
Arguments run {T}.

(** A value of type [T | T[]]. *)
Inductive OneOrMany (T : Type) : Type :=
| One (t : T)
| Many (ts : list T).

Arguments One {T} t.
Arguments Many {T} ts.

Record EventHandlerObject : Type := {
  onRequest : option (OneOrMany (Named RequestMiddleware));
  onBeforeResponse : option (OneOrMany (Named ResponseMiddleware));
  handler : Named EventHandler;
}.

Record _EventHandlerHooks : Type := {
  hooks_onRequest : option (list (Named RequestMiddleware));
  hooks_onBeforeResponse : option (list (Named ResponseMiddleware));
}.

Definition _normalizeArray {T : Type} (input : option (OneOrMany T)) : option (list T) :=
  match input with
  | Some (Many ts) => Some ts
  | Some (One t) => Some [t]
  | None => None
  end.

(** The record of calls: when each callable is entered and when the
    promise it returned has settled. *)
Inductive mark : Type :=
| Called (n : Name)
| Settled (n : Name).

Definition Trace : Type := list mark.

(** [for (const hook of hooks.onRequest) await hook(event)] *)
Fixpoint runRequestHooks (hooks : list (Named RequestMiddleware))
    (w : World) (t : Trace) : outcome unit * Trace :=
  match hooks with
  | [] => (Fulfilled tt w, t)
  | hook :: rest =>
      match run hook w with
      | Fulfilled _ w' =>
          runRequestHooks rest w' (t ++ [Called (name hook); Settled (name hook)])
      | Rejected e w' => (Rejected e w', t ++ [Called (name hook)])
      end
  end.

(** [for (const hook of hooks.onBeforeResponse) await hook(event, response)] *)
Fixpoint runResponseHooks (hooks : list (Named ResponseMiddleware))
    (response : Container) (w : World) (t : Trace) : outcome Container * Trace :=
  match hooks with
  | [] => (Fulfilled response w, t)
  | hook :: rest =>
      match run hook response w with
      | Fulfilled response' w' =>
          runResponseHooks rest response' w'
            (t ++ [Called (name hook); Settled (name hook)])
      | Rejected e w' => (Rejected e w', t ++ [Called (name hook)])
      end
  end.

Definition _callHandler (handler : Named EventHandler) (hooks : _EventHandlerHooks)
    (w : World) (t : Trace) : outcome Body * Trace :=
  let before :=
    match hooks_onRequest hooks with
    | Some hs => runRequestHooks hs w t
    | None => (Fulfilled tt w, t)
    end in
  match before with
  | (Rejected e w1, t1) => (Rejected e w1, t1)
  | (Fulfilled _ w1, t1) =>
      match run handler w1 with
      | Rejected e w2 => (Rejected e w2, t1 ++ [Called (name handler)])
      | Fulfilled result w2 =>
          let t2 := t1 ++ [Called (name handler); Settled (name handler)] in
          let response := {| body := result |} in
          let after :=
            match hooks_onBeforeResponse hooks with
            | Some hs => runResponseHooks hs response w2 t2
            | None => (Fulfilled response w2, t2)
            end in
          match after with
          | (Rejected e w3, t3) => (Rejected e w3, t3)
          | (Fulfilled response w3, t3) => (Fulfilled (body response) w3, t3)
          end
      end
  end.

(** The argument of [defineEventHandler]: a function, or an object. *)
Inductive HandlerSpec : Type :=
| Function (f : Named EventHandler)
| Object (o : EventHandlerObject).

(** [defineEventHandler(handler)], as the function it returns. *)
Definition defineEventHandler (spec : HandlerSpec)
    (w : World) (t : Trace) : outcome Body * Trace :=
  match spec with
  | Function f =>
      match run f w with
      | Fulfilled b w' => (Fulfilled b w', t ++ [Called (name f); Settled (name f)])
      | Rejected e w' => (Rejected e w', t ++ [Called (name f)])
      end
  | Object o =>
      let _hooks :=
        {| hooks_onRequest := _normalizeArray (onRequest o);
           hooks_onBeforeResponse := _normalizeArray (onBeforeResponse o) |} in
      _callHandler (handler o) _hooks w t
  end.

End Composition.

Arguments Fulfilled {World A} a w.
Arguments Rejected {World A} reason w.
Arguments One {T} t.
Arguments Many {T} ts.
Arguments name {Name T}.
Arguments run {Name T}.
Arguments Called {Name} n.
Arguments Settled {Name} n.
Arguments body {Body}.
Arguments Function {World Body Name} f.
Arguments Object {World Body Name} o.

End Handler.

(* ===================================================================== *)
(** ** utils/internal/event-stream.ts *)
(* ===================================================================== *)

Module SSE.

Import JS.

(** Modelled from the spec: the type [EventStreamMessage] of
    types/utils/sse.ts, a message with the optional fields [id], [event]
    and [retry] and the field [data], as [formatEventStreamMessage]
    reads them. *)
Record EventStreamMessage : Type := {
  id : option string;
  event : option string;
  retry : option number;
  data : string;
}.

Definition present (o : option string) : bool :=
  match o with Some s => negb (String.eqb s "") | None => false end.

Definition text (o : option string) : string :=
  match o with Some s => s | None => "" end.

Definition formatEventStreamMessage (message : EventStreamMessage) : string :=
  let result := "" in
  let result :=
    if present (id message)
    then (result ++ "id: " ++ text (id message) ++ LF)%string else result in
  let result :=
    if present (event message)
    then (result ++ "event: " ++ text (event message) ++ LF)%string else result in
  let result :=
    match retry message with
    | Some n =>
        if isInteger n
        then (result ++ "retry: " ++ Number_toString n ++ LF)%string else result
    | None => result
    end in
  (result ++ "data: " ++ data message ++ LF ++ LF)%string.

Definition formatEventStreamMessages (messages : list EventStreamMessage) : string :=
  fold_left (fun result msg => (result ++ formatEventStreamMessage msg)%string)
            messages "".

(** [TextEncoder.prototype.encode]: UTF-8, for code units below 256. *)
Definition encodeChar (c : ascii) : list Byte.byte :=
  let n := nat_of_ascii c in
  if (n <? 128)%nat then [byte_of_ascii c]
  else [byte_of_ascii (ascii_of_nat (192 + n / 64));
        byte_of_ascii (ascii_of_nat (128 + n mod 64))].

Fixpoint encode (s : string) : Web.Uint8Array :=
  match s with
  | EmptyString => []
  | String c s' => encodeChar c ++ encode s'
  end.

(** The writer of the transform stream.  [calls] records every chunk
    passed to [write], [written] the chunks the stream took. *)
Inductive StreamState : Type :=
| Writable
| Closed
| Errored.

Record Writer : Type := {
  state : StreamState;
  calls : list Web.Uint8Array;
  written : list Web.Uint8Array;
}.

(** [writer.write(chunk)], awaited: [true] when the promise fulfils. *)
Definition write (w : Writer) (chunk : Web.Uint8Array) : bool * Writer :=
  match state w with
  | Writable =>
      (true, {| state := Writable; calls := calls w ++ [chunk];
                written := written w ++ [chunk] |})
  | s => (false, {| state := s; calls := calls w ++ [chunk]; written := written w |})
  end.

(** [writer.close()], awaited. *)
Definition closeWriter (w : Writer) : bool * Writer :=
  match state w with
  | Writable => (true, {| state := Closed; calls := calls w; written := written w |})
  | _ => (false, w)
  end.

Record EventStream : Type := {
  _writer : Writer;
  _writerIsClosed : bool;
  _paused : bool;
  _unsentData : option string;
  _disposed : bool;
  _handled : bool;
}.

(** [new EventStream(event)] *)
Definition new_EventStream : EventStream :=
  {| _writer := {| state := Writable; calls := []; written := [] |};
     _writerIsClosed := false; _paused := false; _unsentData := None;
     _disposed := false; _handled := false |}.

Definition with_writer (s : EventStream) (w : Writer) : EventStream :=
  {| _writer := w; _writerIsClosed := _writerIsClosed s; _paused := _paused s;
     _unsentData := _unsentData s; _disposed := _disposed s; _handled := _handled s |}.

Definition with_unsentData (s : EventStream) (d : option string) : EventStream :=
  {| _writer := _writer s; _writerIsClosed := _writerIsClosed s; _paused := _paused s;
     _unsentData := d; _disposed := _disposed s; _handled := _handled s |}.

Definition with_paused (s : EventStream) (p : bool) : EventStream :=
  {| _writer := _writer s; _writerIsClosed := _writerIsClosed s; _paused := p;
     _unsentData := _unsentData s; _disposed := _disposed s; _handled := _handled s |}.

(** The callback of [this._writer.closed.then(...)]. *)
Definition onWriterClosed (s : EventStream) : EventStream :=
  {| _writer := _writer s; _writerIsClosed := true; _paused := _paused s;
     _unsentData := _unsentData s; _disposed := _disposed s; _handled := _handled s |}.

(** The common part of [_sendEvent] and [_sendEvents], from the
    formatted payload on. *)
Definition sendPayload (s : EventStream) (payload : string) : EventStream :=
  if _paused s && negb (present (_unsentData s)) then
    with_unsentData s (Some payload)
  else if _paused s then
    with_unsentData s (Some (text (_unsentData s) ++ payload)%string)
  else
    with_writer s (snd (write (_writer s) (encode payload))).

Definition _sendEvent (s : EventStream) (message : EventStreamMessage) : EventStream :=
  if _writerIsClosed s then s
  else sendPayload s (formatEventStreamMessage message).

Definition _sendEvents (s : EventStream) (messages : list EventStreamMessage)
  : EventStream :=
  if _writerIsClosed s then s
  else sendPayload s (formatEventStreamMessages messages).

(** The argument of [push]. *)
Inductive Pushed : Type :=
| OneString (message : string)
| ManyStrings (message : list string)
| OneMessage (message : EventStreamMessage)
| ManyMessages (message : list EventStreamMessage).

Definition ofData (item : string) : EventStreamMessage :=
  {| id := None; event := None; retry := None; data := item |}.

Definition push (s : EventStream) (message : Pushed) : EventStream :=
  match message with
  | OneString m => _sendEvent s (ofData m)
  | ManyStrings [] => s
  | ManyStrings items => _sendEvents s (map ofData items)
  | ManyMessages [] => s
  | ManyMessages msgs => _sendEvents s msgs
  | OneMessage m => _sendEvent s m
  end.

Definition pause (s : EventStream) : EventStream := with_paused s true.

Definition isPaused (s : EventStream) : bool := _paused s.

Definition flush (s : EventStream) : EventStream :=
  if _writerIsClosed s then s
  else
    match _unsentData s with
    | Some d =>
        if (0 <? String.length d)%nat then
          let '(ok, w) := write (_writer s) (encode d) in
          let s := with_writer s w in
          if ok then with_unsentData s None else s
        else s
    | None => s
    end.

Definition resume (s : EventStream) : EventStream :=
  flush (with_paused s false).

Definition close (s : EventStream) : EventStream :=
  if _disposed s then s
  else
    let s :=
      if _writerIsClosed s then s
      else
        let '(ok, w) := closeWriter (_writer s) in
        let s := with_writer s w in
        if ok then onWriterClosed s else s in
    {| _writer := _writer s; _writerIsClosed := _writerIsClosed s;
       _paused := _paused s; _unsentData := _unsentData s;
       _disposed := true; _handled := _handled s |}.

End SSE.

(* ===================================================================== *)
(** ** Notions used to state the properties *)
(* ===================================================================== *)

Module Spec.

Import JS Dyn.

(** *** Server-sent events *)

(** The serialized payload of one call of [push]. *)
Definition payload (m : SSE.Pushed) : string :=
  match m with
  | SSE.OneString item => SSE.formatEventStreamMessage (SSE.ofData item)
  | SSE.ManyStrings items =>
      SSE.formatEventStreamMessages (map SSE.ofData items)
  | SSE.OneMessage msg => SSE.formatEventStreamMessage msg
  | SSE.ManyMessages msgs => SSE.formatEventStreamMessages msgs
  end.

Definition payloads (ms : list SSE.Pushed) : string :=
  fold_right (fun m acc => (payload m ++ acc)%string) "" ms.

(** Pushing one argument after the other. *)
Definition pushAll (s : SSE.EventStream) (ms : list SSE.Pushed) : SSE.EventStream :=
  fold_left SSE.push ms s.

(** The pending buffer as text; absent and empty are both [""]. *)
Definition pending (s : SSE.EventStream) : string := SSE.text (SSE._unsentData s).

(** A paused stream whose peer has gone: the writer is errored, the
    [closed] promise has rejected and [_writerIsClosed] was never set. *)
Definition pausedBroken : SSE.EventStream :=
  {| SSE._writer := {| SSE.state := SSE.Errored; SSE.calls := []; SSE.written := [] |};
     SSE._writerIsClosed := false; SSE._paused := true; SSE._unsentData := None;
     SSE._disposed := false; SSE._handled := false |}.

(** *** Handler composition: a small world for the examples *)

(** The world is a journal the callables write to. *)
Definition Journal : Type := list string.

Definition note (line : string) : Handler.RequestMiddleware Journal :=
  fun w => Handler.Fulfilled tt (w ++ [line]).

Definition answer (line : string) (b : string) : Handler.EventHandler Journal string :=
  fun w => Handler.Fulfilled b (w ++ [line]).

(** A response hook that notes the body it sees and appends to it. *)
Definition amend (suffix : string) : Handler.ResponseMiddleware Journal string :=
  fun response w =>
    Handler.Fulfilled
      {| Handler.body := (Handler.body response ++ suffix)%string |}
      (w ++ [Handler.body response]).

(** *** Error normalization *)

(** A field that is absent, [null] or a string, as the declared type of
    [message], [statusMessage] and [statusText] has it. *)
Definition textual (v : value) : bool :=
  match v with
  | VUndefined | VNull | VString _ => true
  | _ => false
  end.

(** An input object whose text fields, and those of its cause, are
    textual. *)
Definition wellTyped (input : value) : Prop :=
  textual (get input "message") = true /\
  textual (get input "statusMessage") = true /\
  textual (get input "statusText") = true /\
  textual (Error.get_opt (get input "cause") "statusMessage") = true /\
  textual (Error.get_opt (get input "cause") "statusText") = true.

(** *** Events *)

(** A fresh event after the getter [pathname] has sliced its URL. *)
Definition sliced (method url p : string) (qIndex : Z) : Event.H3WebEvent :=
  {| Event.request_method := method; Event.request_url := url;
     Event.response := Event.new_WebEventResponse;
     Event._url := None; Event._pathname := Some p;
     Event._urlqindex := Some qIndex; Event._queryString := None |}.

(** *** Response serialization *)

(** The header list an event's response state stands for. *)
Definition view (ev : Response.H3Event) : Web.Headers :=
  fst (Event.headers (Response.response ev)).

(** A character that is not HTTP white space. *)
Definition solid (c : ascii) : bool := negb (Web.isHttpWhitespace c).

(** The case in which [prepareResponse] hands a [Response] through: the
    event has no status, no status text and no headers. *)
Definition passedThrough (val : value) (ev : Response.H3Event) : bool :=
  match val with
  | VResponse _ =>
      negb (Response.truthy_number (Event.status (Response.response ev)))
      && negb (Response.truthy_string (Event.statusText (Response.response ev)))
      && match Response.headers_or_init (Response.response ev) with
         | None => true
         | Some _ => false
         end
  | _ => false
  end.

(** The values for which preparing the body assigns the event's status:
    errors, the not-found marker and the values that cannot be sent. *)
Definition assignsStatus (val : value) : bool :=
  match val with
  | VError _ _ _ _ _ | VH3Error _ | VSymbol _ | VFunction _ | VResponse _ => true
  | _ => false
  end.



Definition production : Response.H3Config := {| Response.debug := false |}.
Definition debugging : Response.H3Config := {| Response.debug := true |}.

(** A fresh event, and events on which a hook has set something. *)
Definition request (method path : string) : Response.H3Event :=
  {| Response.method := method; Response.path := path;
     Response.response := Event.new_WebEventResponse |}.

Definition withStatus (ev : Response.H3Event) (s : Z) : Response.H3Event :=
  Response.with_response ev
    (Event.set_status (Response.response ev) (Some (Finite s))).

(** A platform response with a one-chunk body. *)
Definition okResponse : Web.Response :=
  {| Web.res_status := Finite 200; Web.res_statusText := "OK";
     Web.res_headers := [("content-type", "text/plain")];
     Web.res_body := Some [[Byte.x68; Byte.x69]] |}.

(** An error with the defaults of the class for the flags and no data. *)
Definition plainError (message : string) (code : Z) (text : option string)
    (cause stack : value) : H3Error :=
  {| message := message; statusCode := Finite code;
     fatal := VBoolean false; unhandled := VBoolean false;
     statusMessage := text; data := VUndefined; cause := cause; stack := stack |}.

(** The state of an event's response with the given status and status
    text and the headers record [record], no [Headers] object yet. *)
Definition stateOf (method path : string) (status : option number)
    (text : option string) (record : option Web.HeadersObject)
  : Response.H3Event :=
  {| Response.method := method; Response.path := path;
     Response.response :=
       {| Event.status := status; Event.statusText := text;
          Event._headersInit := record; Event._headers := None |} |}.

Definition jsonType : Web.HeadersObject :=
  [("content-type", "application/json; charset=utf-8")].

(** [{ statusCode: 404, statusMessage: "Not Found", message: ... }] *)
Definition notFoundInput : value :=
  VObject [("statusCode", VNumber (Finite 404));
           ("statusMessage", VString "Not Found");
           ("message", VString "no row 7 in table users")].

Definition threeBytes : Web.Uint8Array := [Byte.x01; Byte.x02; Byte.x03].

End Spec.

(* ===================================================================== *)
(** ** [redirect] of utils/response.ts *)
(* ===================================================================== *)

Module Util.

Import JS Dyn Sanitize.

(** [location.replace]: every double quote, globally, becomes [%22]. *)
Fixpoint encodeQuotes (location : string) : string :=
  match location with
  | EmptyString => ""
  | String c rest =>
      if Ascii.eqb c Json.dquote then ("%22" ++ encodeQuotes rest)%string
      else String c (encodeQuotes rest)
  end.

Definition quoted (s : string) : string :=
  (String Json.dquote s ++ String Json.dquote "")%string.

(** The page with the meta refresh tag. *)
Definition refreshPage (encodedLoc : string) : string :=
  ("<!DOCTYPE html><html><head><meta http-equiv=" ++ quoted "refresh"
   ++ " content=" ++ quoted ("0; url=" ++ encodedLoc)
   ++ "></head></html>")%string.

(** [redirect(event, location, code = 302)]; the page it returns is the
    first component. *)
Definition redirect (event : Response.H3Event) (location : string)
    (code : option number) : value * Response.H3Event :=
  let code := match code with Some c => c | None => Finite 302 end in
  let r :=
    Event.set_status (Response.response event)
      (Some (sanitizeStatusCode (Some (OfNumber code))
                                (Event.status (Response.response event)))) in
  let r := Event.update_headers (fun h => Web.set h "location" location) r in
  let encodedLoc := encodeQuotes location in
  let html := refreshPage encodedLoc in
  let r :=
    if negb (Web.has (fst (Event.headers r)) "content-type")
    then Event.update_headers (fun h => Web.set h "content-type" "text/html") r
    else r in
  (VString html, Response.with_response event r).

End Util.

(* ===================================================================== *)
(** ** [defineLazyEventHandler] of handler.ts *)
(* ===================================================================== *)

Module Lazy.

Section LazyHandler.

(** As in [Handler]: the world the callables act on and what a handler
    returns.  Invocations are taken one after the other, each awaited
    before the next. *)
Variables World Body : Type.

Definition EventHandler : Type := World -> Handler.outcome World Body.

(** What the promise of [load()] fulfils with, as [r.default || r]
    tells them apart: a value whose [default] is a function, a function
    whose [default] is falsy, or any other value. *)
Inductive Loaded : Type :=
| Exports (default : EventHandler)
| Itself (handler : EventHandler)
| Neither (r : Dyn.value).

(** A call of [load]: it throws, or it returns a value or a promise
    that fulfils or rejects. *)
Inductive Load : Type :=
| Throws (e : Dyn.value) (w : World)
| Fulfils (r : Loaded) (w : World)
| Rejects (e : Dyn.value) (w : World).

(** The settled [_promise]. *)
Inductive Settlement : Type :=
| Kept (handler : EventHandler)
| Broken (reason : Dyn.value).

(** The two variables [_promise] and [_resolved] of the closure. *)
Record Cell : Type := {
  _promise : option Settlement;
  _resolved : option EventHandler;
}.

Definition fresh : Cell := {| _promise := None; _resolved := None |}.

(** The record of calls of one invocation. *)
Inductive call : Type :=
| CallsLoad
| CallsHandler.

(** The [TypeError] of a result that is not a function. *)
Definition invalid (r : Dyn.value) : Dyn.value :=
  Dyn.VError "TypeError"
    (if Dyn.nullish r then "Cannot read properties of undefined"
     else "Invalid lazy handler result. It should be a function:")
    None Dyn.VUndefined [].

(** One invocation [handler(event)] of the handler that
    [defineLazyEventHandler(load)] returns. *)
Definition invoke (load : World -> Load) (c : Cell) (w : World)
  : Handler.outcome World Body * Cell * list call :=
  match _resolved c with
  | Some h => (h w, c, [CallsHandler])
  | None =>
      match _promise c with
      | Some (Kept h) => (h w, c, [CallsHandler])
      | Some (Broken e) => (Handler.Rejected e w, c, [])
      | None =>
          match load w with
          | Throws e w' => (Handler.Rejected e w', c, [CallsLoad])
          | Rejects e w' =>
              (Handler.Rejected e w',
               {| _promise := Some (Broken e); _resolved := _resolved c |},
               [CallsLoad])
          | Fulfils (Exports h) w' | Fulfils (Itself h) w' =>
              (h w', {| _promise := Some (Kept h); _resolved := Some h |},
               [CallsLoad; CallsHandler])
          | Fulfils (Neither r) w' =>
              (Handler.Rejected (invalid r) w',
               {| _promise := Some (Broken (invalid r)); _resolved := _resolved c |},
               [CallsLoad])
          end
      end
  end.

(** Invocations one after the other, from the world each one leaves. *)
Definition world_of (o : Handler.outcome World Body) : World :=
  match o with
  | Handler.Fulfilled _ w => w
  | Handler.Rejected _ w => w
  end.

Fixpoint invokeTimes (load : World -> Load) (n : nat) (c : Cell) (w : World)
  : Cell * World * list call :=
  match n with
  | O => (c, w, [])
  | S n' =>
      let '(o, c', calls) := invoke load c w in
      let '(c'', w', calls') := invokeTimes load n' c' (world_of o) in
      (c'', w', calls ++ calls')
  end.

End LazyHandler.

Arguments Exports {World Body} default.
Arguments Itself {World Body} handler.
Arguments Neither {World Body} r.
Arguments Throws {World Body} e w.
Arguments Fulfils {World Body} r w.
Arguments Rejects {World Body} e w.
Arguments Kept {World Body} handler.
Arguments Broken {World Body} reason.
Arguments _promise {World Body} c.
Arguments _resolved {World Body} c.
Arguments fresh {World Body}.
Arguments invoke {World Body} load c w.
Arguments invokeTimes {World Body} load n c w.
Arguments world_of {World Body} o.

End Lazy.

(* ===================================================================== *)
(** ** [EventStream.send] and the event-stream headers *)
(* ===================================================================== *)

Module Send.

Import JS Dyn.

(** The event as [send] uses it: [request.headers.has] and the response
    state.  Whether [has] answers depends on the class of the request's
    headers: the [Headers] of the Fetch standard throws a [TypeError] on
    a name that is no header name, and a name starting with a colon is
    none; the header object a Node.js adapter puts there looks the name
    up and answers. *)
Record H3Event : Type := {
  request_has : string -> result bool;
  response : Event.WebEventResponse;
}.

(** [has(":path") || has(":method")]: the second call is made only when
    the first returned [false]. *)
Definition isHttp2Request (event : H3Event) : result bool :=
  let* path := request_has event ":path" in
  if path then Ok true else request_has event ":method".

Definition set (name value : string) (event : H3Event) : H3Event :=
  {| request_has := request_has event;
     response :=
       Event.update_headers (fun h => Web.set h name value) (response event) |}.

(** [setEventStreamHeaders]: how the call ends, and the event it leaves;
    the three headers set before [isHttp2Request] is asked stay set when
    that call throws. *)
Definition setEventStreamHeaders (event : H3Event) : result unit * H3Event :=
  let event := set "content-type" "text/event-stream" event in
  let event :=
    set "cache-control"
        "private, no-cache, no-store, no-transform, must-revalidate, max-age=0"
        event in
  let event := set "x-accel-buffering" "no" event in
  match isHttp2Request event with
  | Ok false => (Ok tt, set "connection" "keep-alive" event)
  | Ok true => (Ok tt, event)
  | Throw e => (Throw e, event)
  end.

(** [send()]: how the call ends (it is [async]: [Throw] is a rejected
    promise), and the stream and the event it holds after the call.  The
    readable half it returns is the same object at every call. *)
Definition send (s : SSE.EventStream) (event : H3Event)
  : result unit * (SSE.EventStream * H3Event) :=
  if SSE._handled s then (Ok tt, (s, event))
  else
    match setEventStreamHeaders event with
    | (Throw e, event) => (Throw e, (s, event))
    | (Ok _, event) =>
        let event :=
          {| request_has := request_has event;
             response := Event.set_status (response event) (Some (Finite 200)) |} in
        (Ok tt,
         ({| SSE._writer := SSE._writer s; SSE._writerIsClosed := SSE._writerIsClosed s;
             SSE._paused := SSE._paused s; SSE._unsentData := SSE._unsentData s;
             SSE._disposed := SSE._disposed s; SSE._handled := true |},
          event))
    end.

End Send.

(* ===================================================================== *)
(** ** utils/internal/cors.ts and utils/cors.ts *)
(* ===================================================================== *)

Module Cors.

Import JS.

(** An entry of the [origin] array: a string, or a [RegExp], taken by
    its [test] (a pattern without the [g] and [y] flags, whose [test]
    keeps no state). *)
Inductive Matcher : Type :=
| Exact (s : string)
| Pattern (test : string -> bool).

(** The option [origin]: a string, an array, or a predicate. *)
Inductive OriginOption : Type :=
| OriginString (s : string)
| OriginList (l : list Matcher)
| OriginFunction (f : string -> bool).

(** ["*"] or an array of names. *)
Inductive StarOr : Type :=
| Star
| Names (l : list string).

Record PreflightOptions : Type := {
  statusCode : option number;
}.

(** [H3CorsOptions]; [None] is an absent key.  [maxAge] is a string or
    [false], and only its truth is read: [None] stands for both. *)
Record H3CorsOptions : Type := {
  origin : option OriginOption;
  methods : option StarOr;
  allowHeaders : option StarOr;
  exposeHeaders : option StarOr;
  credentials : option bool;
  maxAge : option string;
  preflight : option PreflightOptions;
}.

Definition or_default {A : Type} (o : option A) (d : A) : option A :=
  match o with Some a => Some a | None => Some d end.

Definition resolveCorsOptions (options : H3CorsOptions) : H3CorsOptions :=
  {| origin := or_default (origin options) (OriginString "*");
     methods := or_default (methods options) Star;
     allowHeaders := or_default (allowHeaders options) Star;
     exposeHeaders := or_default (exposeHeaders options) Star;
     credentials := or_default (credentials options) false;
     maxAge := maxAge options;
     preflight :=
       Some {| statusCode :=
                 or_default
                   (match preflight options with
                    | Some p => statusCode p
                    | None => None
                    end)
                   (Finite 204) |} |}.

(** [!s] on a string that may be [null] or [undefined]. *)
Definition absent (s : option string) : bool :=
  match s with Some t => String.eqb t "" | None => true end.

Definition text (s : option string) : string :=
  match s with Some t => t | None => "" end.

Definition matches (origin : string) (m : Matcher) : bool :=
  match m with
  | Pattern test => test origin
  | Exact s => String.eqb origin s
  end.

(** [isCorsOriginAllowed(origin, options)]; calling an option that is a
    string other than ["*"] and ["null"] throws. *)
Definition isCorsOriginAllowed (origin_ : option string) (options : H3CorsOptions)
  : Dyn.result bool :=
  match origin options with
  | None => Dyn.Ok true
  | Some originOption =>
      if absent origin_ then Dyn.Ok true
      else
        match originOption with
        | OriginString s =>
            if String.eqb s "" || String.eqb s "*" || String.eqb s "null"
            then Dyn.Ok true
            else Dyn.Throw (Dyn.TypeError "originOption is not a function")
        | OriginList l => Dyn.Ok (existsb (matches (text origin_)) l)
        | OriginFunction f => Dyn.Ok (f (text origin_))
        end
  end.

(** The event as the CORS helpers use it: the request's headers, and the
    rest, where [method] is [request.method]. *)
Record H3Event : Type := {
  request_headers : Web.Headers;
  base : Response.H3Event;
}.

Definition createOriginHeaders (event : H3Event) (options : H3CorsOptions)
  : Dyn.result Web.HeadersObject :=
  let origin_ := Web.get (request_headers event) "origin" in
  let wildcard : Web.HeadersObject := [("access-control-allow-origin", "*")] in
  match origin options with
  | None => Dyn.Ok wildcard
  | Some originOption =>
      if absent origin_ then Dyn.Ok wildcard
      else
        match originOption with
        | OriginString s =>
            if String.eqb s "" || String.eqb s "*" then Dyn.Ok wildcard
            else Dyn.Ok [("access-control-allow-origin", s); ("vary", "origin")]
        | _ =>
            Dyn.bind (isCorsOriginAllowed origin_ options) (fun allowed =>
              Dyn.Ok (if allowed
                      then [("access-control-allow-origin", text origin_);
                            ("vary", "origin")]
                      else []))
        end
  end.

Definition createMethodsHeaders (options : H3CorsOptions) : Web.HeadersObject :=
  match methods options with
  | None => []
  | Some Star => [("access-control-allow-methods", "*")]
  | Some (Names l) =>
      if (0 <? List.length l)%nat
      then [("access-control-allow-methods", Dyn.join "," l)]
      else []
  end.

Definition createCredentialsHeaders (options : H3CorsOptions) : Web.HeadersObject :=
  match credentials options with
  | Some true => [("access-control-allow-credentials", "true")]
  | _ => []
  end.

Definition createAllowHeaderHeaders (event : H3Event) (options : H3CorsOptions)
  : Web.HeadersObject :=
  let mirror : Web.HeadersObject :=
    let header := Web.get (request_headers event) "access-control-request-headers" in
    if absent header then []
    else [("access-control-allow-headers", text header);
          ("vary", "access-control-request-headers")] in
  match allowHeaders options with
  | None | Some Star | Some (Names []) => mirror
  | Some (Names l) =>
      [("access-control-allow-headers", Dyn.join "," l);
       ("vary", "access-control-request-headers")]
  end.

Definition createExposeHeaders (options : H3CorsOptions) : Web.HeadersObject :=
  match exposeHeaders options with
  | None => []
  | Some Star => [("access-control-expose-headers", "*")]
  | Some (Names l) => [("access-control-expose-headers", Dyn.join "," l)]
  end.

Definition createMaxAgeHeader (options : H3CorsOptions) : Web.HeadersObject :=
  if absent (maxAge options) then []
  else [("access-control-max-age", text (maxAge options))].

(** [{ ...a, ...b }] *)
Definition spread (a b : Web.HeadersObject) : Web.HeadersObject :=
  fold_left (fun o kv => Web.assign o (fst kv) (snd kv)) b a.

(** [for (const [key, value] of Object.entries(headers))
      event.response.headers.append(key, value)] *)
Definition appendAll (headers : Web.HeadersObject) (event : H3Event) : H3Event :=
  {| request_headers := request_headers event;
     base :=
       Response.with_response (base event)
         (fold_left
            (fun r kv =>
               Event.update_headers (fun h => Web.append h (fst kv) (snd kv)) r)
            headers (Response.response (base event))) |}.

Definition isPreflightRequest (event : H3Event) : bool :=
  String.eqb (Response.method (base event)) "OPTIONS"
  && negb (absent (Web.get (request_headers event) "origin"))
  && negb (absent (Web.get (request_headers event) "access-control-request-method")).

Definition preflightHeaders (event : H3Event) (options : H3CorsOptions)
  : Dyn.result Web.HeadersObject :=
  Dyn.bind (createOriginHeaders event options) (fun originHeaders =>
    Dyn.Ok
      (spread (spread (spread (spread (spread [] originHeaders)
                                      (createCredentialsHeaders options))
                              (createMethodsHeaders options))
                      (createAllowHeaderHeaders event options))
              (createMaxAgeHeader options))).

Definition appendCorsPreflightHeaders (event : H3Event) (options : H3CorsOptions)
  : Dyn.result H3Event :=
  Dyn.bind (preflightHeaders event options) (fun headers =>
    Dyn.Ok (appendAll headers event)).

Definition corsHeaders (event : H3Event) (options : H3CorsOptions)
  : Dyn.result Web.HeadersObject :=
  Dyn.bind (createOriginHeaders event options) (fun originHeaders =>
    Dyn.Ok
      (spread (spread (spread [] originHeaders)
                      (createCredentialsHeaders options))
              (createExposeHeaders options))).

Definition appendCorsHeaders (event : H3Event) (options : H3CorsOptions)
  : Dyn.result H3Event :=
  Dyn.bind (corsHeaders event options) (fun headers =>
    Dyn.Ok (appendAll headers event)).

(** [handleCors(event, options)]: [""] for a preflight request, [false]
    otherwise. *)
Definition handleCors (event : H3Event) (options : H3CorsOptions)
  : Dyn.result (Dyn.value * H3Event) :=
  let _options := resolveCorsOptions options in
  if isPreflightRequest event then
    Dyn.bind (appendCorsPreflightHeaders event options) (fun event =>
      let '(v, b) :=
        Response.noContent (base event)
          (match preflight _options with
           | Some p => statusCode p
           | None => None
           end) in
      Dyn.Ok (v, {| request_headers := request_headers event; base := b |}))
  else
    Dyn.bind (appendCorsHeaders event options) (fun event =>
      Dyn.Ok (Dyn.VBoolean false, event)).

End Cors.

(* ===================================================================== *)
(** ** Further notions used to state the properties *)
(* ===================================================================== *)

Module Cover.

Import JS Dyn.

(** A number that is an integer from 100 to 999. *)
Definition statusInRange (n : number) : Prop :=
  exists z, n = Finite z /\ 100 <= z <= 999.

(** [a <= b] on numbers: [false] when one of them is [NaN]. *)
Definition atMost (a b : number) : bool := lt a b || number_eq a b.

(** A number from 100 to 999, bounds included, integer or not. *)
Definition from100to999 (n : number) : bool :=
  atMost (Finite 100) n && atMost n (Finite 999).

(** Horizontal tab, space or a visible ASCII character: code 9 and the
    codes 32 to 126 (RFC 7230, section 3.1.2). *)
Definition tabOrPrintable (c : ascii) : Prop :=
  nat_of_ascii c = 9%nat \/ (32 <= nat_of_ascii c <= 126)%nat.

(** The characters of a string, in order. *)
Definition chars (s : string) : list ascii := list_ascii_of_string s.

(** A value that [isError] accepts without being an [H3Error]: a plain
    object whose own [constructor] property carries the marker. *)
Definition marked (props : list (string * value)) : value :=
  VObject (("constructor", VObject [("__h3_error__", VBoolean true)]) :: props).

(** Where [createError] looks for the status code and for the status
    message, in this order. *)
Definition statusCodeIn (input : value) : value :=
  get input "statusCode" ?? get input "status" ??
  Error.get_opt (get input "cause") "statusCode" ??
  Error.get_opt (get input "cause") "status".

Definition statusMessageIn (input : value) : value :=
  get input "statusMessage" ?? get input "statusText" ??
  Error.get_opt (get input "cause") "statusMessage" ??
  Error.get_opt (get input "cause") "statusText".

(** The argument of [push] is an empty array. *)
Definition emptyArray (m : SSE.Pushed) : bool :=
  match m with
  | SSE.ManyStrings [] | SSE.ManyMessages [] => true
  | _ => false
  end.

(** All the bytes the stream has taken, in order. *)
Definition delivered (s : SSE.EventStream) : Web.Uint8Array :=
  concat (SSE.written (SSE._writer s)).

(** The calls a program makes on a stream, and a run of them in order. *)
Inductive Call : Type :=
| Push (m : SSE.Pushed)
| Pause
| Resume
| Flush
| Close.

Definition call (s : SSE.EventStream) (c : Call) : SSE.EventStream :=
  match c with
  | Push m => SSE.push s m
  | Pause => SSE.pause s
  | Resume => SSE.resume s
  | Flush => SSE.flush s
  | Close => SSE.close s
  end.

Definition callAll (s : SSE.EventStream) (cs : list Call) : SSE.EventStream :=
  fold_left call cs s.

(** The marks of callables that were called and have settled. *)
Definition settled {Name T : Type} (hs : list (Handler.Named Name T))
  : Handler.Trace Name :=
  flat_map (fun h => [Handler.Called (Handler.name h);
                      Handler.Settled (Handler.name h)]) hs.

(** The status a call leaves on the event. *)
Definition statusOf (ev : Response.H3Event) : option number :=
  Event.status (Response.response ev).

Definition isResponse (v : value) : bool :=
  match v with VResponse _ => true | _ => false end.

(** A character other than the double quote. *)
Definition notQuote (c : ascii) : bool := negb (Ascii.eqb c Json.dquote).

(** The object that serialization makes an error of for a value it
    cannot send, and for the not-found marker. *)
Definition statusObject (code : Z) (text : string) : value :=
  VObject [("statusCode", VNumber (Finite code)); ("statusMessage", VString text)].

(** A request with an [origin] header, and options whose [origin] is a
    list of one exact origin. *)
Definition crossOrigin (method origin : string) (more : Web.Headers) : Cors.H3Event :=
  {| Cors.request_headers := ("origin", origin) :: more;
     Cors.base := Spec.request method "/" |}.

Definition onlyOrigin (allowed : string) : Cors.H3CorsOptions :=
  {| Cors.origin := Some (Cors.OriginList [Cors.Exact allowed]);
     Cors.methods := None; Cors.allowHeaders := None; Cors.exposeHeaders := None;
     Cors.credentials := None; Cors.maxAge := None; Cors.preflight := None |}.

Definition allowingHeaders (allowed : string) (names : list string)
  : Cors.H3CorsOptions :=
  {| Cors.origin := Some (Cors.OriginList [Cors.Exact allowed]);
     Cors.methods := None; Cors.allowHeaders := Some (Cors.Names names);
     Cors.exposeHeaders := None;
     Cors.credentials := None; Cors.maxAge := None; Cors.preflight := None |}.

(** The error [createError] makes of [Spec.notFoundInput]. *)
Definition notFoundError : H3Error :=
  Spec.plainError "no row 7 in table users" 404 (Some "Not Found")
    Spec.notFoundInput (VString "trace").

(** An input that has its status only through its cause, and the error
    made of it. *)
Definition fromCause : value :=
  VObject [("cause", statusObject 404 "Not Found")].

Definition fromCauseError : H3Error :=
  Spec.plainError "" 404 (Some "Not Found") (statusObject 404 "Not Found")
    (VString "trace").

(** A parser for the runs in which the parser is not reached. *)
Definition noParser : string -> result Event.URL :=
  fun _ => Throw (TypeError "Invalid URL").

(** A hook and a handler that reject, over the journal world. *)
Definition refuse (reason : value) : Handler.RequestMiddleware Spec.Journal :=
  fun w => Handler.Rejected reason (w ++ ["refused"]).

Definition failing (reason : value) : Handler.EventHandler Spec.Journal string :=
  fun w => Handler.Rejected reason (w ++ ["failed"]).

(** Named callables over the journal world. *)
Definition noting (n line : string)
  : Handler.Named string (Handler.RequestMiddleware Spec.Journal) :=
  {| Handler.name := n; Handler.run := Spec.note line |}.

Definition refusing (n : string) (reason : value)
  : Handler.Named string (Handler.RequestMiddleware Spec.Journal) :=
  {| Handler.name := n; Handler.run := refuse reason |}.

Definition answering (n line b : string)
  : Handler.Named string (Handler.EventHandler Spec.Journal string) :=
  {| Handler.name := n; Handler.run := Spec.answer line b |}.

Definition failingAs (n : string) (reason : value)
  : Handler.Named string (Handler.EventHandler Spec.Journal string) :=
  {| Handler.name := n; Handler.run := failing reason |}.

Definition amending (n suffix : string)
  : Handler.Named string (Handler.ResponseMiddleware Spec.Journal string) :=
  {| Handler.name := n; Handler.run := Spec.amend suffix |}.

(** An HTTP/1.1 request, as [send] sees it behind a Node.js adapter,
    on a fresh response: no header of the names asked for. *)
Definition plainRequest : Send.H3Event :=
  {| Send.request_has := fun _ => Ok false;
     Send.response := Event.new_WebEventResponse |}.

(** The same request with the [Headers] of the Fetch standard: [has]
    throws on a name that starts with a colon. *)
Definition fetchRequest : Send.H3Event :=
  {| Send.request_has :=
       fun name =>
         match name with
         | String ":" _ => Throw (TypeError "Headers.has: invalid header name")
         | _ => Ok false
         end;
     Send.response := Event.new_WebEventResponse |}.

(** A message whose optional fields are there and empty or unusable. *)
Definition bare (d : string) : SSE.EventStreamMessage :=
  {| SSE.id := Some ""; SSE.event := None; SSE.retry := Some NaN; SSE.data := d |}.

(** A lazy handler's [load] over the journal world: it notes the call
    and gives a handler, or rejects. *)
Definition loadAnswer (b : string) : Spec.Journal -> Lazy.Load Spec.Journal string :=
  fun w => Lazy.Fulfils (Lazy.Itself (Spec.answer "run" b)) (w ++ ["load"]).

Definition loadFails (e : value) : Spec.Journal -> Lazy.Load Spec.Journal string :=
  fun w => Lazy.Rejects e (w ++ ["load"]).

End Cover.

(* ===================================================================== *)
(** ** Properties: server-sent events *)
(* ===================================================================== *)

Section EventStreamFacts.

Import JS SSE Spec.

Lemma string_app_assoc (a b c : string) : ((a ++ b) ++ c = a ++ (b ++ c))%string.
Proof. induction a as [|x a IH]; simpl; [reflexivity | now rewrite IH]. Qed.

Lemma string_app_empty_r (a : string) : (a ++ "" = a)%string.
Proof. induction a as [|x a IH]; simpl; [reflexivity | now rewrite IH]. Qed.

Lemma present_text (o : option string) : present o = false -> text o = "".
Proof.
  destruct o as [d|]; simpl; [|reflexivity].
  destruct (String.eqb_spec d ""); [now subst | discriminate].
Qed.

(** What a paused stream with an open writer does with a payload. *)
Lemma sendPayload_paused (s : EventStream) (p : string) :
  _paused s = true ->
  sendPayload s p = with_unsentData s (Some (pending s ++ p)%string).
Proof.
  intros Hp. unfold sendPayload, pending. rewrite Hp. simpl.
  destruct (present (_unsentData s)) eqn:E; simpl; [reflexivity|].
  now rewrite (present_text _ E).
Qed.

(** One [push] on a paused stream with an open writer: no field but the
    pending buffer changes, and the buffer grows by the payload. *)
Lemma push_paused (s : EventStream) (m : Pushed) :
  _paused s = true -> _writerIsClosed s = false ->
  _writer (push s m) = _writer s /\
  _writerIsClosed (push s m) = false /\
  _paused (push s m) = true /\
  _disposed (push s m) = _disposed s /\
  _handled (push s m) = _handled s /\
  pending (push s m) = (pending s ++ payload m)%string.
Proof.
  intros Hp Hc.
  assert (sent : forall p,
    _writer (sendPayload s p) = _writer s /\
    _writerIsClosed (sendPayload s p) = false /\
    _paused (sendPayload s p) = true /\
    _disposed (sendPayload s p) = _disposed s /\
    _handled (sendPayload s p) = _handled s /\
    pending (sendPayload s p) = (pending s ++ p)%string).
  { intros p. rewrite (sendPayload_paused s p Hp). now repeat split. }
  assert (same :
    _writer s = _writer s /\ _writerIsClosed s = false /\ _paused s = true /\
    _disposed s = _disposed s /\ _handled s = _handled s /\
    pending s = (pending s ++ "")%string).
  { repeat split; try assumption. now rewrite string_app_empty_r. }
  destruct m as [item | items | msg | msgs]; simpl.
  - unfold _sendEvent. rewrite Hc. apply sent.
  - destruct items as [|i items]; [exact same|].
    unfold _sendEvents. rewrite Hc. apply sent.
  - unfold _sendEvent. rewrite Hc. apply sent.
  - destruct msgs as [|i msgs]; [exact same|].
    unfold _sendEvents. rewrite Hc. apply sent.
Qed.

Lemma pushAll_paused (ms : list Pushed) : forall s : EventStream,
  _paused s = true -> _writerIsClosed s = false ->
  _writer (pushAll s ms) = _writer s /\
  _writerIsClosed (pushAll s ms) = false /\
  _paused (pushAll s ms) = true /\
  _disposed (pushAll s ms) = _disposed s /\
  _handled (pushAll s ms) = _handled s /\
  pending (pushAll s ms) = (pending s ++ payloads ms)%string.
Proof.
  induction ms as [|m ms IH]; intros s Hp Hc; simpl.
  - repeat split; try assumption. now rewrite string_app_empty_r.
  - destruct (push_paused s m Hp Hc) as (W & C & P & D & H & U).
    destruct (IH (push s m) P C) as (W' & C' & P' & D' & H' & U').
    unfold pushAll in *. simpl.
    rewrite W', C', P', D', H', U', W, D, H, U.
    repeat split. apply string_app_assoc.
Qed.

(** Every serialized message ends with a blank line. *)
Lemma message_ends_with_blank_line (m : EventStreamMessage) :
  exists lines, formatEventStreamMessage m = (lines ++ LF ++ LF)%string.
Proof.
  unfold formatEventStreamMessage.
  set (r := match retry m with Some _ => _ | None => _ end).
  exists (r ++ "data: " ++ data m)%string.
  now rewrite !string_app_assoc.
Qed.

(** [flush] on an open writer with a non-empty buffer: one call of
    [write] with the whole buffer; the buffer goes when the write
    fulfils and stays when it rejects. *)
Lemma flush_pending (s : EventStream) :
  _writerIsClosed s = false -> pending s <> "" ->
  calls (_writer (flush s)) = calls (_writer s) ++ [encode (pending s)] /\
  (state (_writer s) = Writable ->
     _unsentData (flush s) = None /\
     written (_writer (flush s)) = written (_writer s) ++ [encode (pending s)]) /\
  (state (_writer s) <> Writable ->
     _unsentData (flush s) = _unsentData s /\
     written (_writer (flush s)) = written (_writer s)).
Proof.
  intros Hc Hne. unfold flush, pending in *. rewrite Hc.
  destruct (_unsentData s) as [d|] eqn:Hd; simpl in Hne; [|congruence].
  destruct d as [|c d]; [congruence|]. simpl.
  unfold write. destruct (state (_writer s)) eqn:Hs; simpl;
    repeat split; try reflexivity; try congruence; intros; congruence.
Qed.

Lemma flush_nothing_pending (s : EventStream) : pending s = "" -> flush s = s.
Proof.
  unfold flush, pending. intros H.
  destruct (_writerIsClosed s); [reflexivity|].
  destruct (_unsentData s) as [d|]; [|reflexivity].
  simpl in H. subst d. reflexivity.
Qed.

(** C7, as amended: a paused stream whose writer is not closed buffers
    what is pushed, in push order and without writing; [resume] clears
    the paused flag and then flushes: with a non-empty buffer it makes
    exactly one call of [write], whose payload is the whole buffer, and
    the buffer is emptied when that write fulfils and kept when it
    rejects; with an empty buffer it writes nothing.  Every serialized
    message ends with a blank line. *)
Theorem paused_push_then_resume (s : EventStream) (ms : list Pushed) :
  _paused s = true -> _writerIsClosed s = false ->
  let s1 := pushAll s ms in
  let s2 := resume s1 in
  (_writer s1 = _writer s /\
   pending s1 = (pending s ++ payloads ms)%string /\
   _paused s1 = true) /\
  (resume s1 = flush (with_paused s1 false) /\ _paused s2 = false) /\
  (pending s1 <> "" ->
     calls (_writer s2) = calls (_writer s) ++ [encode (pending s ++ payloads ms)] /\
     (state (_writer s) = Writable ->
        _unsentData s2 = None /\
        written (_writer s2) =
          written (_writer s) ++ [encode (pending s ++ payloads ms)]) /\
     (state (_writer s) <> Writable ->
        pending s2 = (pending s ++ payloads ms)%string /\
        written (_writer s2) = written (_writer s))) /\
  (pending s1 = "" -> _writer s2 = _writer s /\ pending s2 = "") /\
  (forall m, exists lines,
     formatEventStreamMessage m = (lines ++ LF ++ LF)%string).
Proof.
  intros Hp Hc s1 s2.
  destruct (pushAll_paused ms s Hp Hc) as (W & C & P & D & H & U).
  fold s1 in W, C, P, D, H, U.
  assert (Hc' : _writerIsClosed (with_paused s1 false) = false) by exact C.
  assert (Hpaused : _paused s2 = false).
  { unfold s2, resume, flush. rewrite Hc'.
    destruct (_unsentData (with_paused s1 false)) as [d|]; [|reflexivity].
    destruct (0 <? String.length d)%nat; [|reflexivity].
    destruct (write _ _) as [[|] w]; reflexivity. }
  split; [now repeat split|].
  split; [now split|].
  split; [|split].
  - intros Hne.
    destruct (flush_pending (with_paused s1 false) Hc' Hne) as (F1 & F2 & F3).
    change (flush (with_paused s1 false)) with s2 in F1, F2, F3.
    change (pending (with_paused s1 false)) with (pending s1) in F1, F2, F3.
    change (_writer (with_paused s1 false)) with (_writer s1) in F1, F2, F3.
    change (_unsentData (with_paused s1 false)) with (_unsentData s1) in F3.
    rewrite W, U in F1, F2. rewrite W in F3.
    split; [exact F1|]. split; [exact F2|].
    intros Hs. destruct (F3 Hs) as [F3a F3b]. split; [|exact F3b].
    unfold pending at 1. rewrite F3a. exact U.
  - intros He. unfold s2, resume.
    rewrite flush_nothing_pending by exact He.
    split; [exact W | exact He].
  - apply message_ends_with_blank_line.
Qed.

(** C7, a run of the amended statement: three messages pushed on a
    fresh, paused stream, then [resume]. *)
Lemma paused_push_then_resume_witness :
  calls (_writer (resume (pushAll (pause new_EventStream)
           [OneString "a"; OneString "b"; OneString "c"]))) =
    [encode (formatEventStreamMessage (ofData "a")
             ++ formatEventStreamMessage (ofData "b")
             ++ formatEventStreamMessage (ofData "c"))] /\
  _unsentData (resume (pushAll (pause new_EventStream)
           [OneString "a"; OneString "b"; OneString "c"])) = None.
Proof.
  pose proof (paused_push_then_resume (pause new_EventStream)
                [OneString "a"; OneString "b"; OneString "c"]
                eq_refl eq_refl) as (_ & _ & Hwrite & _).
  destruct (Hwrite ltac:(discriminate)) as (Hcalls & Hok & _).
  destruct (Hok eq_refl) as (Hbuf & _).
  split; [exact Hcalls | exact Hbuf].
Defined.

(** C7 as stated fails: on a paused stream whose writer has errored,
    the write of [resume] rejects and the pending buffer is kept. *)
Lemma resume_rejected_write_keeps_buffer :
  _paused pausedBroken = true /\
  _unsentData (resume (push pausedBroken (OneString "a"))) <> None /\
  written (_writer (resume (push pausedBroken (OneString "a")))) = [].
Proof. repeat split. discriminate. Qed.

(** C10: [push] with an empty array returns at once: nothing is
    written and no field of the stream changes. *)
Theorem push_empty_array (s : EventStream) :
  push s (ManyStrings []) = s /\ push s (ManyMessages []) = s.
Proof. split; reflexivity. Qed.

(** By contrast, a non-empty array on an open, unpaused stream is one
    call of [write]. *)
Lemma push_array_writes (s : EventStream) (m : EventStreamMessage)
    (ms : list EventStreamMessage) :
  _writerIsClosed s = false -> _paused s = false ->
  calls (_writer (push s (ManyMessages (m :: ms)))) =
    calls (_writer s) ++ [encode (formatEventStreamMessages (m :: ms))].
Proof.
  intros Hc Hp. simpl. unfold _sendEvents, sendPayload. rewrite Hc, Hp. simpl.
  unfold write. destruct (state (_writer s)); reflexivity.
Qed.

End EventStreamFacts.

(* ===================================================================== *)
(** ** Properties: handler composition *)
(* ===================================================================== *)

Section HandlerFacts.

Import Handler.

Variables World Body Name : Type.

Local Abbreviation Hook := (Named Name (RequestMiddleware World)).
Local Abbreviation Terminal := (Named Name (EventHandler World Body)).
Local Abbreviation After := (Named Name (ResponseMiddleware World Body)).

(** Request hooks that all fulfil run in list order, each from the
    world the one before has left. *)
Lemma runRequestHooks_app (hs1 hs2 : list Hook) : forall (w : World) (t : Trace Name),
  runRequestHooks World Name (hs1 ++ hs2) w t =
    match runRequestHooks World Name hs1 w t with
    | (Fulfilled _ w', t') => runRequestHooks World Name hs2 w' t'
    | (Rejected e w', t') => (Rejected e w', t')
    end.
Proof.
  induction hs1 as [|h hs1 IH]; intros w t; simpl; [reflexivity|].
  destruct (run h w) as [[] w'|e w']; [apply IH | reflexivity].
Qed.

(** A rejection is not caught: the handler and the later hooks do not
    run, and the composed handler rejects with the same reason. *)
Lemma callHandler_request_hook_rejects (A : Hook) (rest : list Hook)
    (H : Terminal) (after : option (list After))
    (w w' : World) (e : Dyn.value) (t : Trace Name) :
  run A w = Rejected e w' ->
  _callHandler World Body Name H
    {| hooks_onRequest := Some (A :: rest); hooks_onBeforeResponse := after |} w t
  = (Rejected e w', t ++ [Called (name A)]).
Proof. intros HA. unfold _callHandler. simpl. rewrite HA. reflexivity. Qed.

(** C6: with pre-request hooks [A; B], handler [H] and pre-response
    hooks [X; Y], one invocation calls A, B, H, X, Y in that order, each
    settled before the next is called; X receives the container holding
    H's value, Y receives the container as X has left it, and the
    composed handler returns the body of the container as Y has left
    it. *)
Theorem callHandler_order (A B : Hook) (H : Terminal) (X Y : After)
    (w0 w1 w2 w3 w4 w5 : World) (b : Body) (c1 c2 : Container Body)
    (t : Trace Name) :
  run A w0 = Fulfilled tt w1 ->
  run B w1 = Fulfilled tt w2 ->
  run H w2 = Fulfilled b w3 ->
  run X {| body := b |} w3 = Fulfilled c1 w4 ->
  run Y c1 w4 = Fulfilled c2 w5 ->
  defineEventHandler World Body Name
    (Object {| onRequest := Some (Many [A; B]);
               onBeforeResponse := Some (Many [X; Y]);
               handler := H |}) w0 t
  = (Fulfilled (body c2) w5,
     t ++ [Called (name A); Settled (name A);
           Called (name B); Settled (name B);
           Called (name H); Settled (name H);
           Called (name X); Settled (name X);
           Called (name Y); Settled (name Y)]).
Proof.
  intros HA HB HH HX HY.
  unfold defineEventHandler, _callHandler. simpl.
  rewrite HA, HB, HH. simpl. rewrite HX, HY.
  rewrite <- !app_assoc. reflexivity.
Qed.

End HandlerFacts.

(** C6, a run: X appends to the body, Y notes the body it receives and
    appends again; the journal shows the order and what X and Y saw. *)
Lemma callHandler_order_witness :
  Handler.defineEventHandler Spec.Journal string string
    (Handler.Object
       {| Handler.onRequest :=
            Some (Handler.Many
                    [ {| Handler.name := "A"; Handler.run := Spec.note "a" |};
                      {| Handler.name := "B"; Handler.run := Spec.note "b" |} ]);
          Handler.onBeforeResponse :=
            Some (Handler.Many
                    [ {| Handler.name := "X"; Handler.run := Spec.amend "+x" |};
                      {| Handler.name := "Y"; Handler.run := Spec.amend "+y" |} ]);
          Handler.handler :=
            {| Handler.name := "H"; Handler.run := Spec.answer "h" "body" |} |})
    [] []
  = (Handler.Fulfilled "body+x+y" ["a"; "b"; "h"; "body"; "body+x"],
     [Handler.Called "A"; Handler.Settled "A";
      Handler.Called "B"; Handler.Settled "B";
      Handler.Called "H"; Handler.Settled "H";
      Handler.Called "X"; Handler.Settled "X";
      Handler.Called "Y"; Handler.Settled "Y"]).
Proof.
  exact (callHandler_order Spec.Journal string string
           {| Handler.name := "A"; Handler.run := Spec.note "a" |}
           {| Handler.name := "B"; Handler.run := Spec.note "b" |}
           {| Handler.name := "H"; Handler.run := Spec.answer "h" "body" |}
           {| Handler.name := "X"; Handler.run := Spec.amend "+x" |}
           {| Handler.name := "Y"; Handler.run := Spec.amend "+y" |}
           [] ["a"] ["a"; "b"] ["a"; "b"; "h"]
           ["a"; "b"; "h"; "body"] ["a"; "b"; "h"; "body"; "body+x"]
           "body" {| Handler.body := "body+x" |} {| Handler.body := "body+x+y" |}
           [] eq_refl eq_refl eq_refl eq_refl eq_refl).
Defined.

(* ===================================================================== *)
(** ** Properties: the pathname accessor *)
(* ===================================================================== *)

Section EventFacts.

Import Dyn Event.

Variable URL_parse : string -> result URL.

(** On a fresh event whose URL has the markers, the getter returns the
    slice and never calls the parser. *)
Lemma pathname_fresh (method url p : string) (q : Z) :
  slicePathname url = Some (p, q) ->
  pathname URL_parse (new_H3WebEvent method url)
  = Ok (p, Spec.sliced method url p q).
Proof. intros Hs. unfold pathname. simpl. now rewrite Hs. Qed.

(** Once [url] has been read, the getter returns the parser's pathname. *)
Lemma pathname_after_url (ev ev' : H3WebEvent) (u : URL) :
  url URL_parse ev = Ok (u, ev') ->
  pathname URL_parse ev' = Ok (url_pathname u, ev').
Proof.
  unfold url, pathname. destruct (_url ev) as [u0|] eqn:Hu.
  - intros [= <- <-]. now rewrite Hu.
  - destruct (URL_parse _); [|discriminate]. intros [= <- <-]. reflexivity.
Qed.

End EventFacts.

(** C1, at the failing input: on the URL of a request for [/a/../b] the
    getter [pathname] of a fresh event takes the fast path, whatever the
    parser is, and returns the slice ["/a/../b"], where the pathname of
    the parsed URL is ["/b"]; the same happens with a fragment and with
    a character the parser percent-encodes. *)
Theorem pathname_slice_is_not_parsed_pathname
    (URL_parse : string -> Dyn.result Event.URL) :
  (Event.pathname URL_parse (Event.new_H3WebEvent "GET" "http://localhost/a/../b")
   = Dyn.Ok ("/a/../b", Spec.sliced "GET" "http://localhost/a/../b" "/a/../b" (-1)) /\
   Whatwg.pathname "http://localhost/a/../b" = Some "/b") /\
  (Event.pathname URL_parse (Event.new_H3WebEvent "GET" "http://localhost/a#b")
   = Dyn.Ok ("/a#b", Spec.sliced "GET" "http://localhost/a#b" "/a#b" (-1)) /\
   Whatwg.pathname "http://localhost/a#b" = Some "/a") /\
  (Event.pathname URL_parse (Event.new_H3WebEvent "GET" "http://localhost/a{b}")
   = Dyn.Ok ("/a{b}", Spec.sliced "GET" "http://localhost/a{b}" "/a{b}" (-1)) /\
   Whatwg.pathname "http://localhost/a{b}" = Some "/a%7Bb%7D").
Proof. repeat split. Qed.

(** Where nothing needs normalizing the two agree. *)
Example pathname_slice_plain :
  Event.slicePathname "http://localhost:3000/users/7?x=1" = Some ("/users/7", 29) /\
  Whatwg.pathname "http://localhost:3000/users/7?x=1" = Some "/users/7".
Proof. split; reflexivity. Qed.

(* ===================================================================== *)
(** ** Properties: error normalization *)
(* ===================================================================== *)

Section ErrorFacts.

Import JS Dyn Sanitize Error.

Ltac project :=
  cbn [statusCode statusMessage data stack message fatal unhandled cause
       with_data with_stack with_statusMessage with_fatal with_unhandled
       with_statusCode new_H3Error].

Ltac by_tests :=
  project;
  repeat (match goal with
          | |- context [if ?c then _ else _] => destruct c
          end; project);
  reflexivity.

Lemma statusCode_after_fatal (err : H3Error) (v : value) :
  statusCode (match v with VUndefined => err | _ => with_fatal err v end)
  = statusCode err.
Proof. destruct v; reflexivity. Qed.

Lemma statusCode_after_unhandled (err : H3Error) (v : value) :
  statusCode (match v with VUndefined => err | _ => with_unhandled err v end)
  = statusCode err.
Proof. destruct v; reflexivity. Qed.

Lemma get_object (props : list (string * value)) (k : string) (v : value) :
  lookup k props = Some v -> get (VObject props) k = v.
Proof. intros H. unfold get. now rewrite H. Qed.

(** [sanitizeStatusCode] itself: out of range gives the default, a
    numeric string is parsed, a string without digits gives [NaN]. *)
Lemma sanitizeStatusCode_out_of_range (n : number) (d : option number) :
  lt n (Finite 100) || gt n (Finite 999) = true ->
  sanitizeStatusCode (Some (OfNumber n)) d
  = match d with Some x => x | None => Finite 200 end.
Proof.
  intros H. unfold sanitizeStatusCode.
  destruct (falsy (OfNumber n)); [reflexivity|]. now rewrite H.
Qed.

Lemma sanitizeStatusCode_in_range (z : Z) (d : option number) :
  100 <= z <= 999 ->
  sanitizeStatusCode (Some (OfNumber (Finite z))) d = Finite z.
Proof.
  intros H. unfold sanitizeStatusCode, falsy, lt, gt, lt.
  destruct (Z.eqb_spec z 0); [lia|].
  destruct (Z.ltb_spec z 100); [lia|].
  destruct (Z.ltb_spec 999 z); [lia|]. reflexivity.
Qed.

Example sanitizeStatusCode_strings :
  sanitizeStatusCode (Some (OfString "404")) None = Finite 404 /\
  sanitizeStatusCode (Some (OfString "abc")) None = NaN /\
  sanitizeStatusCode (Some (OfString "99")) (Some (Finite 500)) = Finite 500.
Proof. repeat split; reflexivity. Qed.

(** C2, at the failing input: [createError] sanitizes with the default
    of [sanitizeStatusCode], which is 200, so that
    [createError({ statusCode: 999999 })] carries status 200, while the
    class default and [toJSON] use 500. *)
Theorem createError_out_of_range_statusCode (stackTrace : string) :
  exists e,
    createError stackTrace (VObject [("statusCode", VNumber (Finite 999999))])
    = Ok (VH3Error e) /\
    statusCode e = Finite 200 /\
    statusCode (new_H3Error stackTrace "" VUndefined) = Finite 500.
Proof.
  exists (Spec.plainError "" 200 None
            (VObject [("statusCode", VNumber (Finite 999999))])
            (VString stackTrace)).
  repeat split.
Qed.

(** The same for every number out of range on an object that [isError]
    does not accept. *)
Lemma createError_out_of_range (stackTrace : string)
    (props : list (string * value)) (n : number) (v : value) :
  isError (VObject props) = false ->
  lookup "statusCode" props = Some (VNumber n) ->
  lt n (Finite 100) || gt n (Finite 999) = true ->
  createError stackTrace (VObject props) = Ok v ->
  exists e, v = VH3Error e /\ statusCode e = Finite 200.
Proof.
  intros Hm Hs Hn H.
  unfold createError in H. rewrite Hm in H. cbn [nullish] in H. cbv zeta in H.
  rewrite (get_object _ _ _ Hs) in H.
  cbn [coalesce nullish] in H.
  rewrite (sanitizeStatusCode_out_of_range n None Hn) in H.
  destruct (ToString _) as [message|]; [|discriminate].
  cbn [bind] in H.
  match type of H with
  | bind ?c _ = _ => destruct c as [err|] eqn:Hc; [|discriminate]
  end.
  cbn [bind] in H. injection H as <-.
  eexists. split; [reflexivity|].
  rewrite statusCode_after_unhandled, statusCode_after_fatal.
  destruct (truthy (_ ?? _)).
  - destruct (_ ?? _); try discriminate. injection Hc as <-. by_tests.
  - injection Hc as <-. by_tests.
Qed.

(** On an object that [isError] does not accept and whose text fields
    have their declared types [createError] returns a new error. *)
Lemma createError_returns (stackTrace : string) (props : list (string * value)) :
  isError (VObject props) = false ->
  Spec.wellTyped (VObject props) ->
  exists e, createError stackTrace (VObject props) = Ok (VH3Error e).
Proof.
  intros Hmark (Hm & Hsm & Hst & Hcm & Hct).
  unfold createError. rewrite Hmark. cbn [nullish]. cbv zeta.
  assert (Hmsg : exists m,
    ToString (get (VObject props) "message" ??
              get (VObject props) "statusMessage" ?? VString "") = Ok m).
  { destruct (get (VObject props) "message"); try discriminate Hm;
      destruct (get (VObject props) "statusMessage"); try discriminate Hsm;
      cbn; eauto. }
  destruct Hmsg as [m ->]. cbn [bind].
  match goal with
  | |- exists e, bind (if truthy ?v then _ else _) _ = _ =>
      assert (Htext : Spec.textual v = true)
  end.
  { destruct (get (VObject props) "statusMessage"); try discriminate Hsm;
      destruct (get (VObject props) "statusText"); try discriminate Hst;
      destruct (get_opt _ "statusMessage"); try discriminate Hcm;
      destruct (get_opt _ "statusText"); try discriminate Hct;
      reflexivity. }
  match goal with
  | |- exists e, bind (if truthy ?v then _ else _) _ = _ =>
      destruct v; try discriminate Htext
  end; cbn [truthy bind].
  - eexists; reflexivity.
  - eexists; reflexivity.
  - destruct (negb _); cbn [bind]; eexists; reflexivity.
Qed.


(** C3, as amended: [createError] never parses a status code that is a
    string, numeric or not.  It takes a status code only when its type
    is [number]: the error it builds of an input whose [statusCode] is a
    string keeps the class default 500, whatever the other fields are;
    and an input that [isError] accepts is returned as it is, its
    [statusCode] still the string. *)
Theorem createError_string_statusCode (stackTrace : string)
    (input : value) (s : string) (v : value) :
  get input "statusCode" = VString s ->
  createError stackTrace input = Ok v ->
  (isError input = false ->
     exists e, v = VH3Error e /\ statusCode e = Finite 500) /\
  (isError input = true ->
     v = input /\ get v "statusCode" = VString s).
Proof.
  intros Hs H.
  assert (Hobj : typeof input = "object").
  { destruct input; try reflexivity; cbv in Hs; discriminate Hs. }
  destruct (isError input) eqn:Hm.
  - split; [discriminate|]. intros _.
    assert (E : v = input).
    { unfold createError in H. rewrite Hm in H.
      destruct input; try discriminate Hobj; now injection H as <-. }
    subst v. now split.
  - split; [|discriminate]. intros _.
    unfold createError in H. rewrite Hm in H.
    assert (N : nullish input = false)
      by (destruct input; try reflexivity; cbv in Hs; discriminate Hs).
    rewrite N in H.
    assert (G :
      (let cause := get input "cause" in
       let* message :=
         ToString (get input "message" ?? get input "statusMessage" ?? VString "") in
       let err :=
         new_H3Error stackTrace message (if truthy cause then cause else input) in
       let err :=
         if hasProp input "stack" then with_stack err (get input "stack") else err in
       let err :=
         if truthy (get input "data") then with_data err (get input "data") else err in
       let statusCode :=
         get input "statusCode" ?? get input "status" ??
         get_opt cause "statusCode" ?? get_opt cause "status" in
       let err :=
         match statusCode with
         | VNumber n =>
             with_statusCode err (sanitizeStatusCode (Some (OfNumber n)) None)
         | _ => err
         end in
       let statusMessage :=
         get input "statusMessage" ?? get input "statusText" ??
         get_opt cause "statusMessage" ?? get_opt cause "statusText" in
       let* err :=
         (if truthy statusMessage then
            match statusMessage with
            | VString s =>
                Ok (with_statusMessage err (sanitizeStatusMessage (Some s)))
            | _ => Throw (TypeError "statusMessage.replace is not a function")
            end
          else Ok err) in
       let fatal := get input "fatal" ?? get_opt cause "fatal" in
       let err :=
         match fatal with VUndefined => err | f => with_fatal err f end in
       let unhandled := get input "unhandled" ?? get_opt cause "unhandled" in
       let err :=
         match unhandled with VUndefined => err | u => with_unhandled err u end in
       Ok (VH3Error err)) = Ok v).
    { destruct input; try discriminate Hobj; exact H. }
    clear H. cbv zeta in G. rewrite Hs in G.
    cbn [coalesce nullish] in G.
    destruct (ToString _) as [message|]; [|discriminate].
    cbn [bind] in G.
    match type of G with
    | bind ?c _ = _ => destruct c as [err|] eqn:Hc; [|discriminate]
    end.
    cbn [bind] in G. injection G as <-.
    eexists. split; [reflexivity|].
    rewrite statusCode_after_unhandled, statusCode_after_fatal.
    destruct (truthy (_ ?? _)).
    + destruct (_ ?? _); try discriminate. injection Hc as <-. by_tests.
    + injection Hc as <-. by_tests.
Qed.

End ErrorFacts.

(** C3, a run of the amended statement on [{ statusCode: "404" }]. *)
Lemma createError_string_statusCode_witness :
  exists e,
    Dyn.VH3Error
      (Spec.plainError "" 500 None
         (Dyn.VObject [("statusCode", Dyn.VString "404")]) (Dyn.VString "trace"))
    = Dyn.VH3Error e /\
    Dyn.statusCode e = JS.Finite 500.
Proof.
  exact (proj1
    (createError_string_statusCode "trace"
       (Dyn.VObject [("statusCode", Dyn.VString "404")]) "404"
       (Dyn.VH3Error
          (Spec.plainError "" 500 None
             (Dyn.VObject [("statusCode", Dyn.VString "404")])
             (Dyn.VString "trace")))
       eq_refl eq_refl)
    eq_refl).
Defined.

(** C3 as stated fails: [createError({ statusCode: "404" })] returns an
    error whose status code is 500 and not the parsed 404. *)
Lemma createError_numeric_string_not_parsed :
  exists e,
    Error.createError "trace" (Dyn.VObject [("statusCode", Dyn.VString "404")])
    = Dyn.Ok (Dyn.VH3Error e) /\
    Dyn.statusCode e = JS.Finite 500 /\
    Dyn.statusCode e <> JS.parseInt10 "404".
Proof.
  exists (Spec.plainError "" 500 None
            (Dyn.VObject [("statusCode", Dyn.VString "404")])
            (Dyn.VString "trace")).
  repeat split. discriminate.
Qed.

(** The same string on an object that carries the marker: the object
    comes back as it is, [statusCode] the string ["404"]. *)
Example createError_marked_is_returned :
  Error.isError (Cover.marked [("statusCode", Dyn.VString "404")]) = true /\
  Error.createError "trace" (Cover.marked [("statusCode", Dyn.VString "404")])
  = Dyn.Ok (Cover.marked [("statusCode", Dyn.VString "404")]) /\
  Error.isError (Dyn.VObject [("statusCode", Dyn.VString "404")]) = false.
Proof. repeat split. Qed.

(* ===================================================================== *)
(** ** Properties: the header list *)
(* ===================================================================== *)

Section HeadersFacts.

Import JS Web Spec.

Lemma named_self (name value : string) : named name (toLowerCase name, value) = true.
Proof. unfold named. simpl. apply String.eqb_refl. Qed.

Lemma named_other (name other value : string) :
  toLowerCase other <> toLowerCase name ->
  named other (toLowerCase name, value) = false.
Proof. intros H. unfold named. simpl. apply String.eqb_neq. congruence. Qed.

Lemma named_both (name other : string) (e : string * string) :
  named name e = true -> named other e = true ->
  toLowerCase other = toLowerCase name.
Proof.
  unfold named. intros H1 H2.
  apply String.eqb_eq in H1, H2. congruence.
Qed.

Lemma has_values (h : Headers) (name : string) :
  has h name = match values h name with [] => false | _ => true end.
Proof.
  unfold has, values. induction h as [|e h IH]; simpl; [reflexivity|].
  destruct (named name e); simpl; [reflexivity | exact IH].
Qed.

Lemma values_delete_same (h : Headers) (name : string) :
  values (delete h name) name = [].
Proof.
  unfold values, delete. induction h as [|e h IH]; simpl; [reflexivity|].
  destruct (named name e) eqn:E; simpl; [exact IH | now rewrite E].
Qed.

Lemma values_delete_other (h : Headers) (name other : string) :
  toLowerCase other <> toLowerCase name ->
  values (delete h name) other = values h other.
Proof.
  intros Hne. unfold values, delete. induction h as [|e h IH]; simpl; [reflexivity|].
  destruct (named name e) eqn:E; simpl.
  - destruct (named other e) eqn:E'; [|exact IH].
    elim Hne. exact (named_both _ _ _ E E').
  - destruct (named other e); simpl; now rewrite IH.
Qed.

Lemma has_delete (h : Headers) (name : string) : has (delete h name) name = false.
Proof. rewrite has_values. now rewrite values_delete_same. Qed.

Lemma values_set_same (h : Headers) (name value : string) :
  values (set h name value) name = [normalize value].
Proof.
  unfold values. induction h as [|e h IH]; simpl.
  - now rewrite named_self.
  - destruct (named name e) eqn:E; simpl.
    + rewrite named_self. simpl. f_equal. apply values_delete_same.
    + rewrite E. exact IH.
Qed.

Lemma values_set_other (h : Headers) (name other value : string) :
  toLowerCase other <> toLowerCase name ->
  values (set h name value) other = values h other.
Proof.
  intros Hne. unfold values. induction h as [|e h IH]; simpl.
  - now rewrite named_other.
  - destruct (named name e) eqn:E; simpl.
    + rewrite named_other by exact Hne.
      destruct (named other e) eqn:E'.
      * elim Hne. exact (named_both _ _ _ E E').
      * apply values_delete_other. exact Hne.
    + destruct (named other e); simpl; now rewrite IH.
Qed.

Lemma get_set_same (h : Headers) (name value : string) :
  get (set h name value) name = Some (normalize value).
Proof. unfold get. now rewrite values_set_same. Qed.

Lemma get_set_other (h : Headers) (name other value : string) :
  toLowerCase other <> toLowerCase name ->
  get (set h name value) other = get h other.
Proof. intros H. unfold get. now rewrite values_set_other. Qed.

(** [new Headers(record)] keeps one entry per key, in order. *)
Lemma Headers_of_map (o : HeadersObject) :
  Headers_of o = map (fun kv => (toLowerCase (fst kv), normalize (snd kv))) o.
Proof.
  unfold Headers_of.
  assert (G : forall acc,
    fold_left (fun h kv => append h (fst kv) (snd kv)) o acc
    = acc ++ map (fun kv => (toLowerCase (fst kv), normalize (snd kv))) o).
  { induction o as [|kv o IH]; intros acc; simpl.
    - now rewrite app_nil_r.
    - rewrite IH. unfold append. now rewrite <- app_assoc. }
  apply (G []).
Qed.

Lemma values_assign_other (o : HeadersObject) (key other value : string) :
  toLowerCase other <> toLowerCase key ->
  values (Headers_of (assign o key value)) other = values (Headers_of o) other.
Proof.
  intros Hne. rewrite !Headers_of_map. unfold values.
  induction o as [|[k v] o IH]; simpl.
  - now rewrite named_other.
  - destruct (String.eqb_spec k key) as [->|Hk]; simpl.
    + now rewrite !named_other.
    + destruct (named other _); simpl; now rewrite IH.
Qed.

Lemma has_assign (o : HeadersObject) (key value : string) :
  has (Headers_of (assign o key value)) key = true.
Proof.
  rewrite Headers_of_map. unfold has.
  induction o as [|[k v] o IH]; simpl.
  - now rewrite named_self.
  - destruct (String.eqb_spec k key) as [->|Hk]; simpl.
    + now rewrite named_self.
    + rewrite IH. apply orb_true_r.
Qed.

Lemma read_assign_same (o : HeadersObject) (key value : string) :
  read (assign o key value) key = Some value.
Proof.
  induction o as [|[k v] o IH]; simpl.
  - now rewrite String.eqb_refl.
  - destruct (String.eqb_spec k key) as [->|Hk]; simpl.
    + now rewrite String.eqb_refl.
    + destruct (String.eqb_spec k key); [contradiction | exact IH].
Qed.

Lemma read_assign_other (o : HeadersObject) (key other value : string) :
  other <> key -> read (assign o key value) other = read o other.
Proof.
  intros Hne. induction o as [|[k v] o IH]; simpl.
  - destruct (String.eqb_spec key other); [congruence | reflexivity].
  - destruct (String.eqb_spec k key) as [->|Hk]; simpl.
    + destruct (String.eqb_spec key other); [congruence | reflexivity].
    + now rewrite IH.
Qed.

(** A value without HTTP white space is kept as it is. *)
(** The entries of a record under one name, whatever their spelling. *)
Lemma values_Headers_of (o : HeadersObject) (name : string) :
  values (Headers_of o) name
  = map (fun kv => normalize (snd kv))
        (filter (fun kv => String.eqb (toLowerCase (fst kv)) (toLowerCase name)) o).
Proof.
  rewrite Headers_of_map. unfold values, named.
  induction o as [|[k v] o IH]; cbn [map filter fst snd]; [reflexivity|].
  destruct (String.eqb (toLowerCase k) (toLowerCase name));
    cbn [map snd]; now rewrite IH.
Qed.

Lemma In_assign_other (o : HeadersObject) (key value k w : string) :
  k <> key -> In (k, w) o -> In (k, w) (assign o key value).
Proof.
  intros Hne. induction o as [|[k' v'] o IH]; cbn [assign In]; [tauto|].
  intros [E|H].
  - injection E as -> ->.
    destruct (String.eqb_spec k key); [contradiction | now left].
  - destruct (String.eqb k' key); right; [exact H | now apply IH].
Qed.

Lemma In_assign_same (o : HeadersObject) (key value : string) :
  In (key, value) (assign o key value).
Proof.
  induction o as [|[k v] o IH]; cbn [assign]; [now left|].
  destruct (String.eqb_spec k key) as [->|]; [now left | now right].
Qed.

Lemma In_values (o : HeadersObject) (name k w : string) :
  In (k, w) o -> toLowerCase k = toLowerCase name ->
  In (normalize w) (values (Headers_of o) name).
Proof.
  intros H E. rewrite values_Headers_of.
  apply (in_map (fun kv => normalize (snd kv)) _ (k, w)).
  apply filter_In. split; [exact H|]. cbn [fst]. rewrite E. apply String.eqb_refl.
Qed.

Lemma values_none (o : HeadersObject) (name : string) :
  (forall k w, In (k, w) o -> toLowerCase k <> toLowerCase name) ->
  values (Headers_of o) name = [].
Proof.
  intros H. rewrite values_Headers_of.
  induction o as [|[k v] o IH]; cbn [filter map fst]; [reflexivity|].
  destruct (String.eqb_spec (toLowerCase k) (toLowerCase name)) as [E|_].
  - exfalso. apply (H k v); [now left | exact E].
  - apply IH. intros k' w' Hin. apply (H k' w'). now right.
Qed.

(** Assignment replaces the value of a name when the record spells the
    name in that one way only. *)
Lemma values_assign_same (o : HeadersObject) (key value : string) :
  NoDup (map fst o) ->
  (forall k w, In (k, w) o -> toLowerCase k = toLowerCase key -> k = key) ->
  values (Headers_of (assign o key value)) key = [normalize value].
Proof.
  intros Hd Hk. induction o as [|[k v] o IH]; cbn [assign].
  - rewrite values_Headers_of. cbn [filter map fst snd].
    now rewrite String.eqb_refl.
  - cbn [map fst] in Hd. apply NoDup_cons_iff in Hd as [Hnot Hd].
    destruct (String.eqb_spec k key) as [->|Hne].
    + rewrite values_Headers_of. cbn [filter map fst snd].
      rewrite String.eqb_refl. cbn [map snd]. f_equal.
      rewrite <- values_Headers_of. apply values_none.
      intros k' w' Hin E. apply Hnot.
      assert (k' = key) by (apply (Hk k' w'); [now right | exact E]).
      subst k'. now apply (in_map fst _ (key, w')).
    + rewrite values_Headers_of. cbn [filter map fst snd].
      destruct (String.eqb_spec (toLowerCase k) (toLowerCase key)) as [E|_].
      * exfalso. apply Hne. apply (Hk k v); [now left | exact E].
      * rewrite <- values_Headers_of. apply IH; [exact Hd|].
        intros k' w' Hin. apply (Hk k' w'). now right.
Qed.

Lemma stripStart_solid (s : string) : forallb_string solid s = true -> stripStart s = s.
Proof.
  destruct s as [|c s]; simpl; [reflexivity|].
  unfold solid at 1. destruct (isHttpWhitespace c); simpl; [discriminate | reflexivity].
Qed.

Lemma stripEnd_solid (s : string) : forallb_string solid s = true -> stripEnd s = s.
Proof.
  induction s as [|c s IH]; simpl; [reflexivity|].
  intros H. apply andb_prop in H as [Hc Hs]. rewrite (IH Hs).
  destruct s; [|reflexivity].
  unfold solid in Hc. destruct (isHttpWhitespace c); [discriminate | reflexivity].
Qed.

Lemma normalize_solid (s : string) : forallb_string solid s = true -> normalize s = s.
Proof.
  intros H. unfold normalize. rewrite (stripStart_solid s H). now apply stripEnd_solid.
Qed.

Lemma uint_solid (d : Decimal.uint) :
  forallb_string solid (NilEmpty.string_of_uint d) = true.
Proof. induction d; simpl; try reflexivity; exact IHd. Qed.

Lemma decimal_solid (n : nat) : forallb_string solid (decimal (Z.of_nat n)) = true.
Proof.
  unfold decimal. destruct (Z.of_nat n) eqn:E; simpl.
  - reflexivity.
  - unfold NilZero.string_of_uint.
    destruct (Pos.to_uint p) eqn:D; try apply uint_solid. reflexivity.
  - lia.
Qed.

Lemma normalize_decimal (n : nat) :
  normalize (decimal (Z.of_nat n)) = decimal (Z.of_nat n).
Proof. apply normalize_solid, decimal_solid. Qed.

End HeadersFacts.

(* ===================================================================== *)
(** ** Properties: response serialization *)
(* ===================================================================== *)

Section ResponseFacts.

Import JS Dyn Web Event Response Spec Json.

Variable stackTrace : string.

Lemma number_eq_true (a b : number) : number_eq a b = true -> a = b.
Proof.
  destruct a as [|s|x], b as [|t|y]; simpl; try discriminate.
  - intros H. apply Bool.eqb_prop in H. now subst.
  - intros H. apply Z.eqb_eq in H. now subst.
Qed.

(** The null-body statuses are exactly the six codes. *)
Lemma isNullStatus_codes (s : number) :
  isNullStatus (Some s) = true <->
  In s [Finite 100; Finite 101; Finite 102; Finite 204; Finite 205; Finite 304].
Proof.
  split.
  - unfold isNullStatus. intros H. apply andb_prop in H as [_ H].
    repeat (apply orb_prop in H as [H|H]);
      apply number_eq_true in H; subst; simpl; tauto.
  - simpl. intros H. repeat (destruct H as [<-|H]; [reflexivity|]). contradiction.
Qed.

(** *** What [setHeader] does to the header list *)

Lemma setHeader_get_other (r : WebEventResponse) (name other value : string) :
  toLowerCase other <> toLowerCase name ->
  Web.get (fst (headers (Event.setHeader r name value))) other
  = Web.get (fst (headers r)) other.
Proof.
  intros Hne. unfold Event.setHeader, headers.
  destruct (_headers r) as [h|]; simpl.
  - now apply get_set_other.
  - unfold Web.get. now rewrite values_assign_other.
Qed.

Lemma setHeader_has (r : WebEventResponse) (name value : string) :
  Web.has (fst (headers (Event.setHeader r name value))) name = true.
Proof.
  unfold Event.setHeader, headers.
  destruct (_headers r) as [h|]; simpl.
  - rewrite has_values, values_set_same. reflexivity.
  - apply has_assign.
Qed.

Lemma status_setHeader (ev : H3Event) (name value : string) :
  status (response (Response.setHeader ev name value)) = status (response ev).
Proof.
  unfold Response.setHeader, with_response, Event.setHeader. cbn.
  destruct (_headers (response ev)); reflexivity.
Qed.

(** *** The byte-buffer rule *)

(** C9, as amended: on a [Uint8Array] the body is the buffer and
    [content-length] is set from its byte length whether or not the
    header was there.  On the [Headers] object the entry is replaced: the
    byte length is then the only value of the name.  On the record kept
    before that object exists the key [content-length] is assigned: the
    byte length is among the values the header list has for the name; a
    value the record holds under another spelling of the name stays, and
    is in the header list as well; the byte length is the only value
    when the record spells the name in no other way.  No header of
    another name, and neither status nor status text, is modified. *)
Theorem uint8array_body_sets_content_length
    (b : Uint8Array) (event : H3Event) (config : H3Config) :
  exists event',
    prepareResponseBody stackTrace (VUint8Array b) event config
      = Ok (VUint8Array b, event') /\
    (forall h, _headers (response event) = Some h ->
       _headers (response event')
         = Some (Web.set h "content-length" (decimal (Z.of_nat (byteLength b)))) /\
       values (view event') "content-length"
         = [decimal (Z.of_nat (byteLength b))]) /\
    (forall init,
       _headers (response event) = None ->
       init = match _headersInit (response event) with Some i => i | None => [] end ->
       _headers (response event') = None /\
       _headersInit (response event')
         = Some (assign init "content-length" (decimal (Z.of_nat (byteLength b)))) /\
       read (assign init "content-length" (decimal (Z.of_nat (byteLength b))))
            "content-length"
       = Some (decimal (Z.of_nat (byteLength b))) /\
       (forall key, key <> "content-length" ->
          read (assign init "content-length" (decimal (Z.of_nat (byteLength b)))) key
          = read init key) /\
       In (decimal (Z.of_nat (byteLength b))) (values (view event') "content-length") /\
       (forall key w,
          In (key, w) init -> key <> "content-length" ->
          toLowerCase key = "content-length" ->
          In (normalize w) (values (view event') "content-length")) /\
       (NoDup (map fst init) ->
        (forall key w,
           In (key, w) init -> toLowerCase key = "content-length" ->
           key = "content-length") ->
        values (view event') "content-length"
        = [decimal (Z.of_nat (byteLength b))])) /\
    Web.has (view event') "content-length" = true /\
    (forall name, toLowerCase name <> "content-length" ->
       Web.get (view event') name = Web.get (view event) name) /\
    status (response event') = status (response event) /\
    statusText (response event') = statusText (response event) /\
    method event' = method event /\
    path event' = path event.
Proof.
  exists (Response.setHeader event "content-length"
            (decimal (Z.of_nat (byteLength b)))).
  split; [reflexivity|].
  unfold view, Response.setHeader, with_response. cbn [response method path].
  split; [|split; [|split; [|split]]].
  - intros h Hh. unfold Event.setHeader. rewrite Hh. cbn.
    split; [reflexivity|].
    change (values (Web.set h "content-length" (decimal (Z.of_nat (byteLength b))))
                   "content-length" = [decimal (Z.of_nat (byteLength b))]).
    rewrite values_set_same. f_equal. apply normalize_decimal.
  - intros init Hn Hi. unfold Event.setHeader, headers. rewrite Hn.
    cbn [_headers _headersInit fst]. rewrite <- Hi.
    split; [reflexivity|]. split; [reflexivity|]. split; [|split; [|split; [|split]]].
    + apply read_assign_same.
    + intros key Hk. now apply read_assign_other.
    + rewrite <- (normalize_decimal (byteLength b)) at 1.
      apply (In_values _ _ "content-length"); [apply In_assign_same | reflexivity].
    + intros key w Hin Hne Hl.
      apply (In_values _ _ key); [|exact Hl].
      now apply In_assign_other.
    + intros Hd Hk. rewrite values_assign_same; [|exact Hd|exact Hk].
      f_equal. apply normalize_decimal.
  - apply setHeader_has.
  - intros name Hne. now apply setHeader_get_other.
  - unfold Event.setHeader. destruct (_headers (response event)); repeat split.
Qed.

(** *** The null-body override *)

(** Preparing the body of a value that is not an error leaves the
    event's status as it was. *)
Lemma prepareResponseBody_keeps_status (val : value) (event event' : H3Event)
    (config : H3Config) (body : value) :
  assignsStatus val = false ->
  prepareResponseBody stackTrace val event config = Ok (body, event') ->
  status (response event') = status (response event).
Proof.
  intros Hv H. unfold prepareResponseBody in H.
  destruct val; try discriminate Hv;
    cbn -[Response.setHeader Json.stringify decimal] in H;
    try (destruct (Json.stringify _ _); [|discriminate];
         cbn -[Response.setHeader] in H);
    injection H as _ <-; rewrite ?status_setHeader; reflexivity.
Qed.

(** C4, as amended: whenever [prepareResponse] builds the response
    itself, that is for every value but a [Response] met on an event
    without status, status text and headers, a [HEAD] request or a
    null-body status on the event once the body is prepared gives a
    [null] body, whatever rule produced the body. *)
Theorem prepareResponse_null_body
    (val : value) (event event' : H3Event) (config : H3Config) (final : FinalResponse) :
  prepareResponse stackTrace val event config = Ok (final, event') ->
  passedThrough val event = false ->
  method event = "HEAD" \/ isNullStatus (status (response event')) = true ->
  body_of final = VNull.
Proof.
  intros H Hpass Hnull.
  assert (Hor : String.eqb (method event) "HEAD"
                || isNullStatus (status (response event')) = true).
  { destruct Hnull as [-> | ->]; [reflexivity | apply orb_true_r]. }
  unfold prepareResponse in H.
  destruct (is_symbol val kHandled).
  { injection H as <- _. reflexivity. }
  assert (generic :
    bind (prepareResponseBody stackTrace val event config)
      (fun x => let '(body, event0) := x in
         Ok (Prepared
               (if String.eqb (method event) "HEAD"
                   || isNullStatus (status (response event0))
                then VNull else body)
               {| init_status := status (response event0);
                  init_statusText := statusText (response event0);
                  init_headers := headers_or_init (response event0) |},
             event0))
    = Ok (final, event') -> body_of final = VNull).
  { destruct (prepareResponseBody _ _ _ _) as [[b e0]|]; [|discriminate].
    cbn [bind]. intros [= <- <-]. cbn [body_of]. now rewrite Hor. }
  destruct val; try (apply generic; exact H).
  cbn [passedThrough] in Hpass. rewrite Hpass in H.
  injection H as <- <-. cbn [body_of]. now rewrite Hor.
Qed.

(** *** No content *)

(** C5, as amended: it is [noContent] that removes [content-length]:
    when it leaves status 204 on the event, the event's header list has
    no [content-length] entry, the other headers are as before, and the
    response serialized from the value it returns has a [null] body
    and no [content-length] header. *)
Theorem noContent_removes_content_length
    (event : H3Event) (code : option number) (config : H3Config) :
  status (response (snd (noContent event code))) = Some (Finite 204) ->
  fst (noContent event code) = VString "" /\
  Web.has (view (snd (noContent event code))) "content-length" = false /\
  (forall name, toLowerCase name <> "content-length" ->
     Web.get (view (snd (noContent event code))) name = Web.get (view event) name) /\
  exists final event',
    prepareResponse stackTrace (fst (noContent event code))
                    (snd (noContent event code)) config = Ok (final, event') /\
    body_of final = VNull /\
    Web.has (headers_of final) "content-length" = false.
Proof.
  unfold noContent. cbv zeta.
  set (c := Sanitize.sanitizeStatusCode _ _).
  cbn [fst snd status set_status response with_response].
  destruct (number_eq c (Finite 204)) eqn:E.
  - intros _. split; [reflexivity|].
    apply number_eq_true in E.
    assert (Hview : view (with_response event
              (update_headers (fun h => delete h "content-length")
                 (set_status (response event) (Some c))))
            = delete (view event) "content-length").
    { unfold view, update_headers, headers. cbn.
      destruct (_headers (response event)); reflexivity. }
    rewrite Hview. split; [apply has_delete|]. split.
    + intros name Hne. unfold Web.get. now rewrite values_delete_other.
    + eexists _, _. split; [reflexivity|].
      unfold update_headers, headers. cbn.
      destruct (_headers (response event)); cbn; rewrite E; cbn;
        rewrite orb_true_r; split; try reflexivity; apply has_delete.
  - intros [= H]. rewrite H in E. discriminate.
Qed.

(** *** The error body *)

Lemma tree_of_strings (ls : list string) :
  tree_of (VArray (map VString ls)) = Ok (Some (JArray (map JString ls))).
Proof.
  cbn [tree_of].
  match goal with
  | |- bind (?each _) _ = _ =>
      assert (E : each (map VString ls) = Ok (map JString ls))
  end.
  { induction ls as [|l ls IH]; [reflexivity|].
    cbn [map]. cbn [tree_of bind]. rewrite IH. reflexivity. }
  rewrite E. reflexivity.
Qed.

Lemma tree_of_object (props : list (string * value)) :
  tree_of (VObject props) = let* ms := members_of props in Ok (Some (JObject ms)).
Proof.
  cbn [tree_of].
  match goal with
  | |- bind (?f _) _ = _ => assert (E : f props = members_of props)
  end.
  { induction props as [|[k x] props IH]; [reflexivity|].
    cbn [members_of]. rewrite <- IH. reflexivity. }
  now rewrite E.
Qed.



Local Opaque Json.render.


(** The error response also takes status and status text from the
    error [createError] returns. *)
Lemma error_body_sets_status
    (val : value) (event event' : H3Event) (config : H3Config) (body : value) :
  prepareErrorResponseBody stackTrace val event config = Ok (body, event') ->
  exists error : value,
    Error.createError stackTrace val = Ok error /\
    declaredNumber "status" (Dyn.get error "statusCode")
    = Ok (status (response event')) /\
    declaredString "statusText" (Dyn.get error "statusMessage")
    = Ok (statusText (response event')) /\
    (forall e : H3Error, error = VH3Error e ->
       status (response event') = Some (statusCode e) /\
       statusText (response event') = statusMessage e).
Proof.
  unfold prepareErrorResponseBody.
  destruct (Error.createError stackTrace val) as [error|]; [|discriminate].
  cbn [bind].
  destruct (declaredNumber _ _) as [code|] eqn:DN; [|discriminate]. cbn [bind].
  destruct (declaredString _ _) as [reason|] eqn:DS; [|discriminate]. cbn [bind].
  intros H. exists error. split; [reflexivity|].
  destruct (stackLines _ _); [|discriminate]. cbn [bind] in H.
  destruct (stringify _ _); [|discriminate]. cbn [bind] in H.
  injection H as _ <-.
  assert (S : status (response
                (Response.setHeader
                   (with_response event
                      (set_statusText (set_status (response event) code) reason))
                   "content-type" "application/json; charset=utf-8")) = code /\
              statusText (response
                (Response.setHeader
                   (with_response event
                      (set_statusText (set_status (response event) code) reason))
                   "content-type" "application/json; charset=utf-8")) = reason).
  { unfold Response.setHeader, with_response, Event.setHeader. cbn.
    destruct (_headers (response event)); split; reflexivity. }
  destruct S as [-> ->]. split; [exact DN|]. split; [exact DS|].
  intros e ->. cbn in DN, DS. injection DN as <-.
  destruct (statusMessage e); injection DS as <-; split; reflexivity.
Qed.


Local Transparent Json.render.

End ResponseFacts.

(* ===================================================================== *)
(** ** Runs of response serialization *)
(* ===================================================================== *)

(** C4, a run of the amended statement: a text body on an event whose
    status is 204. *)
Lemma prepareResponse_null_body_witness :
  Response.prepareResponse "trace" (Dyn.VString "hello")
    (Spec.stateOf "GET" "/" (Some (JS.Finite 204)) None None) Spec.production
  = Dyn.Ok (Response.Prepared Dyn.VNull
              {| Response.init_status := Some (JS.Finite 204);
                 Response.init_statusText := None;
                 Response.init_headers := None |},
            Spec.stateOf "GET" "/" (Some (JS.Finite 204)) None None) /\
  Response.body_of
    (Response.Prepared Dyn.VNull
       {| Response.init_status := Some (JS.Finite 204);
          Response.init_statusText := None;
          Response.init_headers := None |}) = Dyn.VNull.
Proof.
  split; [reflexivity|].
  exact (prepareResponse_null_body "trace" (Dyn.VString "hello")
           (Spec.stateOf "GET" "/" (Some (JS.Finite 204)) None None)
           (Spec.stateOf "GET" "/" (Some (JS.Finite 204)) None None)
           Spec.production
           (Response.Prepared Dyn.VNull
              {| Response.init_status := Some (JS.Finite 204);
                 Response.init_statusText := None;
                 Response.init_headers := None |})
           eq_refl eq_refl (or_intror eq_refl)).
Defined.

(** C4 as stated fails: on a [HEAD] request whose event carries no
    status, status text or headers, a [Response] is handed through with
    its body. *)
Lemma head_response_keeps_body :
  Response.method (Spec.request "HEAD" "/") = "HEAD" /\
  Response.prepareResponse "trace" (Dyn.VResponse Spec.okResponse)
    (Spec.request "HEAD" "/") Spec.production
  = Dyn.Ok (Response.Native Spec.okResponse, Spec.request "HEAD" "/") /\
  Response.body_of (Response.Native Spec.okResponse)
  = Dyn.VStream [[Byte.x68; Byte.x69]] /\
  Response.body_of (Response.Native Spec.okResponse) <> Dyn.VNull.
Proof. repeat split. discriminate. Qed.

(** The status that counts is the one left by body preparation: an
    error value on an event whose status was 204 is sent with the
    error's status and a body. *)
Example error_overrides_status :
  Response.prepareResponse "trace"
    (Dyn.VError "Error" "boom" None Dyn.VUndefined [])
    (Spec.stateOf "GET" "/" (Some (JS.Finite 204)) None None) Spec.production
  = Dyn.Ok (Response.Prepared
              (Dyn.VString
                 (Json.render "" "" (Json.JObject [("statusCode", Json.JNumber 500)])))
              {| Response.init_status := Some (JS.Finite 500);
                 Response.init_statusText := None;
                 Response.init_headers := Some (Response.OfObject Spec.jsonType) |},
            Spec.stateOf "GET" "/" (Some (JS.Finite 500)) None (Some Spec.jsonType)).
Proof. reflexivity. Qed.

(** C5, a run of the amended statement: [noContent] on an event that
    carries [content-length: 5]. *)
Lemma noContent_removes_content_length_witness :
  Web.has
    (Spec.view
       (snd (Response.noContent
               (Spec.stateOf "DELETE" "/item" None None
                  (Some [("content-length", "5")])) None)))
    "content-length" = false.
Proof.
  exact (proj1 (proj2
    (noContent_removes_content_length "trace"
       (Spec.stateOf "DELETE" "/item" None None (Some [("content-length", "5")]))
       None Spec.production eq_refl))).
Defined.

(** C5 as stated fails: [prepareResponse] removes no header.  A
    [content-length] set earlier stays on a 204 response, and the
    byte-buffer rule even adds one. *)
Lemma status_204_keeps_content_length :
  Response.prepareResponse "trace" (Dyn.VString "hello")
    (Spec.stateOf "GET" "/" (Some (JS.Finite 204)) None
       (Some [("content-length", "5")]))
    Spec.production
  = Dyn.Ok (Response.Prepared Dyn.VNull
              {| Response.init_status := Some (JS.Finite 204);
                 Response.init_statusText := None;
                 Response.init_headers :=
                   Some (Response.OfObject [("content-length", "5")]) |},
            Spec.stateOf "GET" "/" (Some (JS.Finite 204)) None
              (Some [("content-length", "5")])) /\
  Web.get
    (Response.headers_of
       (Response.Prepared Dyn.VNull
          {| Response.init_status := Some (JS.Finite 204);
             Response.init_statusText := None;
             Response.init_headers :=
               Some (Response.OfObject [("content-length", "5")]) |}))
    "content-length" = Some "5" /\
  Response.prepareResponse "trace" (Dyn.VUint8Array Spec.threeBytes)
    (Spec.stateOf "GET" "/" (Some (JS.Finite 204)) None None) Spec.production
  = Dyn.Ok (Response.Prepared Dyn.VNull
              {| Response.init_status := Some (JS.Finite 204);
                 Response.init_statusText := None;
                 Response.init_headers :=
                   Some (Response.OfObject [("content-length", "3")]) |},
            Spec.stateOf "GET" "/" (Some (JS.Finite 204)) None
              (Some [("content-length", "3")])).
Proof. repeat split. Qed.

(** C9 as stated fails: a [content-length] set before the byte-buffer
    rule runs is replaced by the byte length. *)
Lemma uint8array_replaces_content_length :
  Web.get
    (Spec.view (Spec.stateOf "GET" "/" None None (Some [("content-length", "999")])))
    "content-length" = Some "999" /\
  Response.prepareResponseBody "trace" (Dyn.VUint8Array Spec.threeBytes)
    (Spec.stateOf "GET" "/" None None (Some [("content-length", "999")]))
    Spec.production
  = Dyn.Ok (Dyn.VUint8Array Spec.threeBytes,
            Spec.stateOf "GET" "/" None None (Some [("content-length", "3")])) /\
  Web.get
    (Spec.view (Spec.stateOf "GET" "/" None None (Some [("content-length", "3")])))
    "content-length" = Some "3".
Proof. repeat split. Qed.

(** The same rule on a record that spells the name [Content-Length]:
    the key [content-length] is added, the earlier value stays, and the
    header list has both. *)
Example uint8array_keeps_other_spelling :
  Response.prepareResponseBody "trace" (Dyn.VUint8Array Spec.threeBytes)
    (Spec.stateOf "GET" "/" None None (Some [("Content-Length", "999")]))
    Spec.production
  = Dyn.Ok (Dyn.VUint8Array Spec.threeBytes,
            Spec.stateOf "GET" "/" None None
              (Some [("Content-Length", "999"); ("content-length", "3")])) /\
  Web.get
    (Spec.view (Spec.stateOf "GET" "/" None None
                  (Some [("Content-Length", "999"); ("content-length", "3")])))
    "content-length" = Some "999, 3".
Proof. repeat split. Qed.


(** A value that carries the marker without being an [H3Error] is
    serialized with the fields it has: no [statusCode] in the body, no
    status on the response, and its [message] is not in the body
    either. *)
Example error_body_of_marked :
  Response.prepareErrorResponseBody "trace"
    (Cover.marked [("message", Dyn.VString "secret")])
    (Spec.request "GET" "/") Spec.production
  = Dyn.Ok
      (Dyn.VString (Json.render "" "" (Json.JObject [])),
       Spec.stateOf "GET" "/" None None (Some Spec.jsonType)).
Proof. reflexivity. Qed.

(** The internal message of that error is not in the body. *)
Example error_body_hides_message :
  Error.createError "trace" Spec.notFoundInput
  = Dyn.Ok (Dyn.VH3Error
              (Spec.plainError "no row 7 in table users" 404 (Some "Not Found")
                 Spec.notFoundInput (Dyn.VString "trace"))) /\
  Response.prepareErrorResponseBody "trace" Spec.notFoundInput
    (Spec.request "GET" "/users/7") Spec.production
  = Dyn.Ok
      (Dyn.VString
         (Json.render "" ""
            (Json.JObject [("statusCode", Json.JNumber 404);
                           ("statusMessage", Json.JString "Not Found")])),
       Spec.stateOf "GET" "/users/7" (Some (JS.Finite 404))
         (Some "Not Found") (Some Spec.jsonType)).
Proof. split; reflexivity. Qed.

(** In debug mode the stack is there, as trimmed lines. *)
Example error_body_debug :
  Response.prepareErrorResponseBody "trace"
    (Dyn.VError "Error" "boom"
       (Some ("Error: boom" ++ JS.LF ++ "    at handler (app.js:1:1)")%string)
       Dyn.VUndefined [])
    (Spec.request "GET" "/") Spec.debugging
  = Dyn.Ok
      (Dyn.VString
         (Json.render "" ""
            (Json.JObject
               [("statusCode", Json.JNumber 500);
                ("stack", Json.JArray [Json.JString "Error: boom";
                                       Json.JString "at handler (app.js:1:1)"])])),
       Spec.stateOf "GET" "/" (Some (JS.Finite 500)) None (Some Spec.jsonType)).
Proof. reflexivity. Qed.

(** The not-found marker names the method and the path. *)
Example not_found_body :
  Response.prepareResponse "trace" Response.kNotFound
    (Spec.request "GET" "/missing") Spec.production
  = Dyn.Ok
      (Response.Prepared
         (Dyn.VString
            (Json.render "" ""
               (Json.JObject
                  [("statusCode", Json.JNumber 404);
                   ("statusMessage",
                    Json.JString "Cannot find any route matching [GET] /missing")])))
         {| Response.init_status := Some (JS.Finite 404);
            Response.init_statusText :=
              Some "Cannot find any route matching [GET] /missing";
            Response.init_headers := Some (Response.OfObject Spec.jsonType) |},
       Spec.stateOf "GET" "/missing" (Some (JS.Finite 404))
         (Some "Cannot find any route matching [GET] /missing")
         (Some Spec.jsonType)).
Proof. reflexivity. Qed.

(* ===================================================================== *)
(** ** Properties: status sanitizing *)
(* ===================================================================== *)

Section SanitizeCover.

Import JS Sanitize Cover.

Lemma filterChars_all (p : ascii -> bool) (s : string) :
  forallb_string p (filterChars p s) = true.
Proof.
  induction s as [|c s IH]; simpl; [reflexivity|].
  destruct (p c) eqn:E; simpl; [now rewrite E | exact IH].
Qed.

Lemma filterChars_clean (p : ascii -> bool) (s : string) :
  forallb_string p s = true -> filterChars p s = s.
Proof.
  induction s as [|c s IH]; simpl; [reflexivity|].
  intros H. apply andb_prop in H as [Hc Hs]. rewrite Hc. now rewrite IH.
Qed.

(** The character test of the code is the one of the standard. *)
Lemma allowedStatusChar_spec (c : ascii) :
  allowedStatusChar c = true <-> tabOrPrintable c.
Proof.
  unfold allowedStatusChar, tabOrPrintable. cbv zeta.
  destruct (Nat.eqb_spec (nat_of_ascii c) 9),
           (Nat.leb_spec 32 (nat_of_ascii c)),
           (Nat.leb_spec (nat_of_ascii c) 126); cbn; split;
    try (intros; discriminate); try (intros; reflexivity); lia.
Qed.

Lemma filterChars_app (p : ascii -> bool) (a b : string) :
  (filterChars p (a ++ b) = filterChars p a ++ filterChars p b)%string.
Proof.
  induction a as [|c a IH]; cbn [String.append filterChars]; [reflexivity|].
  destruct (p c); cbn [String.append]; now rewrite IH.
Qed.

Lemma forallb_chars (p : ascii -> bool) (P : ascii -> Prop) (s : string) :
  (forall c, p c = true <-> P c) ->
  forallb_string p s = true <-> Forall P (chars s).
Proof.
  intros H. unfold chars.
  induction s as [|c s IH]; cbn [forallb_string list_ascii_of_string].
  - split; [constructor | reflexivity].
  - rewrite andb_true_iff, H, IH. split.
    + intros [Hc Hs]. now constructor.
    + intros Hf. inversion Hf; subst. now split.
Qed.

(** X1: [sanitizeStatusMessage] keeps exactly the horizontal tab, the
    space and the visible ASCII characters (codes 9 and 32 to 126), in
    their order, and removes every other character: its result is made
    of such characters, whatever the input, absent included; a character
    of the input stays where it is when it is one of them and goes when
    it is not; an absent message gives the empty string. *)
Theorem sanitizeStatusMessage_keeps_allowed_only (o : option string) :
  Forall tabOrPrintable (chars (sanitizeStatusMessage o)) /\
  sanitizeStatusMessage None = "" /\
  (forall (a b : string) (c : ascii),
     tabOrPrintable c ->
     sanitizeStatusMessage (Some (a ++ String c b))
     = sanitizeStatusMessage (Some a) ++ String c (sanitizeStatusMessage (Some b)))%string /\
  (forall (a b : string) (c : ascii),
     ~ tabOrPrintable c ->
     sanitizeStatusMessage (Some (a ++ String c b))
     = sanitizeStatusMessage (Some a) ++ sanitizeStatusMessage (Some b))%string /\
  (forall s, Forall tabOrPrintable (chars s) -> sanitizeStatusMessage (Some s) = s).
Proof.
  unfold sanitizeStatusMessage.
  split; [|split; [|split; [|split]]].
  - apply (forallb_chars _ _ _ allowedStatusChar_spec), filterChars_all.
  - reflexivity.
  - intros a b c Hc. rewrite filterChars_app. cbn [filterChars].
    apply allowedStatusChar_spec in Hc. now rewrite Hc.
  - intros a b c Hc. rewrite filterChars_app. cbn [filterChars].
    destruct (allowedStatusChar c) eqn:E; [|reflexivity].
    exfalso. apply Hc. now apply allowedStatusChar_spec.
  - intros s Hs. apply filterChars_clean.
    now apply (forallb_chars _ _ _ allowedStatusChar_spec).
Qed.

Lemma statusInRange_of (z : Z) : 100 <= z <= 999 -> statusInRange (Finite z).
Proof. intros H. exists z. now split. Qed.

Lemma from100to999_of (z : Z) : 100 <= z <= 999 -> from100to999 (Finite z) = true.
Proof.
  intros H. unfold from100to999, atMost, lt, number_eq.
  destruct (Z.ltb_spec 100 z), (Z.eqb_spec 100 z),
           (Z.ltb_spec z 999), (Z.eqb_spec z 999); cbn [orb andb];
    try reflexivity; exfalso; lia.
Qed.

(** The range test of the code, [n < 100 || n > 999], fails exactly on
    the numbers from 100 to 999 and on [NaN]. *)
Lemma range_test (n : number) :
  lt n (Finite 100) || gt n (Finite 999) = false ->
  n = NaN \/ from100to999 n = true.
Proof.
  destruct n as [|[|]|z]; try discriminate; [now left|].
  unfold from100to999, atMost, gt, lt, number_eq.
  destruct (Z.ltb_spec z 100), (Z.ltb_spec 999 z), (Z.ltb_spec 100 z),
           (Z.eqb_spec 100 z), (Z.ltb_spec z 999), (Z.eqb_spec z 999);
    cbn [orb andb]; try discriminate; intros _; right; try reflexivity;
    exfalso; lia.
Qed.

(** On a number [sanitizeStatusCode] gives the default, or the number
    itself, which is then in range; the numbers here are the
    integer-valued ones. *)
Lemma sanitize_number (n : number) (d : option number) :
  sanitizeStatusCode (Some (OfNumber n)) d
    = match d with Some x => x | None => Finite 200 end \/
  (sanitizeStatusCode (Some (OfNumber n)) d = n /\ statusInRange n).
Proof.
  unfold sanitizeStatusCode, statusInRange.
  destruct (falsy (OfNumber n)) eqn:F; [now left|].
  destruct n as [|[|]|z]; cbn; try (now left); try discriminate F.
  destruct (Z.ltb_spec z 100); [now left|].
  destruct (Z.ltb_spec 999 z); [now left|].
  right. split; [reflexivity|]. exists z. split; [reflexivity | lia].
Qed.

(** The same by the comparisons of the code alone. *)
Lemma sanitize_number_range (n : number) (d : option number) :
  sanitizeStatusCode (Some (OfNumber n)) d
    = match d with Some x => x | None => Finite 200 end \/
  (sanitizeStatusCode (Some (OfNumber n)) d = n /\ from100to999 n = true).
Proof.
  unfold sanitizeStatusCode.
  destruct (falsy (OfNumber n)) eqn:F; [now left|].
  destruct (lt n (Finite 100) || gt n (Finite 999)) eqn:R; [now left|].
  right. split; [reflexivity|].
  destruct (range_test n R) as [->|H]; [discriminate F | exact H].
Qed.

(** X2: what [sanitizeStatusCode] can return: the default, or the
    number it was given or parsed, which is then a number from 100 to
    999, or [NaN], and [NaN] only for a non-empty string in which
    [parseInt] finds no number.  A number from 100 to 999 is returned
    as it is, and on a number the result is from 100 to 999 whenever
    the default is. *)
Theorem sanitizeStatusCode_result (c : option StringOrNumber) (d : option number) :
  (sanitizeStatusCode c d = match d with Some x => x | None => Finite 200 end \/
   (from100to999 (sanitizeStatusCode c d) = true /\
    (c = Some (OfNumber (sanitizeStatusCode c d)) \/
     exists s, c = Some (OfString s) /\ parseInt10 s = sanitizeStatusCode c d)) \/
   (sanitizeStatusCode c d = NaN /\
    exists s, c = Some (OfString s) /\ s <> "" /\ parseInt10 s = NaN)) /\
  (forall n, c = Some (OfNumber n) -> from100to999 n = true ->
     sanitizeStatusCode c d = n) /\
  (forall n, c = Some (OfNumber n) ->
     from100to999 (match d with Some x => x | None => Finite 200 end) = true ->
     from100to999 (sanitizeStatusCode c d) = true).
Proof.
  split; [|split].
  - destruct c as [[s|n]|].
    + unfold sanitizeStatusCode.
      destruct (falsy (OfString s)) eqn:F; [now left|].
      destruct (lt (parseInt10 s) (Finite 100) || gt (parseInt10 s) (Finite 999)) eqn:R;
        [now left|].
      right. destruct (range_test _ R) as [E|H].
      * right. split; [exact E|]. exists s. repeat split; try assumption.
        intros ->. discriminate.
      * left. split; [exact H|]. right. exists s. now split.
    + destruct (sanitize_number_range n d) as [H|[H1 H2]]; [now left|].
      right. left. rewrite H1. split; [exact H2 | now left].
    + now left.
  - intros n -> Hn.
    unfold sanitizeStatusCode.
    assert (F : falsy (OfNumber n) = false).
    { destruct n as [|[|]|z]; try discriminate Hn; try reflexivity.
      cbn. destruct (Z.eqb_spec z 0) as [->|]; [discriminate Hn | reflexivity]. }
    rewrite F.
    assert (R : lt n (Finite 100) || gt n (Finite 999) = false).
    { revert Hn. destruct n as [|[|]|z]; try discriminate.
      unfold from100to999, atMost, gt, lt, number_eq.
      destruct (Z.ltb_spec z 100), (Z.ltb_spec 999 z), (Z.ltb_spec 100 z),
               (Z.eqb_spec 100 z), (Z.ltb_spec z 999), (Z.eqb_spec z 999);
        cbn [orb andb]; try discriminate; try reflexivity; intros _;
        exfalso; lia. }
    now rewrite R.
  - intros n -> Hd.
    destruct (sanitize_number_range n d) as [H|[H1 H2]]; rewrite ?H, ?H1; assumption.
Qed.

End SanitizeCover.

(* ===================================================================== *)
(** ** Properties: what [createError] keeps and where it looks *)
(* ===================================================================== *)

Section ErrorCover.

Import JS Dyn Sanitize Error Cover.

Variable stackTrace : string.

Lemma after_flag {A : Type} (f : H3Error -> A) (set : H3Error -> value -> H3Error)
    (err : H3Error) (v : value) :
  (forall e x, f (set e x) = f e) ->
  f (match v with VUndefined => err | _ => set err v end) = f err.
Proof. intros H. destruct v; try apply H; reflexivity. Qed.

(** The fields of the error made of an input that is not a string and
    that [isError] does not accept. *)
Lemma createError_fields (input : value) (e : H3Error) :
  createError stackTrace input = Ok (VH3Error e) ->
  isError input = false -> String.eqb (typeof input) "string" = false ->
  statusCode e = match statusCodeIn input with
                 | VNumber n => sanitizeStatusCode (Some (OfNumber n)) None
                 | _ => Finite 500
                 end /\
  statusMessage e = match statusMessageIn input with
                    | VString s =>
                        if String.eqb s "" then None
                        else Some (sanitizeStatusMessage (Some s))
                    | _ => None
                    end /\
  cause e = (if truthy (get input "cause") then get input "cause" else input) /\
  data e = (if truthy (get input "data") then get input "data" else VUndefined) /\
  stack e = (if hasProp input "stack" then get input "stack" else VString stackTrace).
Proof.
  intros H Hne Hns. unfold createError in H.
  assert (N : nullish input = false).
  { destruct input; try reflexivity; rewrite Hne in H; discriminate H. }
  assert (G :
    (if nullish input
     then Throw (TypeError "Cannot read properties of undefined")
     else
       let cause := get input "cause" in
       let* message :=
         ToString (get input "message" ?? get input "statusMessage" ?? VString "") in
       let err :=
         new_H3Error stackTrace message (if truthy cause then cause else input) in
       let err :=
         if hasProp input "stack" then with_stack err (get input "stack") else err in
       let err :=
         if truthy (get input "data") then with_data err (get input "data") else err in
       let statusCode :=
         get input "statusCode" ?? get input "status" ??
         get_opt cause "statusCode" ?? get_opt cause "status" in
       let err :=
         match statusCode with
         | VNumber n =>
             with_statusCode err (sanitizeStatusCode (Some (OfNumber n)) None)
         | _ => err
         end in
       let statusMessage :=
         get input "statusMessage" ?? get input "statusText" ??
         get_opt cause "statusMessage" ?? get_opt cause "statusText" in
       let* err :=
         (if truthy statusMessage then
            match statusMessage with
            | VString s =>
                Ok (with_statusMessage err (sanitizeStatusMessage (Some s)))
            | _ => Throw (TypeError "statusMessage.replace is not a function")
            end
          else Ok err) in
       let fatal := get input "fatal" ?? get_opt cause "fatal" in
       let err :=
         match fatal with VUndefined => err | f => with_fatal err f end in
       let unhandled := get input "unhandled" ?? get_opt cause "unhandled" in
       let err :=
         match unhandled with VUndefined => err | u => with_unhandled err u end in
       Ok (VH3Error err)) = Ok (VH3Error e)).
  { destruct input; try discriminate Hns; rewrite Hne in H; exact H. }
  clear H. rewrite N in G. cbv zeta in G.
  fold (statusCodeIn input) in G. fold (statusMessageIn input) in G.
  destruct (ToString _) as [message|]; [|discriminate]. cbn [bind] in G.
  set (base :=
    match statusCodeIn input with
    | VNumber n => with_statusCode _ _
    | _ => _
    end) in G.
  assert (B : statusCode base = match statusCodeIn input with
                 | VNumber n => sanitizeStatusCode (Some (OfNumber n)) None
                 | _ => Finite 500
                 end /\
              statusMessage base = None /\
              cause base = (if truthy (get input "cause") then get input "cause"
                            else input) /\
              data base = (if truthy (get input "data") then get input "data"
                           else VUndefined) /\
              stack base = (if hasProp input "stack" then get input "stack"
                            else VString stackTrace)).
  { subst base.
    destruct (statusCodeIn input), (hasProp input "stack"), (truthy (get input "data"));
      repeat split. }
  clearbody base. destruct B as (B1 & B2 & B3 & B4 & B5).
  assert (T : exists err,
    (if truthy (statusMessageIn input)
     then match statusMessageIn input with
          | VString s => Ok (with_statusMessage base (sanitizeStatusMessage (Some s)))
          | _ => Throw (TypeError "statusMessage.replace is not a function")
          end
     else Ok base) = Ok err /\
    statusCode err = statusCode base /\ cause err = cause base /\
    data err = data base /\ stack err = stack base /\
    statusMessage err = match statusMessageIn input with
                    | VString s =>
                        if String.eqb s "" then None
                        else Some (sanitizeStatusMessage (Some s))
                    | _ => None
                    end).
  { destruct (statusMessageIn input) as [| |b|n|s| | | | | | | | | | |] eqn:S;
      cbn [truthy bind] in G |- *;
      try discriminate G;
      try (exists base; repeat split; assumption).
    - destruct b; [cbn [bind] in G; discriminate G|].
      exists base. repeat split; assumption.
    - destruct n as [|neg|z]; cbn [truthy bind] in G |- *; try discriminate G.
      2: destruct (negb (z =? 0)); [cbn [bind] in G; discriminate G|].
      all: exists base; repeat split; assumption.
    - destruct (String.eqb s ""); cbn [negb].
      + exists base. repeat split; assumption.
      + eexists. split; [reflexivity|]. repeat split.
    - destruct (negb _); [cbn [bind] in G; discriminate G|].
      exists base. repeat split; assumption. }
  destruct T as (err & TE & T1 & T2 & T3 & T4 & T5).
  rewrite TE in G. cbn [bind] in G. injection G as <-.
  rewrite !(after_flag statusCode with_unhandled), !(after_flag statusCode with_fatal),
          !(after_flag statusMessage with_unhandled),
          !(after_flag statusMessage with_fatal),
          !(after_flag cause with_unhandled), !(after_flag cause with_fatal),
          !(after_flag data with_unhandled), !(after_flag data with_fatal),
          !(after_flag stack with_unhandled), !(after_flag stack with_fatal)
    by reflexivity.
  rewrite T1, T2, T3, T4, T5, B1, B3, B4, B5. repeat split.
Qed.

(** X3: the error [createError] builds of an input that [isError]
    does not accept (no [H3Error], and no value whose constructor
    carries the marker: those come back as they are) has a status code
    that is a number from 100 to 999, and a status message, when it has
    one, made of the horizontal tab, the space and the visible ASCII
    characters only. *)
Theorem createError_normalized (input : value) (e : H3Error) :
  createError stackTrace input = Ok (VH3Error e) ->
  isError input = false ->
  from100to999 (statusCode e) = true /\
  match statusMessage e with
  | Some m => Forall tabOrPrintable (chars m)
  | None => True
  end.
Proof.
  intros H Hne.
  destruct (String.eqb (typeof input) "string") eqn:Hs.
  - destruct input; try discriminate Hs. injection H as <-. cbn.
    split; [reflexivity | exact I].
  - destruct (createError_fields input e H Hne Hs) as (C & M & _).
    rewrite C, M. split.
    + destruct (statusCodeIn input); try reflexivity.
      destruct (sanitize_number_range n None) as [->|[-> R]];
        [reflexivity | exact R].
    + destruct (statusMessageIn input); try exact I.
      destruct (String.eqb s ""); [exact I|].
      apply (forallb_chars _ _ _ allowedStatusChar_spec), filterChars_all.
Qed.

(** X4: of an input object that [isError] does not accept,
    [createError] keeps the [cause] when it is truthy and otherwise
    makes the input itself the cause; it keeps [data] only when it is
    truthy, so that [0], the empty string and [false] are dropped; and
    the stack is the input's whenever the input has a [stack] property,
    the new error's own otherwise. *)
Theorem createError_keeps_cause_data_stack (input : value) (e : H3Error) :
  createError stackTrace input = Ok (VH3Error e) ->
  isError input = false ->
  String.eqb (typeof input) "string" = false ->
  cause e = (if truthy (get input "cause") then get input "cause" else input) /\
  data e = (if truthy (get input "data") then get input "data" else VUndefined) /\
  stack e = (if hasProp input "stack" then get input "stack" else VString stackTrace).
Proof.
  intros H Hne Hs.
  destruct (createError_fields input e H Hne Hs) as (_ & _ & C & D & S).
  now repeat split.
Qed.

(** X5: where [createError] takes the status code from, on an input
    object that [isError] does not accept: the input's [statusCode] if
    it is a number; with that one absent, the input's [status]; with
    both absent, the [statusCode] of the cause; each is sanitized with
    default 200; and with none of the four places filled the error
    keeps the class default 500. *)
Theorem createError_status_sources (input : value) (e : H3Error) (n : number) :
  createError stackTrace input = Ok (VH3Error e) ->
  isError input = false ->
  String.eqb (typeof input) "string" = false ->
  (get input "statusCode" = VNumber n ->
     statusCode e = sanitizeStatusCode (Some (OfNumber n)) None) /\
  (nullish (get input "statusCode") = true -> get input "status" = VNumber n ->
     statusCode e = sanitizeStatusCode (Some (OfNumber n)) None) /\
  (nullish (get input "statusCode") = true -> nullish (get input "status") = true ->
   get_opt (get input "cause") "statusCode" = VNumber n ->
     statusCode e = sanitizeStatusCode (Some (OfNumber n)) None) /\
  (nullish (statusCodeIn input) = true -> statusCode e = Finite 500).
Proof.
  intros H Hne Hs.
  destruct (createError_fields input e H Hne Hs) as (C & _).
  rewrite C. unfold statusCodeIn, coalesce. repeat split.
  - intros ->. reflexivity.
  - intros -> ->. reflexivity.
  - intros -> -> ->. reflexivity.
  - destruct (nullish (get input "statusCode")) eqn:N1.
    + destruct (nullish (get input "status")) eqn:N2.
      * destruct (nullish (get_opt (get input "cause") "statusCode")) eqn:N3.
        -- destruct (get_opt (get input "cause") "status"); try discriminate; reflexivity.
        -- rewrite N3. discriminate.
      * rewrite N2. discriminate.
    + rewrite N1. discriminate.
Qed.

Lemma members_of_app (a b : list (string * value)) :
  Json.members_of (a ++ b)
  = let* x := Json.members_of a in let* y := Json.members_of b in Ok (x ++ y).
Proof.
  induction a as [|[k v] a IH]; cbn [app Json.members_of bind].
  - destruct (Json.members_of b); reflexivity.
  - destruct (Json.tree_of v) as [j|]; cbn [bind]; [|reflexivity].
    rewrite IH. destruct (Json.members_of a); cbn [bind]; [|reflexivity].
    destruct (Json.members_of b); cbn [bind]; [|reflexivity].
    destruct j; reflexivity.
Qed.

(** X6: [toJSON] gives an object whose keys are among [message],
    [statusCode], [statusMessage] and [data], never the stack, the
    cause or the flags; its [statusCode] is the error's field sanitized
    with default 500, a number from 100 to 999 even when the field is
    outside that range; its [statusMessage], when there, is the
    error's sanitized, made of the horizontal tab, the space and the
    visible ASCII characters only; and [JSON.stringify] of the error is
    [JSON.stringify] of that object. *)
Theorem toJSON_members (e : H3Error) :
  exists props,
    toJSON e = VObject props /\
    Forall (fun kv => In (fst kv) ["message"; "statusCode"; "statusMessage"; "data"])
           props /\
    lookup "message" props = Some (VString (message e)) /\
    (exists n, lookup "statusCode" props = Some (VNumber n) /\
               n = sanitizeStatusCode (Some (OfNumber (statusCode e))) (Some (Finite 500)) /\
               from100to999 n = true) /\
    match lookup "statusMessage" props with
    | Some (VString m) =>
        Forall tabOrPrintable (chars m) /\
        exists s, statusMessage e = Some s /\ m = sanitizeStatusMessage (Some s)
    | Some _ => False
    | None => True
    end /\
    Json.tree_of (VH3Error e) = Json.tree_of (toJSON e).
Proof.
  unfold toJSON. eexists. split; [reflexivity|]. split; [|split; [|split; [|split]]].
  - repeat (apply Forall_cons; [cbn; tauto|]).
    apply Forall_app. split.
    + destruct (statusMessage e) as [s|]; [|constructor].
      destruct (String.eqb s "");
        [constructor | apply Forall_cons; [cbn; tauto | constructor]].
    + destruct (data e);
        try (apply Forall_cons; [cbn; tauto | constructor]); constructor.
  - reflexivity.
  - eexists. split; [reflexivity|]. split; [reflexivity|].
    destruct (sanitize_number_range (statusCode e) (Some (Finite 500))) as [->|[-> R]];
      [reflexivity | exact R].
  - cbn [app lookup String.eqb Ascii.eqb Bool.eqb].
    destruct (statusMessage e) as [s|]; cbn.
    + destruct (String.eqb s ""); cbn.
      * destruct (data e); cbn; exact I.
      * split; [|exists s; now split].
        apply (forallb_chars _ _ _ allowedStatusChar_spec), filterChars_all.
    + destruct (data e); cbn; exact I.
  - rewrite tree_of_object. cbn [app Json.members_of Json.tree_of bind].
    set (code := sanitizeStatusCode _ _).
    rewrite members_of_app.
    assert (Hd : Json.members_of
                   (match data e with VUndefined => [] | d => [("data", d)] end)
                 = let* d := Json.tree_of (data e) in
                   Ok (match d with Some t => [("data", t)] | None => [] end)).
    { destruct (data e) as [| | | | | | | | | | | | | | |] eqn:D;
        try reflexivity;
        cbn [Json.members_of]; rewrite <- ?D;
        destruct (Json.tree_of _) as [[t|]|]; reflexivity. }
    rewrite Hd.
    destruct code as [|neg|z], (Json.tree_of (data e)) as [d|];
      (destruct (statusMessage e) as [s|]; [destruct (String.eqb s "")|]);
      cbn [Json.members_of Json.tree_of bind app]; reflexivity.
Qed.

End ErrorCover.

(** X3, a run: the error made of the not-found input. *)
Lemma createError_normalized_witness :
  Cover.from100to999 (Dyn.statusCode Cover.notFoundError) = true /\
  match Dyn.statusMessage Cover.notFoundError with
  | Some m => Forall Cover.tabOrPrintable (Cover.chars m)
  | None => True
  end.
Proof.
  exact (createError_normalized "trace" Spec.notFoundInput Cover.notFoundError
           eq_refl eq_refl).
Defined.

(** X4, a run: an input with a cause keeps it. *)
Lemma createError_keeps_cause_data_stack_witness :
  Dyn.cause Cover.fromCauseError = Cover.statusObject 404 "Not Found" /\
  Dyn.data Cover.fromCauseError = Dyn.VUndefined /\
  Dyn.stack Cover.fromCauseError = Dyn.VString "trace".
Proof.
  exact (createError_keeps_cause_data_stack "trace" Cover.fromCause
           Cover.fromCauseError eq_refl eq_refl eq_refl).
Defined.

(** X5, a run: the status code comes from the cause. *)
Lemma createError_status_sources_witness :
  Dyn.statusCode Cover.fromCauseError = JS.Finite 404.
Proof.
  exact (proj1 (proj2 (proj2
           (createError_status_sources "trace" Cover.fromCause Cover.fromCauseError
              (JS.Finite 404) eq_refl eq_refl eq_refl)))
           eq_refl eq_refl eq_refl).
Defined.

(* ===================================================================== *)
(** ** Properties: the URL accessors *)
(* ===================================================================== *)

Section EventCover.

Import JS Dyn Event.

Variable URL_parse : string -> result URL.

(** X7: the getters [pathname] and [queryString] are stable: once
    one has returned a value, reading it again on the event it left
    returns the same value and changes nothing more, whatever the state
    of the caches was. *)
Theorem accessors_are_stable (ev ev' : H3WebEvent) (s : string) :
  (pathname URL_parse ev = Ok (s, ev') -> pathname URL_parse ev' = Ok (s, ev')) /\
  (queryString URL_parse ev = Ok (s, ev') -> queryString URL_parse ev' = Ok (s, ev')).
Proof.
  split.
  - unfold pathname. destruct (_url ev) as [u|] eqn:Hu.
    + intros [= <- <-]. now rewrite Hu.
    + destruct (cached (_pathname ev)) as [p|] eqn:Hc.
      * intros [= <- <-]. now rewrite Hu, Hc.
      * destruct (slicePathname (request_url ev)) as [[p q]|] eqn:Hs.
        -- intros [= <- <-]. cbn. rewrite Hs.
           destruct (String.eqb p ""); reflexivity.
        -- unfold url. rewrite Hu.
           destruct (URL_parse _) as [u|]; [|discriminate].
           cbn. intros [= <- <-]. reflexivity.
  - unfold queryString. destruct (_url ev) as [u|] eqn:Hu.
    + intros [= <- <-]. now rewrite Hu.
    + destruct (cached (_queryString ev)) as [q|] eqn:Hc.
      * intros [= <- <-]. now rewrite Hu, Hc.
      * destruct (_urlqindex ev) as [qIndex|] eqn:Hq.
        -- destruct (qIndex =? -1) eqn:E.
           ++ intros [= <- <-]. cbn. rewrite E. reflexivity.
           ++ intros [= <- <-]. cbn. rewrite E.
              destruct (String.eqb _ ""); reflexivity.
        -- unfold url. rewrite Hu.
           destruct (URL_parse _) as [u|]; [|discriminate].
           cbn. intros [= <- <-]. reflexivity.
Qed.

Lemma take_drop (n : nat) (s : string) : (take n s ++ drop n s)%string = s.
Proof.
  revert s. induction n as [|n IH]; intros s; [reflexivity|].
  destruct s as [|c s]; [reflexivity|]. simpl. now rewrite IH.
Qed.

Lemma drop_drop (m n : nat) (s : string) : drop n (drop m s) = drop (m + n) s.
Proof.
  revert s. induction m as [|m IH]; intros s; [reflexivity|].
  destruct s as [|c s]; simpl; [now destruct n | apply IH].
Qed.

Lemma take_all (n : nat) (s : string) : (String.length s <= n)%nat -> take n s = s.
Proof.
  revert s. induction n as [|n IH]; intros [|c s] H; simpl in *;
    try reflexivity; try lia. now rewrite IH by lia.
Qed.

Lemma length_drop (n : nat) (s : string) :
  String.length (drop n s) = (String.length s - n)%nat.
Proof.
  revert s. induction n as [|n IH]; intros [|c s]; simpl; try lia. apply IH.
Qed.

Lemma search_bounds (sub s : string) (pos i : nat) :
  search sub s pos = Some i -> (pos <= i <= pos + String.length s)%nat.
Proof.
  revert pos. induction s as [|c s IH]; intros pos; cbn [search String.length].
  - destruct (prefix sub ""); intros H; inversion H; lia.
  - destruct (prefix sub (String c s)); [intros H; inversion H; lia|].
    intros H. apply IH in H. lia.
Qed.

(** An index [indexOf] finds lies between the start of the search and
    the end of the string. *)
Lemma indexOf_bounds (s sub : string) (from : Z) :
  indexOf s sub from = -1 \/
  Z.min (Z.max from 0) (Z.of_nat (String.length s)) <= indexOf s sub from
    <= Z.of_nat (String.length s).
Proof.
  unfold indexOf.
  set (k := Z.to_nat _).
  destruct (search sub (drop k s) k) as [i|] eqn:E; [right | now left].
  apply search_bounds in E. rewrite length_drop in E.
  assert (k <= String.length s)%nat by (subst k; lia).
  subst k. lia.
Qed.

Lemma slice_to_end (s : string) (p : Z) :
  0 <= p <= Z.of_nat (String.length s) -> slice s p None = drop (Z.to_nat p) s.
Proof.
  intros H. unfold slice, relative.
  destruct (Z.ltb_spec p 0); [lia|].
  rewrite Z.min_l by lia. apply take_all. rewrite length_drop. lia.
Qed.

Lemma slice_split (s : string) (p q : Z) :
  0 <= p <= q -> q <= Z.of_nat (String.length s) ->
  (slice s p (Some q) ++ slice s q None)%string = slice s p None.
Proof.
  intros Hp Hq. rewrite !slice_to_end by lia.
  unfold slice, relative.
  destruct (Z.ltb_spec p 0); [lia|]. destruct (Z.ltb_spec q 0); [lia|].
  rewrite !Z.min_l by lia.
  replace (drop (Z.to_nat q) s)
    with (drop (Z.to_nat (Z.max (q - p) 0)) (drop (Z.to_nat p) s)).
  - apply take_drop.
  - rewrite drop_drop. f_equal. lia.
Qed.

(** X8: on a fresh event whose URL has ["://"] and a ["/"] after it,
    the getter [path] returns the request URL from that ["/"] to its
    end, unchanged: path name and query string, cut apart at the first
    ["?"], join again to the raw tail; the URL parser is not called. *)
Theorem path_is_url_tail (method url p : string) (q : Z) :
  slicePathname url = Some (p, q) ->
  exists ev',
    path URL_parse (new_H3WebEvent method url)
    = Ok (slice url (indexOf url "/" (indexOf url "://" 0 + 4)) None, ev') /\
    _url ev' = None.
Proof.
  intros Hs. unfold path, pathname.
  cbn [_url _pathname new_H3WebEvent cached request_url].
  rewrite Hs. cbn [bind]. unfold queryString.
  cbn [_url _queryString _urlqindex cached request_url].
  unfold slicePathname in Hs.
  set (proto := indexOf url "://" 0) in *.
  destruct (Z.eqb_spec proto (-1)) as [|Hproto]; [discriminate|].
  set (pIndex := indexOf url "/" (proto + 4)) in *.
  destruct (Z.eqb_spec pIndex (-1)) as [|HpIndex]; [discriminate|].
  injection Hs as <- <-.
  destruct (indexOf_bounds url "://" 0) as [|B]; [contradiction|].
  fold proto in B.
  destruct (indexOf_bounds url "/" (proto + 4)) as [|C]; [contradiction|].
  fold pIndex in C.
  destruct (Z.eqb_spec (indexOf url "?" pIndex) (-1)) as [E|E].
  - eexists. split.
    + cbn -[slice indexOf]. rewrite string_app_empty_r. reflexivity.
    + reflexivity.
  - destruct (indexOf_bounds url "?" pIndex) as [|D]; [contradiction|].
    eexists. split.
    + cbn -[slice indexOf]. rewrite slice_split by lia. reflexivity.
    + reflexivity.
Qed.

End EventCover.

(** X8, a run: a URL with a query string. *)
Lemma path_is_url_tail_witness :
  exists ev',
    Event.path Cover.noParser
      (Event.new_H3WebEvent "GET" "http://localhost:3000/users/7?x=1")
    = Dyn.Ok
        (JS.slice "http://localhost:3000/users/7?x=1"
           (JS.indexOf "http://localhost:3000/users/7?x=1" "/"
              (JS.indexOf "http://localhost:3000/users/7?x=1" "://" 0 + 4))
           None,
         ev') /\
    Event._url ev' = None.
Proof.
  exact (path_is_url_tail Cover.noParser "GET" "http://localhost:3000/users/7?x=1"
           "/users/7" 29 eq_refl).
Defined.

(* ===================================================================== *)
(** ** Properties: hooks that reject, and any number of hooks *)
(* ===================================================================== *)

Section HandlerCover.

Import Handler Cover.

Variables World Body Name : Type.

Local Abbreviation Hook := (Named Name (RequestMiddleware World)).
Local Abbreviation Terminal := (Named Name (EventHandler World Body)).
Local Abbreviation After := (Named Name (ResponseMiddleware World Body)).

(** Request hooks that all fulfil leave a mark pair each, in order. *)
Lemma runRequestHooks_fulfilled (hs : list Hook) :
  forall (w w' : World) (t t' : Trace Name),
    runRequestHooks World Name hs w t = (Fulfilled tt w', t') ->
    t' = t ++ settled hs /\
    forall t0, runRequestHooks World Name hs w t0 = (Fulfilled tt w', t0 ++ settled hs).
Proof.
  induction hs as [|h hs IH]; intros w w' t t'; cbn [runRequestHooks settled flat_map].
  - intros [= <- <-]. rewrite app_nil_r. split; [reflexivity|].
    intros t0. now rewrite app_nil_r.
  - destruct (run h w) as [[] w1|e w1]; [|discriminate].
    intros H. destruct (IH _ _ _ _ H) as [-> G]. split.
    + now rewrite <- app_assoc.
    + intros t0. rewrite G. now rewrite <- app_assoc.
Qed.

Lemma runResponseHooks_fulfilled (hs : list After) :
  forall (c c' : Container Body) (w w' : World) (t t' : Trace Name),
    runResponseHooks World Body Name hs c w t = (Fulfilled c' w', t') ->
    t' = t ++ settled hs /\
    forall t0, runResponseHooks World Body Name hs c w t0
               = (Fulfilled c' w', t0 ++ settled hs).
Proof.
  induction hs as [|h hs IH]; intros c c' w w' t t';
    cbn [runResponseHooks settled flat_map].
  - intros [= <- <- <-]. rewrite app_nil_r. split; [reflexivity|].
    intros t0. now rewrite app_nil_r.
  - destruct (run h c w) as [c1 w1|e w1]; [|discriminate].
    intros H. destruct (IH _ _ _ _ _ _ H) as [-> G]. split.
    + now rewrite <- app_assoc.
    + intros t0. rewrite G. now rewrite <- app_assoc.
Qed.

(** X9: when a pre-request hook rejects, after any number of hooks
    that fulfilled, the composed handler rejects with the same reason
    and nothing else is called: not the hooks after it, not the
    handler, not a pre-response hook. *)
Theorem request_hook_rejection_stops (pre rest : list Hook) (A : Hook) (H : Terminal)
    (after : option (OneOrMany After)) (w w1 w2 : World) (e : Dyn.value)
    (t t1 : Trace Name) :
  runRequestHooks World Name pre w t = (Fulfilled tt w1, t1) ->
  run A w1 = Rejected e w2 ->
  defineEventHandler World Body Name
    (Object {| onRequest := Some (Many (pre ++ A :: rest));
               onBeforeResponse := after;
               handler := H |}) w t
  = (Rejected e w2, t ++ settled pre ++ [Called (name A)]).
Proof.
  intros Hpre HA. unfold defineEventHandler, _callHandler.
  cbn [_normalizeArray onRequest hooks_onRequest handler].
  rewrite runRequestHooks_app, Hpre. cbn [runRequestHooks]. rewrite HA.
  destruct (runRequestHooks_fulfilled _ _ _ _ _ Hpre) as [-> _].
  now rewrite <- app_assoc.
Qed.

(** X10: when the handler rejects, the composed handler rejects with
    the same reason and no pre-response hook is called. *)
Theorem handler_rejection_skips_response_hooks (before : list Hook) (H : Terminal)
    (after : option (OneOrMany After)) (w w1 w2 : World) (e : Dyn.value)
    (t t1 : Trace Name) :
  runRequestHooks World Name before w t = (Fulfilled tt w1, t1) ->
  run H w1 = Rejected e w2 ->
  defineEventHandler World Body Name
    (Object {| onRequest := Some (Many before);
               onBeforeResponse := after;
               handler := H |}) w t
  = (Rejected e w2, t ++ settled before ++ [Called (name H)]).
Proof.
  intros Hpre HH. unfold defineEventHandler, _callHandler.
  cbn [_normalizeArray onRequest hooks_onRequest handler].
  rewrite Hpre, HH.
  destruct (runRequestHooks_fulfilled _ _ _ _ _ Hpre) as [-> _].
  now rewrite <- app_assoc.
Qed.

(** X11: with any number of hooks that all fulfil, one invocation
    calls the pre-request hooks in array order, then the handler, then
    the pre-response hooks in array order, each settled before the next
    is called, and returns the body of the container as the last hook
    has left it. *)
Theorem hooks_run_in_order (before : list Hook) (H : Terminal) (after : list After)
    (w w1 w2 w3 : World) (b : Body) (c : Container Body) (t t1 t3 : Trace Name) :
  runRequestHooks World Name before w t = (Fulfilled tt w1, t1) ->
  run H w1 = Fulfilled b w2 ->
  runResponseHooks World Body Name after {| body := b |} w2 [] = (Fulfilled c w3, t3) ->
  defineEventHandler World Body Name
    (Object {| onRequest := Some (Many before);
               onBeforeResponse := Some (Many after);
               handler := H |}) w t
  = (Fulfilled (body c) w3,
     t ++ settled before ++ [Called (name H); Settled (name H)] ++ settled after).
Proof.
  intros Hpre HH Hpost. unfold defineEventHandler, _callHandler.
  cbn [_normalizeArray onRequest onBeforeResponse hooks_onRequest
       hooks_onBeforeResponse handler].
  rewrite Hpre, HH.
  destruct (runRequestHooks_fulfilled _ _ _ _ _ Hpre) as [-> _].
  destruct (runResponseHooks_fulfilled _ _ _ _ _ _ _ Hpost) as [_ G].
  rewrite G. now rewrite <- !app_assoc.
Qed.

End HandlerCover.

(** X9, a run: the second of three hooks rejects. *)
Lemma request_hook_rejection_stops_witness :
  Handler.defineEventHandler Spec.Journal string string
    (Handler.Object
       {| Handler.onRequest :=
            Some (Handler.Many
                    ([Cover.noting "A" "a"]
                     ++ Cover.refusing "R" (Dyn.VString "no")
                     :: [Cover.noting "B" "b"]));
          Handler.onBeforeResponse := None;
          Handler.handler := Cover.answering "H" "h" "body" |})
    [] []
  = (Handler.Rejected (Dyn.VString "no") ["a"; "refused"],
     [] ++ Cover.settled [Cover.noting "A" "a"] ++ [Handler.Called "R"]).
Proof.
  exact (request_hook_rejection_stops Spec.Journal string string
           [Cover.noting "A" "a"] [Cover.noting "B" "b"]
           (Cover.refusing "R" (Dyn.VString "no"))
           (Cover.answering "H" "h" "body") None
           [] ["a"] ["a"; "refused"] (Dyn.VString "no")
           [] [Handler.Called "A"; Handler.Settled "A"] eq_refl eq_refl).
Defined.

(** X10, a run: the handler rejects, the response hook stays
    uncalled. *)
Lemma handler_rejection_skips_response_hooks_witness :
  Handler.defineEventHandler Spec.Journal string string
    (Handler.Object
       {| Handler.onRequest := Some (Handler.Many [Cover.noting "A" "a"]);
          Handler.onBeforeResponse := Some (Handler.Many [Cover.amending "X" "+x"]);
          Handler.handler := Cover.failingAs "H" (Dyn.VString "boom") |})
    [] []
  = (Handler.Rejected (Dyn.VString "boom") ["a"; "failed"],
     [] ++ Cover.settled [Cover.noting "A" "a"] ++ [Handler.Called "H"]).
Proof.
  exact (handler_rejection_skips_response_hooks Spec.Journal string string
           [Cover.noting "A" "a"] (Cover.failingAs "H" (Dyn.VString "boom"))
           (Some (Handler.Many [Cover.amending "X" "+x"]))
           [] ["a"] ["a"; "failed"] (Dyn.VString "boom")
           [] [Handler.Called "A"; Handler.Settled "A"] eq_refl eq_refl).
Defined.

(** X11, a run: one hook before, three after. *)
Lemma hooks_run_in_order_witness :
  Handler.defineEventHandler Spec.Journal string string
    (Handler.Object
       {| Handler.onRequest := Some (Handler.Many [Cover.noting "A" "a"]);
          Handler.onBeforeResponse :=
            Some (Handler.Many [Cover.amending "X" "+x"; Cover.amending "Y" "+y";
                                Cover.amending "Z" "+z"]);
          Handler.handler := Cover.answering "H" "h" "body" |})
    [] []
  = (Handler.Fulfilled "body+x+y+z" ["a"; "h"; "body"; "body+x"; "body+x+y"],
     [] ++ Cover.settled [Cover.noting "A" "a"]
        ++ [Handler.Called "H"; Handler.Settled "H"]
        ++ Cover.settled [Cover.amending "X" "+x"; Cover.amending "Y" "+y";
                          Cover.amending "Z" "+z"]).
Proof.
  exact (hooks_run_in_order Spec.Journal string string
           [Cover.noting "A" "a"] (Cover.answering "H" "h" "body")
           [Cover.amending "X" "+x"; Cover.amending "Y" "+y"; Cover.amending "Z" "+z"]
           [] ["a"] ["a"; "h"] ["a"; "h"; "body"; "body+x"; "body+x+y"]
           "body" {| Handler.body := "body+x+y+z" |}
           [] [Handler.Called "A"; Handler.Settled "A"]
           [Handler.Called "X"; Handler.Settled "X";
            Handler.Called "Y"; Handler.Settled "Y";
            Handler.Called "Z"; Handler.Settled "Z"]
           eq_refl eq_refl eq_refl).
Defined.

(* ===================================================================== *)
(** ** Properties: the lazy handler *)
(* ===================================================================== *)

Section LazyCover.

Import Handler Lazy Cover.

Variables World Body : Type.

Lemma invokeTimes_resolved (load : World -> Load World Body) (c : Cell World Body)
    (h : EventHandler World Body) (n : nat) :
  _resolved c = Some h ->
  forall w, fst (fst (invokeTimes load n c w)) = c /\
            snd (invokeTimes load n c w) = repeat CallsHandler n.
Proof.
  intros Hc. induction n as [|n IH]; intros w; cbn [invokeTimes].
  - now split.
  - unfold invoke. rewrite Hc.
    destruct (invokeTimes load n c (world_of (h w))) as [[c2 w2] calls] eqn:E.
    specialize (IH (world_of (h w))). rewrite E in IH. cbn in IH |- *.
    destruct IH as [-> ->]. now split.
Qed.

Lemma invokeTimes_broken (load : World -> Load World Body) (c : Cell World Body)
    (e : Dyn.value) (n : nat) :
  _resolved c = None -> _promise c = Some (Broken e) ->
  forall w, invokeTimes load n c w = (c, w, []).
Proof.
  intros Hr Hp. induction n as [|n IH]; intros w; cbn [invokeTimes]; [reflexivity|].
  unfold invoke. rewrite Hr, Hp. cbn [world_of]. now rewrite IH.
Qed.

(** X12: a lazy handler loads once.  When [load] gives a function, or
    a module whose default export is one, the first invocation calls
    [load] and then that handler; every later invocation calls the
    handler alone, whatever their number and whatever has happened in
    between. *)
Theorem lazy_handler_loads_once (load : World -> Load World Body)
    (h : EventHandler World Body) (w w1 : World) :
  load w = Fulfils (Exports h) w1 \/ load w = Fulfils (Itself h) w1 ->
  exists c,
    invoke load fresh w = (h w1, c, [CallsLoad; CallsHandler]) /\
    (forall w', invoke load c w' = (h w', c, [CallsHandler])) /\
    (forall n w', fst (fst (invokeTimes load n c w')) = c /\
                  snd (invokeTimes load n c w') = repeat CallsHandler n).
Proof.
  intros Hl.
  exists {| _promise := Some (Kept h); _resolved := Some h |}.
  split; [|split].
  - unfold invoke. cbn [_resolved _promise fresh].
    destruct Hl as [-> | ->]; reflexivity.
  - reflexivity.
  - intros n w'. now apply invokeTimes_resolved with (h := h).
Qed.

(** X13: a lazy handler does not retry a load that failed.  When the
    promise of [load] rejects, or gives something that is not a handler,
    the invocation rejects and the rejected promise is kept: every later
    invocation rejects with the same reason and calls neither [load] nor
    a handler.  A [load] that throws before returning a promise leaves
    nothing behind, and the next invocation calls it again. *)
Theorem lazy_failed_load_is_kept (load : World -> Load World Body)
    (e : Dyn.value) (w w1 : World) :
  (load w = Rejects e w1 \/
   exists r, load w = Fulfils (Neither r) w1 /\ e = invalid r) ->
  (exists c,
     invoke load fresh w = (Rejected e w1, c, [CallsLoad]) /\
     (forall w', invoke load c w' = (Rejected e w', c, [])) /\
     (forall n w', invokeTimes load n c w' = (c, w', []))) /\
  (forall w0 e0 w2, load w0 = Throws e0 w2 ->
     invoke load fresh w0 = (Rejected e0 w2, fresh, [CallsLoad])).
Proof.
  intros Hl. split.
  - exists {| _promise := Some (Broken e); _resolved := None |}.
    split; [|split].
    + unfold invoke. cbn [_resolved _promise fresh].
      destruct Hl as [-> | (r & -> & ->)]; reflexivity.
    + reflexivity.
    + intros n w'. now apply invokeTimes_broken with (e := e).
  - intros w0 e0 w2 Ht. unfold invoke. cbn [_resolved _promise fresh].
    now rewrite Ht.
Qed.

End LazyCover.

(** X12, a run: three invocations after the first. *)
Lemma lazy_handler_loads_once_witness :
  exists c,
    Lazy.invoke (Cover.loadAnswer "body") Lazy.fresh []
    = (Spec.answer "run" "body" ["load"], c, [Lazy.CallsLoad; Lazy.CallsHandler]) /\
    (forall w', Lazy.invoke (Cover.loadAnswer "body") c w'
                = (Spec.answer "run" "body" w', c, [Lazy.CallsHandler])) /\
    (forall n w',
       fst (fst (Lazy.invokeTimes (Cover.loadAnswer "body") n c w')) = c /\
       snd (Lazy.invokeTimes (Cover.loadAnswer "body") n c w')
       = repeat Lazy.CallsHandler n).
Proof.
  exact (lazy_handler_loads_once Spec.Journal string (Cover.loadAnswer "body")
           (Spec.answer "run" "body") [] ["load"] (or_intror eq_refl)).
Defined.

(** X13, a run: a load that rejects. *)
Lemma lazy_failed_load_is_kept_witness :
  exists c,
    Lazy.invoke (Cover.loadFails (Dyn.VString "no module")) Lazy.fresh []
    = (Handler.Rejected (Dyn.VString "no module") ["load"], c, [Lazy.CallsLoad]) /\
    (forall w', Lazy.invoke (Cover.loadFails (Dyn.VString "no module")) c w'
                = (Handler.Rejected (Dyn.VString "no module") w', c, [])) /\
    (forall n w',
       Lazy.invokeTimes (Cover.loadFails (Dyn.VString "no module")) n c w'
       = (c, w', [])).
Proof.
  exact (proj1 (lazy_failed_load_is_kept Spec.Journal string
                  (Cover.loadFails (Dyn.VString "no module"))
                  (Dyn.VString "no module") [] ["load"] (or_introl eq_refl))).
Defined.

(* ===================================================================== *)
(** ** Properties: what serialization leaves alone, and what it sets *)
(* ===================================================================== *)

Section ResponseCover.

Import JS Dyn Web Event Response Spec Json Cover.

Variable stackTrace : string.

Lemma headers_update_headers (f : Headers -> Headers) (r : WebEventResponse) :
  fst (headers (update_headers f r)) = f (fst (headers r)).
Proof. unfold update_headers, headers. destruct (_headers r); reflexivity. Qed.

Lemma headers_set_status (r : WebEventResponse) (s : option number) :
  fst (headers (set_status r s)) = fst (headers r).
Proof. unfold headers, set_status. cbn. destruct (_headers r); reflexivity. Qed.

Lemma status_update_headers (f : Headers -> Headers) (r : WebEventResponse) :
  status (update_headers f r) = status r.
Proof. unfold update_headers, headers. destruct (_headers r); reflexivity. Qed.

Lemma view_setHeader_other (ev : H3Event) (name other value : string) :
  toLowerCase other <> toLowerCase name ->
  Web.get (view (Response.setHeader ev name value)) other = Web.get (view ev) other.
Proof. intros H. unfold view, Response.setHeader. cbn. now apply setHeader_get_other. Qed.

Lemma view_status (ev : H3Event) (s : option number) (t : option string) :
  view (with_response ev (set_statusText (set_status (response ev) s) t)) = view ev.
Proof. unfold view, headers. cbn. destruct (_headers (response ev)); reflexivity. Qed.

(** The event an error response leaves. *)
Lemma error_body_event (val : value) (event event' : H3Event) (config : H3Config)
    (body : value) :
  prepareErrorResponseBody stackTrace val event config = Ok (body, event') ->
  exists code reason,
    event' = Response.setHeader
               (with_response event
                  (set_statusText (set_status (response event) code) reason))
               "content-type" "application/json; charset=utf-8".
Proof.
  unfold prepareErrorResponseBody.
  destruct (Error.createError stackTrace val) as [error|]; [|discriminate].
  cbn [bind].
  destruct (declaredNumber _ _) as [code|]; [|discriminate]. cbn [bind].
  destruct (declaredString _ _) as [reason|]; [|discriminate]. cbn [bind].
  intros H. exists code, reason.
  destruct (stackLines _ _); [|discriminate]. cbn [bind] in H.
  destruct (stringify _ _); [|discriminate]. cbn [bind] in H.
  now injection H as _ <-.
Qed.

Lemma error_body_headers (val : value) (event event' : H3Event) (config : H3Config)
    (body : value) (name : string) :
  prepareErrorResponseBody stackTrace val event config = Ok (body, event') ->
  toLowerCase name <> "content-type" ->
  Web.get (view event') name = Web.get (view event) name /\
  method event' = method event /\ path event' = path event.
Proof.
  intros H Hn. destruct (error_body_event _ _ _ _ _ H) as (code & reason & ->).
  rewrite view_setHeader_other by exact Hn. rewrite view_status.
  repeat split.
Qed.

(** X14: preparing the body of a value that is not a [Response]
    touches no header but [content-type] and [content-length]: every
    other header of the event reads as before, and method and path are
    unchanged; this holds for the error responses too. *)
Theorem serialization_header_frame (val : value) (event event' : H3Event)
    (config : H3Config) (body : value) (name : string) :
  prepareResponseBody stackTrace val event config = Ok (body, event') ->
  isResponse val = false ->
  toLowerCase name <> "content-type" ->
  toLowerCase name <> "content-length" ->
  Web.get (view event') name = Web.get (view event) name /\
  method event' = method event /\ path event' = path event.
Proof.
  intros H Hv Hct Hcl. revert H. unfold prepareResponseBody.
  destruct val; try discriminate Hv;
    cbn -[Response.setHeader Json.stringify decimal prepareErrorResponseBody
          symbol_eqb];
    try (destruct (symbol_eqb _ _));
    try (intros H; apply (error_body_headers _ _ _ _ _ _ H); exact Hct);
    try (destruct (Json.stringify _ _); [|discriminate];
         cbn -[Response.setHeader]);
    intros [= _ <-];
    rewrite ?view_setHeader_other by assumption; repeat split.
Qed.

Lemma createError_statusObject (code : Z) (text : string) :
  100 <= code <= 999 -> String.eqb text "" = false ->
  Error.createError stackTrace (statusObject code text)
  = Ok (VH3Error
          {| message := text; statusCode := Finite code;
             fatal := VBoolean false; unhandled := VBoolean false;
             statusMessage := Some (Sanitize.sanitizeStatusMessage (Some text));
             data := VUndefined; cause := statusObject code text;
             stack := VString stackTrace |}).
Proof.
  intros Hc Ht. unfold Error.createError, statusObject.
  cbn -[Sanitize.sanitizeStatusCode Sanitize.sanitizeStatusMessage].
  rewrite Ht. cbn -[Sanitize.sanitizeStatusCode Sanitize.sanitizeStatusMessage].
  rewrite sanitizeStatusCode_in_range by exact Hc. reflexivity.
Qed.

(** The error response made of a status code and a status message. *)
Lemma statusObject_body (code : Z) (text : string) (event : H3Event) (config : H3Config) :
  100 <= code <= 999 -> String.eqb text "" = false ->
  exists body,
    prepareErrorResponseBody stackTrace (statusObject code text) event config
    = Ok (VString body,
          Response.setHeader
            (with_response event
               (set_statusText (set_status (response event) (Some (Finite code)))
                  (Some (Sanitize.sanitizeStatusMessage (Some text)))))
            "content-type" "application/json; charset=utf-8").
Proof.
  intros Hc Ht. unfold prepareErrorResponseBody.
  rewrite (createError_statusObject code text Hc Ht).
  cbn [bind Dyn.get String.eqb Ascii.eqb Bool.eqb declaredNumber declaredString
       of_string statusCode statusMessage data stack].
  unfold stackLines.
  destruct (debug config && truthy (VString stackTrace)); cbn [bind];
    unfold stringify; rewrite tree_of_object; cbn [members_of].
  - rewrite <- (map_map trim VString). rewrite tree_of_strings.
    cbn [tree_of bind option_map of_string]. eexists. reflexivity.
  - cbn [tree_of bind option_map of_string]. eexists. reflexivity.
Qed.

Lemma status_after_error (event : H3Event) (code : number) (text : option string) :
  statusOf
    (Response.setHeader
       (with_response event (set_statusText (set_status (response event) (Some code)) text))
       "content-type" "application/json; charset=utf-8") = Some code /\
  statusText
    (response
       (Response.setHeader
          (with_response event
             (set_statusText (set_status (response event) (Some code)) text))
          "content-type" "application/json; charset=utf-8")) = text /\
  Web.has
    (view
       (Response.setHeader
          (with_response event
             (set_statusText (set_status (response event) (Some code)) text))
          "content-type" "application/json; charset=utf-8")) "content-type" = true.
Proof.
  split; [|split].
  - unfold statusOf, Response.setHeader, Event.setHeader. cbn.
    destruct (_headers (response event)); reflexivity.
  - unfold Response.setHeader, Event.setHeader. cbn.
    destruct (_headers (response event)); reflexivity.
  - apply setHeader_has.
Qed.

(** X15: a function, or a symbol other than the not-found marker, is
    not sent: the body prepared for it is that of an error, the event's
    status becomes 500, its status text names the type that cannot be
    sent, and a [content-type] header is there. *)
Theorem unsendable_value_is_500 (val : value) (event : H3Event) (config : H3Config) :
  typeof val = "function" \/ typeof val = "symbol" ->
  is_symbol val kNotFound = false ->
  exists body event',
    prepareResponseBody stackTrace val event config = Ok (VString body, event') /\
    statusOf event' = Some (Finite 500) /\
    statusText (response event')
      = Some ("[h3] Cannot send " ++ typeof val ++ " as response.")%string /\
    Web.has (view event') "content-type" = true.
Proof.
  intros Ht Hn.
  assert (Hclean :
    Sanitize.sanitizeStatusMessage
      (Some ("[h3] Cannot send " ++ typeof val ++ " as response.")%string)
    = ("[h3] Cannot send " ++ typeof val ++ " as response.")%string).
  { apply filterChars_clean. destruct Ht as [-> | ->]; vm_compute; reflexivity. }
  destruct (statusObject_body 500
              ("[h3] Cannot send " ++ typeof val ++ " as response.") event config)
    as [body Hb]; [lia | reflexivity |].
  rewrite Hclean in Hb.
  exists body. eexists. split; [|apply status_after_error].
  rewrite <- Hb. unfold prepareResponseBody.
  destruct val; cbn in Ht; destruct Ht as [Ht|Ht]; try discriminate Ht.
  - cbn [is_symbol kNotFound] in Hn |- *. rewrite Hn. reflexivity.
  - reflexivity.
Qed.

(** X16: the not-found marker gives an error response on every event
    and in every configuration: status 404, as status text the
    sanitized sentence that names the request's method and path, and no
    header changed but [content-type]. *)
Theorem not_found_is_404 (event : H3Event) (config : H3Config) :
  exists body event',
    prepareResponseBody stackTrace kNotFound event config = Ok (VString body, event') /\
    statusOf event' = Some (Finite 404) /\
    statusText (response event')
      = Some (Sanitize.sanitizeStatusMessage
                (Some ("Cannot find any route matching [" ++ method event ++ "] "
                       ++ path event)%string)) /\
    (forall name, toLowerCase name <> "content-type" ->
       Web.get (view event') name = Web.get (view event) name).
Proof.
  destruct (statusObject_body 404
              ("Cannot find any route matching [" ++ method event ++ "] " ++ path event)
              event config)
    as [body Hb]; [lia | reflexivity |].
  exists body. eexists. split; [exact Hb|].
  destruct (status_after_error event (Finite 404)
              (Some (Sanitize.sanitizeStatusMessage
                (Some ("Cannot find any route matching [" ++ method event ++ "] "
                       ++ path event)%string)))) as (S1 & S2 & _).
  split; [exact S1|]. split; [exact S2|].
  intros name Hn. rewrite view_setHeader_other by exact Hn.
  now rewrite view_status.
Qed.

(** X17: a [Response] returned on an event that carries a status, a
    status text or headers is rebuilt: status and status text of the
    event win when they are truthy, those of the [Response] fill in;
    the headers are the event's alone as soon as the event has any
    header state, so that the headers of the [Response] are then
    dropped as a whole; the event is left as it was. *)
Theorem response_merge (r : Web.Response) (event : H3Event) (config : H3Config) :
  passedThrough (VResponse r) event = false ->
  exists body init,
    prepareResponse stackTrace (VResponse r) event config
      = Ok (Prepared body init, event) /\
    init_status init
      = (if truthy_number (statusOf event) then statusOf event
         else Some (Web.res_status r)) /\
    init_statusText init
      = (if truthy_string (statusText (response event))
         then statusText (response event)
         else Some (Web.res_statusText r)) /\
    headers_of (Prepared body init)
      = match headers_or_init (response event) with
        | Some _ => view event
        | None => Web.res_headers r
        end /\
    body = (if String.eqb (method event) "HEAD" || isNullStatus (statusOf event)
            then VNull else stream_or_null (Web.res_body r)).
Proof.
  intros Hp. cbn [passedThrough] in Hp.
  exists (if String.eqb (method event) "HEAD" || isNullStatus (statusOf event)
          then VNull else stream_or_null (Web.res_body r)).
  exists {| init_status :=
              if truthy_number (statusOf event) then statusOf event
              else Some (Web.res_status r);
            init_statusText :=
              if truthy_string (statusText (response event))
              then statusText (response event)
              else Some (Web.res_statusText r);
            init_headers :=
              match headers_or_init (response event) with
              | Some h => Some h
              | None => Some (OfHeaders (Web.res_headers r))
              end |}.
  split; [|split; [reflexivity|split; [reflexivity|split; [|reflexivity]]]].
  - unfold prepareResponse, statusOf.
    change (is_symbol (VResponse r) kHandled) with false. cbv iota.
    rewrite Hp. reflexivity.
  - cbn [init_headers headers_of].
    unfold view, headers_or_init, headers.
    destruct (_headers (response event)) as [h|]; [reflexivity|].
    destruct (_headersInit (response event)); reflexivity.
Qed.

(** The status [noContent] leaves. *)
Lemma noContent_statusOf (event : H3Event) (code : option number) :
  statusOf (snd (noContent event code))
  = Some (Sanitize.sanitizeStatusCode
            (option_map Sanitize.OfNumber
               (if negb (truthy_number code) && truthy_number (statusOf event)
                   && negb (match statusOf event with
                            | Some s => number_eq s (Finite 200)
                            | None => false
                            end)
                then statusOf event else code))
            (Some (Finite 204))).
Proof.
  unfold noContent, statusOf. cbv zeta.
  set (c := Sanitize.sanitizeStatusCode _ _).
  cbn [fst snd status set_status response with_response].
  destruct (number_eq c (Finite 204)); [apply status_update_headers | reflexivity].
Qed.

Lemma noContent_statusInRange (event : H3Event) (code : option number) :
  exists n, statusOf (snd (noContent event code)) = Some n /\ statusInRange n.
Proof.
  rewrite noContent_statusOf. eexists. split; [reflexivity|].
  match goal with
  | |- context [option_map _ ?x] => destruct x as [n|]
  end; cbn [option_map].
  - destruct (sanitize_number n (Some (Finite 204))) as [->|[-> R]];
      [apply statusInRange_of; lia | exact R].
  - apply statusInRange_of. lia.
Qed.

(** When [noContent] leaves status 204, the header list it leaves is
    the event's without [content-length]. *)
Lemma noContent_view_204 (event : H3Event) (code : option number) :
  statusOf (snd (noContent event code)) = Some (Finite 204) ->
  view (snd (noContent event code)) = Web.delete (view event) "content-length".
Proof.
  unfold noContent, statusOf, view. cbv zeta.
  set (c := Sanitize.sanitizeStatusCode _ _).
  cbn [fst snd status set_status response with_response].
  destruct (number_eq c (Finite 204)) eqn:E.
  - intros _. rewrite headers_update_headers.
    unfold headers, set_status. cbn.
    destruct (_headers (response event)); reflexivity.
  - intros [= H]. rewrite H in E. discriminate.
Qed.

(** X18: [noContent] returns [""] and always leaves a status from 100
    to 999 on the event: the code given when it is in range; without a
    code, 204 on an event whose status is unset or 200, and the event's
    own status when that is another code in range. *)
Theorem noContent_status (event : H3Event) (code : option number) :
  fst (noContent event code) = VString "" /\
  (exists n, statusOf (snd (noContent event code)) = Some n /\ statusInRange n) /\
  (forall z, code = Some (Finite z) -> 100 <= z <= 999 ->
     statusOf (snd (noContent event code)) = Some (Finite z)) /\
  (code = None -> statusOf event = None \/ statusOf event = Some (Finite 200) ->
     statusOf (snd (noContent event code)) = Some (Finite 204)) /\
  (forall z, code = None -> statusOf event = Some (Finite z) ->
     100 <= z <= 999 -> z <> 200 ->
     statusOf (snd (noContent event code)) = Some (Finite z)).
Proof.
  split; [reflexivity|]. split; [apply noContent_statusInRange|].
  rewrite noContent_statusOf. split; [|split].
  - intros z -> Hz. cbn [truthy_number truthy].
    destruct (Z.eqb_spec z 0); [lia|]. cbn [negb andb option_map].
    now rewrite sanitizeStatusCode_in_range.
  - intros -> [Hs|Hs]; rewrite Hs; reflexivity.
  - intros z -> Hs Hz Hne. rewrite Hs. cbn [truthy_number truthy negb andb].
    destruct (Z.eqb_spec z 0); [lia|]. cbn [negb andb number_eq].
    destruct (Z.eqb_spec z 200); [lia|]. cbn [negb option_map].
    now rewrite sanitizeStatusCode_in_range.
Qed.

End ResponseCover.

(** X14, a run: a byte buffer on an event that carries a request id. *)
Lemma serialization_header_frame_witness :
  Web.get
    (Spec.view
       (Spec.stateOf "GET" "/" None None
          (Some [("x-request-id", "7"); ("content-length", "3")])))
    "x-request-id"
  = Web.get
      (Spec.view (Spec.stateOf "GET" "/" None None (Some [("x-request-id", "7")])))
      "x-request-id".
Proof.
  exact (proj1
    (serialization_header_frame "trace" (Dyn.VUint8Array Spec.threeBytes)
       (Spec.stateOf "GET" "/" None None (Some [("x-request-id", "7")]))
       (Spec.stateOf "GET" "/" None None
          (Some [("x-request-id", "7"); ("content-length", "3")]))
       Spec.production (Dyn.VUint8Array Spec.threeBytes) "x-request-id"
       eq_refl eq_refl ltac:(discriminate) ltac:(discriminate))).
Defined.

(** X15, a run: a handler that returns a function. *)
Lemma unsendable_value_is_500_witness :
  exists body event',
    Response.prepareResponseBody "trace" (Dyn.VFunction "() => 1")
      (Spec.request "GET" "/") Spec.production
    = Dyn.Ok (Dyn.VString body, event') /\
    Cover.statusOf event' = Some (JS.Finite 500) /\
    Event.statusText (Response.response event')
    = Some "[h3] Cannot send function as response." /\
    Web.has (Spec.view event') "content-type" = true.
Proof.
  exact (unsendable_value_is_500 "trace" (Dyn.VFunction "() => 1")
           (Spec.request "GET" "/") Spec.production (or_introl eq_refl) eq_refl).
Defined.

(** X17, a run: a [Response] on an event whose status is 201. *)
Lemma response_merge_witness :
  exists body init,
    Response.prepareResponse "trace" (Dyn.VResponse Spec.okResponse)
      (Spec.withStatus (Spec.request "GET" "/") 201) Spec.production
    = Dyn.Ok (Response.Prepared body init,
              Spec.withStatus (Spec.request "GET" "/") 201) /\
    Response.init_status init = Some (JS.Finite 201) /\
    Response.init_statusText init = Some "OK" /\
    Response.headers_of (Response.Prepared body init)
    = [("content-type", "text/plain")] /\
    body = Dyn.VStream [[Byte.x68; Byte.x69]].
Proof.
  exact (response_merge "trace" Spec.okResponse
           (Spec.withStatus (Spec.request "GET" "/") 201) Spec.production eq_refl).
Defined.

(* ===================================================================== *)
(** ** Properties: redirects, and the spelling of header names *)
(* ===================================================================== *)

Section RedirectCover.

Import JS Dyn Web Event Response Spec Cover Util.

Lemma has_set_other (h : Headers) (name other value : string) :
  toLowerCase other <> toLowerCase name ->
  has (set h name value) other = has h other.
Proof. intros H. rewrite !has_values. now rewrite values_set_other. Qed.

(** The header list [redirect] leaves. *)
Lemma redirect_view (event : H3Event) (location : string) (code : option number) :
  view (snd (redirect event location code))
  = (if has (view event) "content-type"
     then set (view event) "location" location
     else set (set (view event) "location" location) "content-type" "text/html").
Proof.
  unfold redirect, view. cbv zeta. cbn [snd response with_response].
  rewrite headers_update_headers, headers_set_status.
  rewrite has_set_other by discriminate.
  destruct (has (fst (headers (response event))) "content-type"); cbn [negb].
  - now rewrite headers_update_headers, headers_set_status.
  - now rewrite !headers_update_headers, headers_set_status.
Qed.

Lemma redirect_statusOf (event : H3Event) (location : string) (code : option number) :
  statusOf (snd (redirect event location code))
  = Some (Sanitize.sanitizeStatusCode
            (Some (Sanitize.OfNumber (match code with Some c => c | None => Finite 302 end)))
            (statusOf event)).
Proof.
  unfold redirect, statusOf. cbv zeta. cbn [snd response with_response].
  destruct (negb _); now rewrite !status_update_headers.
Qed.

(** X19: [redirect] sets the [location] header to the location,
    replacing an earlier one; it sets [content-type] to [text/html] only
    when the event has none, and touches no other header; the status is
    302 without a code and the code when it is from 100 to 999, whether
    or not it is a redirect code; for another code the status the event
    had is kept, 200 when it had none. *)
Theorem redirect_sets_location_and_status (event : H3Event) (location : string)
    (code : option number) :
  Web.get (view (snd (redirect event location code))) "location"
    = Some (normalize location) /\
  Web.get (view (snd (redirect event location code))) "content-type"
    = (if has (view event) "content-type"
       then Web.get (view event) "content-type" else Some "text/html") /\
  (forall name, toLowerCase name <> "location" -> toLowerCase name <> "content-type" ->
     Web.get (view (snd (redirect event location code))) name
     = Web.get (view event) name) /\
  (code = None -> statusOf (snd (redirect event location code)) = Some (Finite 302)) /\
  (forall z, code = Some (Finite z) -> 100 <= z <= 999 ->
     statusOf (snd (redirect event location code)) = Some (Finite z)) /\
  (forall n, code = Some n -> lt n (Finite 100) || gt n (Finite 999) = true ->
     statusOf (snd (redirect event location code))
     = Some (match statusOf event with Some s => s | None => Finite 200 end)).
Proof.
  rewrite redirect_view, redirect_statusOf.
  split; [|split; [|split; [|split; [|split]]]].
  - destruct (has (view event) "content-type").
    + apply get_set_same.
    + rewrite get_set_other by discriminate. apply get_set_same.
  - destruct (has (view event) "content-type").
    + apply get_set_other. discriminate.
    + apply get_set_same.
  - intros name Hl Hc. destruct (has (view event) "content-type");
      rewrite !get_set_other by assumption; reflexivity.
  - intros ->. now rewrite sanitizeStatusCode_in_range by lia.
  - intros z -> Hz. now rewrite sanitizeStatusCode_in_range.
  - intros n -> Hn. now rewrite sanitizeStatusCode_out_of_range.
Qed.

Lemma notQuote_app (a b : string) :
  forallb_string notQuote (a ++ b)
  = forallb_string notQuote a && forallb_string notQuote b.
Proof. induction a as [|c a IH]; cbn; [reflexivity|]. now rewrite IH, andb_assoc. Qed.

Lemma encodeQuotes_notQuote (location : string) :
  forallb_string notQuote (encodeQuotes location) = true.
Proof.
  induction location as [|c l IH]; [reflexivity|]. cbn [encodeQuotes].
  destruct (Ascii.eqb c Json.dquote) eqn:E.
  - rewrite notQuote_app, IH. reflexivity.
  - cbn [forallb_string]. unfold notQuote at 1. rewrite E. exact IH.
Qed.

Lemma encodeQuotes_clean (location : string) :
  forallb_string notQuote location = true -> encodeQuotes location = location.
Proof.
  induction location as [|c l IH]; [reflexivity|]. cbn [encodeQuotes forallb_string].
  unfold notQuote at 1. destruct (Ascii.eqb c Json.dquote); cbn [negb andb].
  - intros H. discriminate H.
  - intros H. now rewrite IH.
Qed.

(** X20: the page [redirect] returns carries the location with every
    double quote written as [%22]: what stands between the quotes of
    the [content] attribute holds no double quote, so that the location
    cannot close the attribute; a location without double quotes is
    written as it is. *)
Theorem redirect_page_encodes_quotes (event : H3Event) (location : string)
    (code : option number) :
  fst (redirect event location code) = VString (refreshPage (encodeQuotes location)) /\
  forallb_string notQuote (encodeQuotes location) = true /\
  (forallb_string notQuote location = true -> encodeQuotes location = location) /\
  forallb_string notQuote ("0; url=" ++ encodeQuotes location) = true.
Proof.
  split; [reflexivity|]. split; [apply encodeQuotes_notQuote|].
  split; [apply encodeQuotes_clean|].
  rewrite notQuote_app, encodeQuotes_notQuote. reflexivity.
Qed.

Lemma values_same_lower (h : Headers) (a b : string) :
  toLowerCase a = toLowerCase b -> values h a = values h b.
Proof. intros H. unfold values, named. now rewrite H. Qed.

(** X21: [setHeader] with two spellings of one header name.  Once
    the [Headers] object exists the second call replaces the first
    value.  Before that, on a response without headers, the names are
    keys of a plain record: the second call replaces the first only
    when the spelling is the same, and otherwise both values are sent,
    joined with a comma. *)
Theorem setHeader_spelling (r : WebEventResponse) (k1 k2 v1 v2 : string) :
  toLowerCase k1 = toLowerCase k2 ->
  (forall h, _headers r = Some h ->
     Web.get (fst (headers (Event.setHeader (Event.setHeader r k1 v1) k2 v2))) k1
     = Some (normalize v2)) /\
  (_headers r = None -> _headersInit r = None ->
     Web.get (fst (headers (Event.setHeader (Event.setHeader r k1 v1) k2 v2))) k1
     = if String.eqb k1 k2 then Some (normalize v2)
       else Some (normalize v1 ++ ", " ++ normalize v2)%string).
Proof.
  intros Hl. split.
  - intros h Hh. unfold Event.setHeader. rewrite Hh. cbn [_headers headers fst].
    unfold Web.get. rewrite (values_same_lower _ k1 k2 Hl).
    now rewrite values_set_same.
  - intros Hh Hi. unfold Event.setHeader. rewrite Hh, Hi.
    cbn [_headers _headersInit headers fst assign].
    destruct (String.eqb k1 k2) eqn:E.
    + cbn [_headers _headersInit headers fst]. unfold Headers_of, Web.get, values.
      cbn [fold_left append app filter fst snd map]. now rewrite named_self.
    + cbn [_headers _headersInit headers fst]. unfold Headers_of, Web.get, values.
      cbn [fold_left append app filter fst snd map]. rewrite named_self.
      unfold named at 1. cbn [fst]. rewrite Hl, String.eqb_refl. reflexivity.
Qed.

End RedirectCover.

(** X21, a run: [Content-Type] and then [content-type] on a fresh
    response. *)
Lemma setHeader_spelling_witness :
  Web.get
    (fst (Event.headers
            (Event.setHeader
               (Event.setHeader Event.new_WebEventResponse "Content-Type" "text/html")
               "content-type" "application/json")))
    "Content-Type"
  = Some "text/html, application/json".
Proof.
  exact (proj2
    (setHeader_spelling Event.new_WebEventResponse "Content-Type" "content-type"
       "text/html" "application/json" eq_refl) eq_refl eq_refl).
Defined.

(* ===================================================================== *)
(** ** Properties: a stream after [close], and the bytes it delivers *)
(* ===================================================================== *)

Section StreamCover.

Import JS SSE Spec Cover.

Lemma write_not_writable (w : Writer) (chunk : Web.Uint8Array) :
  state w <> Writable ->
  state (snd (write w chunk)) = state w /\ written (snd (write w chunk)) = written w.
Proof. unfold write. destruct (state w) eqn:E; [congruence | | ]; cbn; now rewrite ?E. Qed.

Lemma sendPayload_not_writable (s : EventStream) (p : string) :
  state (_writer s) <> Writable ->
  state (_writer (sendPayload s p)) = state (_writer s) /\
  written (_writer (sendPayload s p)) = written (_writer s).
Proof.
  intros H. unfold sendPayload.
  destruct (_paused s && negb (present (_unsentData s))); [now split|].
  destruct (_paused s); [now split|]. cbn. now apply write_not_writable.
Qed.

(** No call makes a writer writable again, and a writer that is not
    writable takes nothing. *)
Lemma call_not_writable (s : EventStream) (c : Call) :
  state (_writer s) <> Writable ->
  state (_writer (call s c)) = state (_writer s) /\
  written (_writer (call s c)) = written (_writer s).
Proof.
  intros H.
  assert (F : forall s0, state (_writer s0) <> Writable ->
            state (_writer (flush s0)) = state (_writer s0) /\
            written (_writer (flush s0)) = written (_writer s0)).
  { intros s0 H0. unfold flush. destruct (_writerIsClosed s0); [now split|].
    destruct (_unsentData s0) as [d|]; [|now split].
    destruct (0 <? String.length d)%nat; [|now split].
    destruct (write_not_writable (_writer s0) (encode d) H0) as [W1 W2].
    destruct (write (_writer s0) (encode d)) as [[|] w]; cbn in *; now split. }
  destruct c as [m| | | |]; cbn [call].
  - destruct m as [i|[|i l]|m|[|m l]]; cbn [push]; try (now split);
      unfold _sendEvent, _sendEvents; destruct (_writerIsClosed s);
      try (now split); now apply sendPayload_not_writable.
  - now split.
  - unfold resume. apply (F (with_paused s false)). exact H.
  - now apply F.
  - unfold close. destruct (_disposed s); [now split|].
    destruct (_writerIsClosed s); [now split|].
    unfold closeWriter. destruct (state (_writer s)) eqn:E; [congruence| |];
      cbn; now rewrite ?E.
Qed.

(** Once the stream knows its writer closed, no call reaches the
    writer. *)
Lemma call_closed (s : EventStream) (c : Call) :
  _writerIsClosed s = true ->
  _writerIsClosed (call s c) = true /\ _writer (call s c) = _writer s.
Proof.
  intros H. destruct c as [m| | | |]; cbn [call].
  - destruct m as [i|[|i l]|m|[|m l]]; cbn [push]; try (now split);
      unfold _sendEvent, _sendEvents; rewrite H; now split.
  - now split.
  - unfold resume, flush. cbn [_writerIsClosed with_paused]. rewrite H. now split.
  - unfold flush. rewrite H. now split.
  - unfold close. destruct (_disposed s); [now split|]. rewrite H. now split.
Qed.

Lemma callAll_finished (cs : list Call) : forall s : EventStream,
  state (_writer s) <> Writable \/ _writerIsClosed s = true ->
  written (_writer (callAll s cs)) = written (_writer s).
Proof.
  induction cs as [|c cs IH]; intros s H; [reflexivity|].
  unfold callAll in *. cbn [fold_left]. destruct H as [H|H].
  - destruct (call_not_writable s c H) as [S W].
    rewrite IH by (left; rewrite S; exact H). exact W.
  - destruct (call_closed s c H) as [C W].
    rewrite IH by (right; exact C). now rewrite W.
Qed.

Lemma close_state (s : EventStream) :
  _disposed s = false ->
  state (_writer (close s)) <> Writable \/ _writerIsClosed (close s) = true.
Proof.
  intros D. unfold close. rewrite D.
  destruct (_writerIsClosed s) eqn:C; [right; exact C|].
  unfold closeWriter. destruct (state (_writer s)) eqn:E; cbn.
  - now right.
  - left. rewrite E. discriminate.
  - left. rewrite E. discriminate.
Qed.

Lemma close_written (s : EventStream) :
  written (_writer (close s)) = written (_writer s).
Proof.
  unfold close. destruct (_disposed s); [reflexivity|].
  destruct (_writerIsClosed s); [reflexivity|].
  unfold closeWriter. destruct (state (_writer s)); reflexivity.
Qed.

(** X22: after [close], on a stream not closed before, nothing more
    is delivered: whatever calls of [push], [pause], [resume], [flush]
    and [close] follow, in any number and order, the chunks the stream
    has taken are those it had taken before; a second [close] changes
    nothing; and after closing a writable writer every [push] returns
    the stream as it is. *)
Theorem nothing_is_delivered_after_close (s : EventStream) (cs : list Call) :
  _disposed s = false ->
  written (_writer (callAll (close s) cs)) = written (_writer s) /\
  delivered (callAll (close s) cs) = delivered s /\
  close (close s) = close s /\
  (state (_writer s) = Writable ->
     _writerIsClosed (close s) = true /\
     forall m, push (close s) m = close s).
Proof.
  intros D.
  assert (W : written (_writer (callAll (close s) cs)) = written (_writer s)).
  { rewrite callAll_finished by (apply close_state; exact D). apply close_written. }
  split; [exact W|]. split; [unfold delivered; now rewrite W|]. split.
  - unfold close at 1.
    assert (D' : _disposed (close s) = true).
    { unfold close. rewrite D. reflexivity. }
    now rewrite D'.
  - intros Hs.
    assert (C : _writerIsClosed (close s) = true).
    { unfold close. rewrite D. destruct (_writerIsClosed s) eqn:E; cbn; [exact E|].
      unfold closeWriter. rewrite Hs. reflexivity. }
    split; [exact C|]. intros m.
    destruct m as [i|[|i l]|m|[|m l]]; cbn [push]; try reflexivity;
      unfold _sendEvent, _sendEvents; now rewrite C.
Qed.

Lemma encode_app (a b : string) : encode (a ++ b) = encode a ++ encode b.
Proof.
  induction a as [|c a IH]; [reflexivity|]. cbn [append encode].
  now rewrite IH, app_assoc.
Qed.

Lemma formatEventStreamMessages_fold (ms : list EventStreamMessage) (acc : string) :
  fold_left (fun result msg => (result ++ formatEventStreamMessage msg)%string) ms acc
  = (acc ++ formatEventStreamMessages ms)%string.
Proof.
  unfold formatEventStreamMessages. revert acc.
  induction ms as [|m ms IH]; intros acc; cbn [fold_left].
  - now rewrite string_app_empty_r.
  - rewrite IH. rewrite (IH ("" ++ formatEventStreamMessage m)%string).
    cbn [append]. now rewrite string_app_assoc.
Qed.

(** The text of an array of messages is the texts of its messages, one
    after the other. *)
Lemma formatEventStreamMessages_cons (m : EventStreamMessage)
    (ms : list EventStreamMessage) :
  formatEventStreamMessages (m :: ms)
  = (formatEventStreamMessage m ++ formatEventStreamMessages ms)%string.
Proof.
  unfold formatEventStreamMessages at 1. cbn [fold_left].
  now rewrite formatEventStreamMessages_fold.
Qed.

Lemma payload_messages (ms : list EventStreamMessage) :
  payload (ManyMessages ms) = payloads (map OneMessage ms).
Proof.
  cbn [payload]. induction ms as [|m ms IH]; [reflexivity|].
  rewrite formatEventStreamMessages_cons, IH. reflexivity.
Qed.

Lemma payload_strings (items : list string) :
  payload (ManyStrings items) = payloads (map OneString items).
Proof.
  cbn [payload]. induction items as [|i items IH]; [reflexivity|].
  cbn [map]. rewrite formatEventStreamMessages_cons, IH. reflexivity.
Qed.

(** One push on an open, unpaused stream. *)
Lemma push_unpaused (s : EventStream) (m : Pushed) :
  _writerIsClosed s = false -> _paused s = false -> emptyArray m = false ->
  push s m = with_writer s (snd (write (_writer s) (encode (payload m)))).
Proof.
  intros C P E.
  destruct m as [i|[|i l]|m|[|m l]]; try discriminate E; cbn [push payload];
    unfold _sendEvent, _sendEvents, sendPayload; rewrite C, P; reflexivity.
Qed.

(** X23: on a stream that is neither paused nor closed, a [push] of
    anything but an empty array is exactly one call of [write], with the
    encoded payload; the chunk is taken when the writer is writable and
    lost when it is not, and the pending buffer is untouched either
    way. *)
Theorem push_is_one_write (s : EventStream) (m : Pushed) :
  _writerIsClosed s = false -> _paused s = false -> emptyArray m = false ->
  calls (_writer (push s m)) = calls (_writer s) ++ [encode (payload m)] /\
  (state (_writer s) = Writable ->
     written (_writer (push s m)) = written (_writer s) ++ [encode (payload m)]) /\
  (state (_writer s) <> Writable ->
     written (_writer (push s m)) = written (_writer s)) /\
  state (_writer (push s m)) = state (_writer s) /\
  _unsentData (push s m) = _unsentData s /\
  _paused (push s m) = false /\ _writerIsClosed (push s m) = false.
Proof.
  intros C P E. rewrite (push_unpaused s m C P E).
  cbn [_writer _unsentData _paused _writerIsClosed with_writer].
  unfold write. destruct (state (_writer s)) eqn:S; cbn;
    repeat split; try assumption; try congruence; intros; congruence.
Qed.

Lemma push_delivered (s : EventStream) (m : Pushed) :
  _writerIsClosed s = false -> _paused s = false -> state (_writer s) = Writable ->
  (_writerIsClosed (push s m) = false /\ _paused (push s m) = false /\
   state (_writer (push s m)) = Writable) /\
  delivered (push s m) = delivered s ++ encode (payload m).
Proof.
  intros C P S. destruct (emptyArray m) eqn:E.
  - destruct m as [i|[|i l]|m|[|m l]]; try discriminate E; cbn [push payload];
      (split; [now repeat split|]); now rewrite app_nil_r.
  - rewrite (push_unpaused s m C P E). unfold write. rewrite S.
    cbn [snd _writer _paused _writerIsClosed with_writer state written].
    split; [now repeat split|].
    unfold delivered. cbn [_writer with_writer written].
    rewrite concat_app. cbn [concat]. now rewrite app_nil_r.
Qed.

(** X24: on a writable stream that is neither paused nor closed, the
    bytes delivered by a run of pushes are the bytes delivered before,
    followed by the encoded payloads in push order; so an array of
    messages, or of strings, delivers the same bytes as its elements
    pushed one by one. *)
Theorem delivered_bytes_are_the_payloads (s : EventStream) (ms : list Pushed) :
  _writerIsClosed s = false -> _paused s = false -> state (_writer s) = Writable ->
  delivered (pushAll s ms) = delivered s ++ encode (payloads ms) /\
  (forall msgs, delivered (push s (ManyMessages msgs))
                = delivered (pushAll s (map OneMessage msgs))) /\
  (forall items, delivered (push s (ManyStrings items))
                 = delivered (pushAll s (map OneString items))).
Proof.
  intros C P S.
  assert (G : forall l s0,
    _writerIsClosed s0 = false -> _paused s0 = false -> state (_writer s0) = Writable ->
    delivered (pushAll s0 l) = delivered s0 ++ encode (payloads l)).
  { induction l as [|m l IH]; intros s0 C0 P0 S0.
    - cbn. now rewrite app_nil_r.
    - destruct (push_delivered s0 m C0 P0 S0) as ((C1 & P1 & S1) & D).
      unfold pushAll in *. cbn [fold_left].
      rewrite (IH _ C1 P1 S1), D. cbn [payloads fold_right]. fold (payloads l).
      now rewrite encode_app, app_assoc. }
  split; [now apply G|]. split.
  - intros msgs. rewrite (G _ s C P S).
    destruct (push_delivered s (ManyMessages msgs) C P S) as (_ & ->).
    now rewrite payload_messages.
  - intros items. rewrite (G _ s C P S).
    destruct (push_delivered s (ManyStrings items) C P S) as (_ & ->).
    now rewrite payload_strings.
Qed.

(** X25: a message whose [id] and [event] are absent or empty and
    whose [retry] is absent or not an integer is serialized as its
    [data] line alone, exactly as the message made of a plain string. *)
Theorem format_leaves_out_empty_fields (m : EventStreamMessage) :
  present (id m) = false -> present (event m) = false ->
  (forall n, retry m = Some n -> isInteger n = false) ->
  formatEventStreamMessage m = ("data: " ++ data m ++ LF ++ LF)%string /\
  formatEventStreamMessage m = formatEventStreamMessage (ofData (data m)).
Proof.
  intros Hi He Hr. unfold formatEventStreamMessage. rewrite Hi, He.
  cbn [id event retry data ofData present].
  destruct (retry m) as [n|]; [rewrite (Hr n eq_refl)|]; now split.
Qed.

End StreamCover.

(** X22, a run: a push and a resume after [close] on a fresh stream. *)
Lemma nothing_is_delivered_after_close_witness :
  SSE.written
    (SSE._writer
       (Cover.callAll (SSE.close SSE.new_EventStream)
          [Cover.Push (SSE.OneString "late"); Cover.Pause;
           Cover.Push (SSE.OneString "later"); Cover.Resume])) = [].
Proof.
  exact (proj1
    (nothing_is_delivered_after_close SSE.new_EventStream
       [Cover.Push (SSE.OneString "late"); Cover.Pause;
        Cover.Push (SSE.OneString "later"); Cover.Resume] eq_refl)).
Defined.

(** X23, a run: one string on a fresh stream. *)
Lemma push_is_one_write_witness :
  SSE.calls (SSE._writer (SSE.push SSE.new_EventStream (SSE.OneString "a")))
  = [] ++ [SSE.encode (Spec.payload (SSE.OneString "a"))].
Proof.
  exact (proj1
    (push_is_one_write SSE.new_EventStream (SSE.OneString "a")
       eq_refl eq_refl eq_refl)).
Defined.

(** X24, a run: two strings, one by one and as an array. *)
Lemma delivered_bytes_are_the_payloads_witness :
  Cover.delivered (SSE.push SSE.new_EventStream (SSE.ManyStrings ["a"; "b"]))
  = Cover.delivered
      (Spec.pushAll SSE.new_EventStream (map SSE.OneString ["a"; "b"])).
Proof.
  exact (proj2 (proj2
    (delivered_bytes_are_the_payloads SSE.new_EventStream []
       eq_refl eq_refl eq_refl)) ["a"; "b"]).
Defined.

(** X25, a run: an empty [id] and a [retry] that is [NaN]. *)
Lemma format_leaves_out_empty_fields_witness :
  SSE.formatEventStreamMessage (Cover.bare "x")
  = SSE.formatEventStreamMessage (SSE.ofData "x").
Proof.
  exact (proj2
    (format_leaves_out_empty_fields (Cover.bare "x") eq_refl eq_refl
       (fun n H =>
          match H in (_ = o)
                return (match o with
                        | Some k => JS.isInteger k = false
                        | None => True
                        end)
          with eq_refl => eq_refl end))).
Defined.

(* ===================================================================== *)
(** ** Properties: sending an event stream *)
(* ===================================================================== *)

Section SendCover.

Import JS Dyn Web Event SSE Send.

(** The event after the three headers that are set first. *)
Lemma setEventStreamHeaders_cases (event : H3Event) :
  setEventStreamHeaders event
  = match isHttp2Request event with
    | Ok false =>
        (Ok tt,
         Send.set "connection" "keep-alive"
           (Send.set "x-accel-buffering" "no"
              (Send.set "cache-control"
                 "private, no-cache, no-store, no-transform, must-revalidate, max-age=0"
                 (Send.set "content-type" "text/event-stream" event))))
    | Ok true =>
        (Ok tt,
         Send.set "x-accel-buffering" "no"
           (Send.set "cache-control"
              "private, no-cache, no-store, no-transform, must-revalidate, max-age=0"
              (Send.set "content-type" "text/event-stream" event)))
    | Throw e =>
        (Throw e,
         Send.set "x-accel-buffering" "no"
           (Send.set "cache-control"
              "private, no-cache, no-store, no-transform, must-revalidate, max-age=0"
              (Send.set "content-type" "text/event-stream" event)))
    end.
Proof.
  unfold setEventStreamHeaders. cbv zeta.
  change (isHttp2Request (Send.set "x-accel-buffering" "no" _))
    with (isHttp2Request event).
  destruct (isHttp2Request event) as [[|]|]; reflexivity.
Qed.

Lemma three_headers_view (event : H3Event) :
  fst (headers (response
         (Send.set "x-accel-buffering" "no"
            (Send.set "cache-control"
               "private, no-cache, no-store, no-transform, must-revalidate, max-age=0"
               (Send.set "content-type" "text/event-stream" event)))))
  = Web.set
      (Web.set (Web.set (fst (headers (response event)))
                        "content-type" "text/event-stream")
               "cache-control"
               "private, no-cache, no-store, no-transform, must-revalidate, max-age=0")
      "x-accel-buffering" "no".
Proof. unfold Send.set. cbn [response]. now rewrite !headers_update_headers. Qed.

Lemma three_headers_status (event : H3Event) :
  status (response
    (Send.set "x-accel-buffering" "no"
       (Send.set "cache-control"
          "private, no-cache, no-store, no-transform, must-revalidate, max-age=0"
          (Send.set "content-type" "text/event-stream" event))))
  = status (response event).
Proof. unfold Send.set. cbn [response]. now rewrite !status_update_headers. Qed.

(** X26: the first [send] sets the event-stream headers, replacing
    earlier values: [content-type], [cache-control] and
    [x-accel-buffering], and then asks the request's headers for the
    pseudo-headers [:path] and, if that one is not there, [:method].
    When the request's headers answer, [send] goes on: [connection:
    keep-alive] unless one of the two is there, status 200, the stream
    marked as handled; it touches no other header and nothing of what
    the stream has buffered or written, and a second [send] changes
    nothing.  When the lookup throws, as the [Headers] of the Fetch
    standard does on a name that starts with a colon, [send] rejects
    with what was thrown: the three headers are set, the status is as
    before and the stream is not marked as handled. *)
Theorem send_sets_stream_headers (s : EventStream) (event : H3Event) :
  _handled s = false ->
  (forall http2, isHttp2Request event = Ok http2 ->
     fst (send s event) = Ok tt /\
     _handled (fst (snd (send s event))) = true /\
     status (response (snd (snd (send s event)))) = Some (Finite 200) /\
     Web.get (fst (headers (response (snd (snd (send s event)))))) "content-type"
       = Some "text/event-stream" /\
     Web.get (fst (headers (response (snd (snd (send s event)))))) "cache-control"
       = Some "private, no-cache, no-store, no-transform, must-revalidate, max-age=0" /\
     Web.get (fst (headers (response (snd (snd (send s event)))))) "x-accel-buffering"
       = Some "no" /\
     Web.get (fst (headers (response (snd (snd (send s event)))))) "connection"
       = (if http2
          then Web.get (fst (headers (response event))) "connection"
          else Some "keep-alive") /\
     (forall name,
        ~ In (toLowerCase name)
             ["content-type"; "cache-control"; "x-accel-buffering"; "connection"] ->
        Web.get (fst (headers (response (snd (snd (send s event)))))) name
        = Web.get (fst (headers (response event))) name) /\
     (_writer (fst (snd (send s event))) = _writer s /\
      _unsentData (fst (snd (send s event))) = _unsentData s /\
      _paused (fst (snd (send s event))) = _paused s) /\
     send (fst (snd (send s event))) (snd (snd (send s event)))
     = (Ok tt, snd (send s event))) /\
  (forall e, isHttp2Request event = Throw e ->
     send s event
     = (Throw e,
        (s,
         Send.set "x-accel-buffering" "no"
           (Send.set "cache-control"
              "private, no-cache, no-store, no-transform, must-revalidate, max-age=0"
              (Send.set "content-type" "text/event-stream" event)))) /\
     _handled (fst (snd (send s event))) = false /\
     status (response (snd (snd (send s event)))) = status (response event) /\
     Web.get (fst (headers (response (snd (snd (send s event)))))) "content-type"
       = Some "text/event-stream" /\
     Web.get (fst (headers (response (snd (snd (send s event)))))) "cache-control"
       = Some "private, no-cache, no-store, no-transform, must-revalidate, max-age=0" /\
     Web.get (fst (headers (response (snd (snd (send s event)))))) "x-accel-buffering"
       = Some "no" /\
     (forall name,
        ~ In (toLowerCase name)
             ["content-type"; "cache-control"; "x-accel-buffering"] ->
        Web.get (fst (headers (response (snd (snd (send s event)))))) name
        = Web.get (fst (headers (response event))) name)) /\
  (forall e, request_has event ":path" = Throw e -> isHttp2Request event = Throw e) /\
  (request_has event ":path" = Ok true -> isHttp2Request event = Ok true) /\
  (request_has event ":path" = Ok false ->
   isHttp2Request event = request_has event ":method").
Proof.
  intros H. split; [|split; [|split; [|split]]].
  - intros http2 Hh. unfold send. rewrite H, setEventStreamHeaders_cases, Hh.
    destruct http2; cbn [fst snd response status set_status _handled
                         _writer _unsentData _paused];
      rewrite headers_set_status;
      unfold Send.set at 1; cbn [response];
      rewrite ?headers_update_headers; rewrite ?three_headers_view;
      unfold Send.set; cbn [response];
      rewrite ?headers_update_headers;
      (split; [reflexivity|]); (split; [reflexivity|]); (split; [reflexivity|]);
      (split; [rewrite ?get_set_other by discriminate; apply get_set_same|]);
      (split; [rewrite ?get_set_other by discriminate; apply get_set_same|]);
      (split; [rewrite ?get_set_other by discriminate; apply get_set_same|]);
      (split; [rewrite ?get_set_other by discriminate;
               reflexivity || apply get_set_same|]);
      (split; [intros name Hn; cbn [In] in Hn;
               rewrite !get_set_other
                 by (intros E; apply Hn; rewrite E; cbn; tauto);
               reflexivity|]);
      (split; [now repeat split | reflexivity]).
  - intros e He. unfold send. rewrite H, setEventStreamHeaders_cases, He.
    cbn [fst snd]. rewrite three_headers_status, three_headers_view.
    split; [reflexivity|]. split; [exact H|]. split; [reflexivity|].
    split; [rewrite ?get_set_other by discriminate; apply get_set_same|].
    split; [rewrite ?get_set_other by discriminate; apply get_set_same|].
    split; [apply get_set_same|].
    intros name Hn. cbn [In] in Hn.
    rewrite !get_set_other by (intros E; apply Hn; rewrite E; cbn; tauto).
    reflexivity.
  - intros e He. unfold isHttp2Request. now rewrite He.
  - intros He. unfold isHttp2Request. now rewrite He.
  - intros He. unfold isHttp2Request. now rewrite He.
Qed.

End SendCover.

(** X26, a run: a fresh stream on an HTTP/1.1 request behind a Node.js
    adapter. *)
Lemma send_sets_stream_headers_witness :
  Event.status
    (Send.response (snd (snd (Send.send SSE.new_EventStream Cover.plainRequest))))
  = Some (JS.Finite 200).
Proof.
  exact (proj1 (proj2 (proj2
    (proj1 (send_sets_stream_headers SSE.new_EventStream Cover.plainRequest eq_refl)
       false eq_refl)))).
Defined.

(** The same stream on a request whose headers are the [Headers] of the
    Fetch standard: [send] rejects, the status is not set and the stream
    is not marked as handled, while [content-type] is set already. *)
Example send_rejects_on_fetch_headers :
  fst (Send.send SSE.new_EventStream Cover.fetchRequest)
  = Dyn.Throw (Dyn.TypeError "Headers.has: invalid header name") /\
  Event.status
    (Send.response (snd (snd (Send.send SSE.new_EventStream Cover.fetchRequest))))
  = None /\
  SSE._handled (fst (snd (Send.send SSE.new_EventStream Cover.fetchRequest))) = false /\
  Web.get
    (fst (Event.headers
            (Send.response
               (snd (snd (Send.send SSE.new_EventStream Cover.fetchRequest))))))
    "content-type" = Some "text/event-stream" /\
  Web.get
    (fst (Event.headers
            (Send.response
               (snd (snd (Send.send SSE.new_EventStream Cover.fetchRequest))))))
    "connection" = None.
Proof. repeat split. Qed.

(* ===================================================================== *)
(** ** Properties: CORS *)
(* ===================================================================== *)

Section CorsCover.

Import JS Web Cors Cover.

(** What the loop over the entries does to the header list and to the
    status. *)
Lemma appendAll_view (hs : HeadersObject) (event : H3Event) :
  Spec.view (base (appendAll hs event))
  = Spec.view (base event)
    ++ map (fun kv => (toLowerCase (fst kv), normalize (snd kv))) hs.
Proof.
  unfold appendAll, Spec.view. cbn [base Response.response Response.with_response].
  generalize (Response.response (base event)) as r.
  induction hs as [|kv hs IH]; intros r; cbn [fold_left map].
  - now rewrite app_nil_r.
  - rewrite IH, headers_update_headers. unfold append. now rewrite <- app_assoc.
Qed.

Lemma appendAll_status (hs : HeadersObject) (event : H3Event) :
  statusOf (base (appendAll hs event)) = statusOf (base event).
Proof.
  unfold appendAll, statusOf. cbn [base Response.response Response.with_response].
  generalize (Response.response (base event)) as r.
  induction hs as [|kv hs IH]; intros r; cbn [fold_left]; [reflexivity|].
  now rewrite IH, status_update_headers.
Qed.

(** [createOriginHeaders] does not throw, and gives one of three
    shapes. *)
Lemma createOriginHeaders_cases (event : H3Event) (options : H3CorsOptions) :
  exists hs,
    createOriginHeaders event options = Dyn.Ok hs /\
    (hs = [] \/
     (exists v, hs = [("access-control-allow-origin", v)]) \/
     (exists v, hs = [("access-control-allow-origin", v); ("vary", "origin")])).
Proof.
  unfold createOriginHeaders, isCorsOriginAllowed. cbv zeta.
  destruct (origin options) as [[s|l|f]|]; [| | |eauto 6].
  - destruct (absent _); [eauto 6|]. destruct (_ || _); eauto 7.
  - destruct (absent _); [eauto 6|]. cbn [Dyn.bind].
    destruct (existsb _ l); eauto 7.
  - destruct (absent _); [eauto 6|]. cbn [Dyn.bind].
    destruct (f _); eauto 7.
Qed.

(** X27: with a list as the [origin] option and an [origin] header
    on the request, the origin is allowed exactly when an entry of the
    list matches it; an allowed origin is echoed in
    [access-control-allow-origin], with [vary: origin], and never
    answered with ["*"]; for an origin that is not allowed the CORS
    headers appended to the response hold no
    [access-control-allow-origin]. *)
Theorem cors_origin_is_checked (event : H3Event) (options : H3CorsOptions)
    (o : string) (l : list Matcher) :
  Web.get (request_headers event) "origin" = Some o ->
  String.eqb o "" = false ->
  origin options = Some (OriginList l) ->
  isCorsOriginAllowed (Some o) options = Dyn.Ok (existsb (matches o) l) /\
  createOriginHeaders event options
    = Dyn.Ok (if existsb (matches o) l
              then [("access-control-allow-origin", o); ("vary", "origin")]
              else []) /\
  exists event',
    appendCorsHeaders event options = Dyn.Ok event' /\
    Web.values (Spec.view (base event')) "access-control-allow-origin"
    = Web.values (Spec.view (base event)) "access-control-allow-origin"
      ++ (if existsb (matches o) l then [normalize o] else []).
Proof.
  intros Ho Hne Hl.
  assert (A : isCorsOriginAllowed (Some o) options = Dyn.Ok (existsb (matches o) l)).
  { unfold isCorsOriginAllowed. rewrite Hl. cbn [absent text]. now rewrite Hne. }
  assert (C : createOriginHeaders event options
              = Dyn.Ok (if existsb (matches o) l
                        then [("access-control-allow-origin", o); ("vary", "origin")]
                        else [])).
  { unfold createOriginHeaders. cbv zeta. rewrite Hl, Ho. cbn [absent text].
    rewrite Hne. rewrite A. reflexivity. }
  split; [exact A|]. split; [exact C|].
  unfold appendCorsHeaders, corsHeaders. rewrite C. cbn [Dyn.bind].
  eexists. split; [reflexivity|]. rewrite appendAll_view.
  unfold values. rewrite filter_app, map_app. f_equal.
  unfold createCredentialsHeaders, createExposeHeaders.
  destruct (existsb (matches o) l), (credentials options) as [[|]|],
           (exposeHeaders options) as [[|e]|]; reflexivity.
Qed.

(** X28: [handleCors] does not throw.  On a preflight request it
    returns [""] and leaves a status from 100 to 999, which is 204 when
    the options give no preflight status, and then the response has no
    [content-length]; on any other request it returns [false] and leaves
    the status alone.  The request is not changed. *)
Theorem handleCors_answers_preflight (event : H3Event) (options : H3CorsOptions) :
  (isPreflightRequest event = true ->
   exists event',
     handleCors event options = Dyn.Ok (Dyn.VString "", event') /\
     request_headers event' = request_headers event /\
     (exists n, statusOf (base event') = Some n /\ statusInRange n) /\
     (match preflight options with Some p => statusCode p | None => None end = None ->
        statusOf (base event') = Some (Finite 204) /\
        Web.has (Spec.view (base event')) "content-length" = false)) /\
  (isPreflightRequest event = false ->
   exists event',
     handleCors event options = Dyn.Ok (Dyn.VBoolean false, event') /\
     request_headers event' = request_headers event /\
     statusOf (base event') = statusOf (base event)).
Proof.
  destruct (createOriginHeaders_cases event options) as (hs & Hhs & _).
  split; intros Hp; unfold handleCors; rewrite Hp.
  - unfold appendCorsPreflightHeaders, preflightHeaders. rewrite Hhs. cbn [Dyn.bind].
    set (e1 := appendAll _ event).
    set (code := match preflight (resolveCorsOptions options) with
                 | Some p => statusCode p
                 | None => None
                 end).
    destruct (Response.noContent (base e1) code) as [v b] eqn:N.
    assert (Hv : v = fst (Response.noContent (base e1) code)) by now rewrite N.
    assert (Hb : b = snd (Response.noContent (base e1) code)) by now rewrite N.
    exists {| request_headers := request_headers e1; base := b |}.
    cbn [request_headers base]. rewrite Hv, Hb.
    split; [reflexivity|]. split; [reflexivity|].
    split; [apply noContent_statusInRange|].
    intros Hnone.
    assert (Hcode : code = Some (Finite 204)).
    { unfold code, resolveCorsOptions. cbn [preflight statusCode]. now rewrite Hnone. }
    assert (S : statusOf (snd (Response.noContent (base e1) code)) = Some (Finite 204)).
    { rewrite noContent_statusOf, Hcode. reflexivity. }
    split; [exact S|]. rewrite (noContent_view_204 _ _ S). apply has_delete.
  - unfold appendCorsHeaders, corsHeaders. rewrite Hhs. cbn [Dyn.bind].
    eexists. split; [reflexivity|]. split; [reflexivity|]. apply appendAll_status.
Qed.

(** X29: in the headers of a preflight answer the key [vary] is
    written twice, and the later value wins: with a list of allowed
    request headers in the options, the value appended to the
    response's [vary] is [access-control-request-headers] alone, and
    [origin] is not in it, also when the origin was echoed; the allowed
    request headers are joined with commas. *)
Theorem preflight_vary_names_request_headers_only (event : H3Event)
    (options : H3CorsOptions) (h : string) (hs : list string) :
  allowHeaders options = Some (Names (h :: hs)) ->
  exists headers event',
    preflightHeaders event options = Dyn.Ok headers /\
    Web.read headers "vary" = Some "access-control-request-headers" /\
    Web.read headers "access-control-allow-headers" = Some (Dyn.join "," (h :: hs)) /\
    appendCorsPreflightHeaders event options = Dyn.Ok event' /\
    Web.values (Spec.view (base event')) "vary"
    = Web.values (Spec.view (base event)) "vary" ++ ["access-control-request-headers"].
Proof.
  intros Ha.
  destruct (createOriginHeaders_cases event options) as (o & Ho & Hshape).
  unfold appendCorsPreflightHeaders, preflightHeaders. rewrite Ho. cbn [Dyn.bind].
  eexists _, _. split; [reflexivity|].
  assert (G : forall hd,
    hd = spread (spread (spread (spread (spread [] o)
                                      (createCredentialsHeaders options))
                              (createMethodsHeaders options))
                      (createAllowHeaderHeaders event options))
              (createMaxAgeHeader options) ->
    Web.read hd "vary" = Some "access-control-request-headers" /\
    Web.read hd "access-control-allow-headers" = Some (Dyn.join "," (h :: hs)) /\
    Web.values (map (fun kv => (toLowerCase (fst kv), normalize (snd kv))) hd) "vary"
    = ["access-control-request-headers"]).
  { intros hd ->.
    unfold createCredentialsHeaders, createMethodsHeaders, createAllowHeaderHeaders,
           createMaxAgeHeader.
    rewrite Ha. cbv zeta.
    destruct Hshape as [-> | [[v ->] | [v ->]]];
      destruct (credentials options) as [[|]|];
      destruct (methods options) as [[|ms]|];
      try destruct (0 <? List.length ms)%nat;
      destruct (absent (maxAge options));
      repeat split. }
  destruct (G _ eq_refl) as (G1 & G2 & G3).
  split; [exact G1|]. split; [exact G2|]. split; [reflexivity|].
  rewrite appendAll_view. unfold values at 1. rewrite filter_app, map_app.
  f_equal. exact G3.
Qed.

End CorsCover.

(** X27, a run: an origin that is not on the list gets no header. *)
Lemma cors_origin_is_checked_witness :
  Cors.createOriginHeaders
    (Cover.crossOrigin "GET" "https://evil.example" [])
    (Cover.onlyOrigin "https://app.example")
  = Dyn.Ok [].
Proof.
  exact (proj1 (proj2
    (cors_origin_is_checked
       (Cover.crossOrigin "GET" "https://evil.example" [])
       (Cover.onlyOrigin "https://app.example")
       "https://evil.example" [Cors.Exact "https://app.example"]
       eq_refl eq_refl eq_refl))).
Defined.

(** X29, a run: a preflight request from the allowed origin. *)
Lemma preflight_vary_names_request_headers_only_witness :
  exists headers event',
    Cors.preflightHeaders
      (Cover.crossOrigin "OPTIONS" "https://app.example"
         [("access-control-request-method", "POST")])
      (Cover.allowingHeaders "https://app.example" ["x-token"])
    = Dyn.Ok headers /\
    Web.read headers "vary" = Some "access-control-request-headers" /\
    Web.read headers "access-control-allow-headers" = Some "x-token" /\
    Cors.appendCorsPreflightHeaders
      (Cover.crossOrigin "OPTIONS" "https://app.example"
         [("access-control-request-method", "POST")])
      (Cover.allowingHeaders "https://app.example" ["x-token"])
    = Dyn.Ok event' /\
    Web.values (Spec.view (Cors.base event')) "vary"
    = [] ++ ["access-control-request-headers"].
Proof.
  exact (preflight_vary_names_request_headers_only
           (Cover.crossOrigin "OPTIONS" "https://app.example"
              [("access-control-request-method", "POST")])
           (Cover.allowingHeaders "https://app.example" ["x-token"])
           "x-token" [] eq_refl).
Defined.
